(** * VelodynePostNode: packets in, point clouds out

    A shallow embedding of [src/velodyne_post/lib/VelodynePostNode.cpp]:
    the two decode callbacks, the batch accumulator, [publish], the
    constructor with [getParameters], and the subscription timer.

    The node is a C++ object mutated by callbacks that a single-threaded
    dispatcher runs one at a time.  Its members are the fields of [Node];
    every method is a computation in the monad [M], which threads the
    node, collects the externally visible effects in a trace, and
    distinguishes a normal return from a C++ exception leaving the method
    and from undefined behaviour.

    libvelodyne, snappy and ROS are not part of this code base.  What the
    node needs of libvelodyne and snappy is gathered in the class
    [External]; the parameter server, the subscriber count and the file
    system are inputs; calls into ROS and the standard containers return
    normally. *)

From Stdlib Require Import ZArith Lia Bool List Ascii String.
From Stdlib Require Import Floats.SpecFloat.
From stdpp Require Import base option list strings gmap.

Local Open Scope Z_scope.

(** ** IEEE 754 binary64 and binary32

    [double] values are [spec_float]s of precision 53; all operations are
    the ones of the standard library's executable specification. *)

Module Double.

Definition prec : Z := 53.
Definition emax : Z := 1024.

Definition t : Type := spec_float.

(** Nearest double to [m * 2^e] (ties to even). *)
Definition of_scaled (m e : Z) : t := binary_normalize prec emax m e false.

(** Integer to double conversion, as in [(double) i]. *)
Definition of_Z (z : Z) : t := of_scaled z 0.

Definition add : t → t → t := SFadd prec emax.
Definition mul : t → t → t := SFmul prec emax.
Definition div : t → t → t := SFdiv prec emax.
Definition leb : t → t → bool := SFleb.

(** The literal [0.5]. *)
Definition half : t := S754_finite false 4503599627370496 (-53).

(** [std::round]: the nearest integer, halfway cases away from zero. *)
Definition round (x : t) : t :=
  match x with
  | S754_finite s m e =>
      if 0 <=? e then x
      else
        let q := Z.shiftr (Zpos m + Z.shiftl 1 (- e - 1)) (- e) in
        binary_normalize prec emax (cond_Zopp s q) 0 s
  | _ => x
  end.

(** Conversion to [uint64_t]: truncation toward zero.  C++ leaves the
    conversion undefined when the truncated value does not fit; the
    model clamps it to the nearest bound, and NaN to 0. *)
Definition to_uint64 (x : t) : Z :=
  match x with
  | S754_zero _ | S754_nan => 0
  | S754_infinity s => if s then 0 else 2 ^ 64 - 1
  | S754_finite s m e =>
      if s then 0 else Z.min (Z.shiftl (Zpos m) e) (2 ^ 64 - 1)
  end.

(** The double that holds the integer [a], for [0 < a < 2^53]: the
    mantissa is [a] shifted up to 53 bits. *)
Definition canon (s : bool) (a : Z) : t :=
  S754_finite s (Z.to_pos (a * 2 ^ (52 - Z.log2 a))) (Z.log2 a - 52).

(** A shift register that has lost no bit. *)
Definition exact (m : Z) : shr_record :=
  {| shr_m := m; shr_r := false; shr_s := false |}.

End Double.

Module Float32.

Definition prec : Z := 24.
Definition emax : Z := 128.

Definition t : Type := spec_float.

(** Narrowing conversion [(float) d]. *)
Definition of_double (d : Double.t) : t :=
  match d with
  | S754_finite s m e => binary_round prec emax s m e
  | _ => d
  end.

End Float32.

Abbreviation double := Double.t.
Abbreviation float32 := Float32.t.

(** ** Fixed-width integers *)

(** [static_cast<size_t>] of an [int] on a 64-bit target. *)
Definition static_cast_size_t (i : Z) : Z := i mod 2 ^ 64.

(** Conversion of an [int] to the [uint32_t] queue size that [advertise]
    and [subscribe] take. *)
Definition static_cast_uint32_t (i : Z) : Z := i mod 2 ^ 32.

(** Conversion of a 64-bit unsigned value to [int64_t]. *)
Definition to_int64 (z : Z) : Z := (z + 2 ^ 63) mod 2 ^ 64 - 2 ^ 63.

(** ** Data model *)

(** [ros::Time], identified with its nanosecond count: [toNSec] is the
    projection and [fromNSec] the constructor. *)
Record Time := fromNSec { toNSec : Z }.

Module std_msgs.
Record Header := { frame_id : string; stamp : Time }.
End std_msgs.

(** The packet of libvelodyne, with the members the node reads or writes.
    [mDistance] and [mIntensity] are the scalars of one laser return. *)
Record LaserData := { mDistance : double; mIntensity : double }.

Record DataChunk := {
  mHeaderInfo : Z;
  mRotationalInfo : Z;
  mLaserData : list LaserData
}.

Record DataPacket := {
  mData : list DataChunk;
  mTimestamp : Z;
  mSpinCount : Z;
  mReserved : Z
}.

Definition getTimestamp (p : DataPacket) : Z := mTimestamp p.

Definition setTimestamp (t : Z) (p : DataPacket) : DataPacket :=
  {| mData := mData p; mTimestamp := to_int64 t;
     mSpinCount := mSpinCount p; mReserved := mReserved p |}.

(** The two inbound message shapes. *)
Record LaserDataMsg := { distance : double; intensity : double }.

Record DataChunkMsg := {
  headerInfo : Z;
  rotationalInfo : Z;
  laserData : list LaserDataMsg
}.

Record DataPacketMsg := {
  dp_header : std_msgs.Header;
  dataChunks : list DataChunkMsg;
  spinCount : Z;
  reserved : Z
}.

Record BinarySnappyMsg := {
  bs_header : std_msgs.Header;
  data : list Byte.byte
}.

(** A point of [VdynePointCloud], and the outbound
    [sensor_msgs::PointCloud]. *)
Record Point3D := { mX : double; mY : double; mZ : double; mI : double }.

Definition VdynePointCloud : Type := list Point3D.

Module geometry_msgs.
Record Point32 := { x : float32; y : float32; z : float32 }.
End geometry_msgs.

Module sensor_msgs.
Record ChannelFloat32 := { name : string; values : list float32 }.

Record PointCloud := {
  header : std_msgs.Header;
  points : list geometry_msgs.Point32;
  channels : list ChannelFloat32
}.
End sensor_msgs.

(** ** Exceptions *)

Inductive Exn :=
| IOException (what : string)
| OtherException (what : string).

(** [std::length_error], as [std::vector::reserve] throws it; it is no
    [IOException]. *)
Definition length_error : Exn := OtherException "vector::reserve".

(** ** Collaborators *)

(** What the node uses of libvelodyne and snappy.

    - [Calibration_read] is [operator>>] from the calibration stream
      ([None]: the file could not be opened) into an existing object: it
      returns the object as the read left it, and the exception it threw,
      if any.
    - [snappy_Uncompress] returns the success flag of [snappy::Uncompress]
      and the content of the output string.
    - [DataPacket_readBinary] is a default-constructed packet filled by
      [readBinary] from the bytes, or the exception thrown on the way.
    - [convertSingleReturn] is the calibration-aware mapping of one laser
      return, at the rotational position of its chunk, to a point.
    - [DataPacket_max_size] is [std::vector<DataPacket>::max_size()],
      which depends on the size of the packet type. *)
Class External := {
  Calibration : Type;
  Calibration_default : Calibration;
  Calibration_read : option string → Calibration → Calibration * option Exn;
  snappy_Uncompress : list Byte.byte → bool * list Byte.byte;
  DataPacket_readBinary : list Byte.byte → DataPacket + Exn;
  convertSingleReturn : LaserData → Z → Calibration → Point3D;
  DataPacket_max_size : Z
}.

(** The parameter server behind [ros::NodeHandle]: for each type, the
    names that [getParam] resolves, with their values. *)
Record ParamServer := {
  param_double : gmap string double;
  param_string : gmap string string;
  param_bool : gmap string bool;
  param_int : gmap string Z
}.

(** [NodeHandle::param<T>(name, var, default)]: the value to assign. *)
Definition param {T} (m : gmap string T) (name : string) (dflt : T) : T :=
  default dflt (m !! name).

(** [ros::TransportHints]: the transports in order of preference. *)
Inductive Transport := UDP | TCP.

Definition TransportHints : Type := list Transport.

Definition unreliable (h : TransportHints) : TransportHints := h ++ [UDP].
Definition reliable (h : TransportHints) : TransportHints := h ++ [TCP].

Inductive Callback := velodyneBinarySnappyCb | velodyneDataPacketCb.

Record Publisher := { pub_topic : string; pub_queue : Z }.

Record Subscriber := {
  sub_topic : string;
  sub_queue : Z;
  sub_callback : Callback;
  sub_hints : TransportHints
}.

Inductive LogLevel := WARN | ERROR.

(** The effects of the node on its environment, plus one ghost event,
    [EvCallPublish], that marks every entry into [publish] with the batch
    it finds. *)
Inductive Event :=
| EvLog (level : LogLevel) (text : string)
| EvCreateTimer (period : double)
| EvAdvertise (topic : string) (queue : Z)
| EvSubscribe (s : Subscriber)
| EvShutdown (cb : Callback)
| EvCallPublish (batch : list DataPacket)
| EvToPointCloud (packet : DataPacket)
| EvPublish (msg : sensor_msgs.PointCloud).

Inductive UB := NullDereference | EmptyVectorAccess.

Section Node.

Context `{External}.

(** ** The node object *)

Record Node := {
  _nodeHandle : ParamServer;
  _pointCloudPublisher : option Publisher;
  _velodyneBinarySnappySubscriber : option Subscriber;
  _velodyneDataPacketSubscriber : option Subscriber;
  _timer : option double;
  _subscriptionIsActive : bool;
  _deviceName : string;
  _calibFileName : string;
  _calibration : option Calibration;
  _minDistance : double;
  _maxDistance : double;
  _velodyneBinarySnappyTopicName : string;
  _velodyneDataPacketTopicName : string;
  _pointCloudTopicName : string;
  _useBinarySnappy : bool;
  _queueDepth : Z;
  _transportType : string;
  _transportHints : TransportHints;
  _numDataPackets : Z;
  _dataPackets : list DataPacket;
  _frameId : string
}.

Definition Node_eta (n : Node) : Node :=
  {| _nodeHandle := _nodeHandle n;
     _pointCloudPublisher := _pointCloudPublisher n;
     _velodyneBinarySnappySubscriber := _velodyneBinarySnappySubscriber n;
     _velodyneDataPacketSubscriber := _velodyneDataPacketSubscriber n;
     _timer := _timer n;
     _subscriptionIsActive := _subscriptionIsActive n;
     _deviceName := _deviceName n;
     _calibFileName := _calibFileName n;
     _calibration := _calibration n;
     _minDistance := _minDistance n;
     _maxDistance := _maxDistance n;
     _velodyneBinarySnappyTopicName := _velodyneBinarySnappyTopicName n;
     _velodyneDataPacketTopicName := _velodyneDataPacketTopicName n;
     _pointCloudTopicName := _pointCloudTopicName n;
     _useBinarySnappy := _useBinarySnappy n;
     _queueDepth := _queueDepth n;
     _transportType := _transportType n;
     _transportHints := _transportHints n;
     _numDataPackets := _numDataPackets n;
     _dataPackets := _dataPackets n;
     _frameId := _frameId n |}.

(** Assignment to the member [proj]: [Node_eta] with that one projection
    replaced by the new value. *)
Ltac member_setter proj :=
  let e := eval cbv delta [Node_eta] in Node_eta in
  match eval pattern proj in e with
  | ?ctx _ => let r := eval cbv beta in (fun v => ctx (fun _ => v)) in exact r
  end.

Definition set_pointCloudPublisher : option Publisher → Node → Node :=
  ltac:(member_setter _pointCloudPublisher).
Definition set_velodyneBinarySnappySubscriber : option Subscriber → Node → Node :=
  ltac:(member_setter _velodyneBinarySnappySubscriber).
Definition set_velodyneDataPacketSubscriber : option Subscriber → Node → Node :=
  ltac:(member_setter _velodyneDataPacketSubscriber).
Definition set_timer : option double → Node → Node :=
  ltac:(member_setter _timer).
Definition set_subscriptionIsActive : bool → Node → Node :=
  ltac:(member_setter _subscriptionIsActive).
Definition set_deviceName : string → Node → Node :=
  ltac:(member_setter _deviceName).
Definition set_calibFileName : string → Node → Node :=
  ltac:(member_setter _calibFileName).
Definition set_calibration : option Calibration → Node → Node :=
  ltac:(member_setter _calibration).
Definition set_minDistance : double → Node → Node :=
  ltac:(member_setter _minDistance).
Definition set_maxDistance : double → Node → Node :=
  ltac:(member_setter _maxDistance).
Definition set_velodyneBinarySnappyTopicName : string → Node → Node :=
  ltac:(member_setter _velodyneBinarySnappyTopicName).
Definition set_velodyneDataPacketTopicName : string → Node → Node :=
  ltac:(member_setter _velodyneDataPacketTopicName).
Definition set_pointCloudTopicName : string → Node → Node :=
  ltac:(member_setter _pointCloudTopicName).
Definition set_useBinarySnappy : bool → Node → Node :=
  ltac:(member_setter _useBinarySnappy).
Definition set_queueDepth : Z → Node → Node :=
  ltac:(member_setter _queueDepth).
Definition set_transportType : string → Node → Node :=
  ltac:(member_setter _transportType).
Definition set_transportHints : TransportHints → Node → Node :=
  ltac:(member_setter _transportHints).
Definition set_numDataPackets : Z → Node → Node :=
  ltac:(member_setter _numDataPackets).
Definition set_dataPackets : list DataPacket → Node → Node :=
  ltac:(member_setter _dataPackets).
Definition set_frameId : string → Node → Node :=
  ltac:(member_setter _frameId).

(** ** Methods as computations

    A method runs on a [World]: the node and the trace of effects so far.
    It returns normally ([Ok]), leaves by a C++ exception ([Raise]), or
    has undefined behaviour ([Undef]). *)

Record World := { node : Node; trace : list Event }.

Inductive Result (A : Type) :=
| Ok (a : A) (w : World)
| Raise (e : Exn) (w : World)
| Undef (u : UB).
Arguments Ok {A} a w.
Arguments Raise {A} e w.
Arguments Undef {A} u.

Definition M (A : Type) : Type := World → Result A.

#[global] Instance M_ret : MRet M := λ A a w, Ok a w.

#[global] Instance M_bind : MBind M := λ A B f m w,
  match m w with
  | Ok a w' => f a w'
  | Raise e w' => Raise e w'
  | Undef u => Undef u
  end.

(** The object itself. *)
Definition this : M Node := λ w, Ok (node w) w.

(** Assignment to a member, through its setter. *)
Definition assign (f : Node → Node) : M unit :=
  λ w, Ok () {| node := f (node w); trace := trace w |}.

Definition emit (e : Event) : M unit :=
  λ w, Ok () {| node := node w; trace := trace w ++ [e] |}.

Definition throw {A} (e : Exn) : M A := λ w, Raise e w.

Definition undefined {A} (u : UB) : M A := λ _, Undef u.

(** [try { body } catch (const IOException& e) { handler(e.what()) }] *)
Definition try_catch_IOException {A} (body : M A) (handler : string → M A) : M A :=
  λ w, match body w with
       | Raise (IOException what) w' => handler what w'
       | r => r
       end.

(** [*p] for a [shared_ptr]. *)
Definition deref {A} (p : option A) : M A :=
  match p with
  | Some a => mret a
  | None => undefined NullDereference
  end.

(** [v.front()] and [v.back()]. *)
Definition front {A} (v : list A) : M A :=
  match head v with
  | Some a => mret a
  | None => undefined EmptyVectorAccess
  end.

Definition back {A} (v : list A) : M A :=
  match last v with
  | Some a => mret a
  | None => undefined EmptyVectorAccess
  end.

(** A range-based [for] whose body updates an accumulator. *)
Fixpoint for_each {A B} (l : list B) (body : A → B → M A) (acc : A) : M A :=
  match l with
  | [] => mret acc
  | b :: l' => acc' ← body acc b; for_each l' body acc'
  end.

(** ** Cloud conversion *)

(** The distance test of the converter. *)
Definition inRange (minDistance maxDistance : double) (laser : LaserData) : bool :=
  Double.leb minDistance (mDistance laser)
  && Double.leb (mDistance laser) maxDistance.

(** Modelled from the spec: [Converter::toPointCloud] is libvelodyne's and
    is not under src/.  Following the specification of the cloud converter,
    it visits the chunks of the packet in order and the laser returns of
    each chunk in order, and inserts the converted point of a return into
    the cloud passed by reference iff
    [minDistance <= distance <= maxDistance]. *)
Definition toPointCloud (dataPacket : DataPacket) (calibration : Calibration)
    (pointCloud : VdynePointCloud) (minDistance maxDistance : double)
    : VdynePointCloud :=
  fold_left
    (λ cloud chunk,
       fold_left
         (λ cloud laser,
            if inRange minDistance maxDistance laser
            then cloud ++ [convertSingleReturn laser (mRotationalInfo chunk)
                             calibration]
            else cloud)
         (mLaserData chunk) cloud)
    (mData dataPacket) pointCloud.

(** ** Publishing *)

Definition toPoint32 (point : Point3D) : geometry_msgs.Point32 :=
  {| geometry_msgs.x := Float32.of_double (mX point);
     geometry_msgs.y := Float32.of_double (mY point);
     geometry_msgs.z := Float32.of_double (mZ point) |}.

(** The stamp expression of [publish]:
    [front + std::round((back - front) * 0.5)] on the [int64_t] time stamps
    of two packets.  The difference is an integer (wrapped where C++
    leaves the overflow undefined); its product with [0.5], the rounding
    and the sum with the first stamp are [double] operations; [fromNSec]
    takes the result as [uint64_t]. *)
Definition midpoint (frontStamp backStamp : Z) : Z :=
  Double.to_uint64
    (Double.add (Double.of_Z frontStamp)
       (Double.round
          (Double.mul (Double.of_Z (to_int64 (backStamp - frontStamp)))
             Double.half))).

(** [publish()].  [numSubscribers] is what
    [_pointCloudPublisher.getNumSubscribers()] answers during this call.
    The message handed to the publisher is recorded before its re-encoding
    by [convertPointCloudToPointCloud2], which keeps header, points and
    channels. *)
Definition publish (numSubscribers : nat) : M unit :=
  n ← this;
  emit (EvCallPublish (_dataPackets n));;
  if (numSubscribers =? 0)%nat then mret ()
  else
    pointCloud ←
      for_each (_dataPackets n)
        (λ pointCloud it,
           calibration ← deref (_calibration n);
           emit (EvToPointCloud it);;
           mret (toPointCloud it calibration pointCloud
                   (_minDistance n) (_maxDistance n)))
        [];
    first ← front (_dataPackets n);
    last ← back (_dataPackets n);
    let rosPointCloud :=
      {| sensor_msgs.header :=
           {| std_msgs.stamp :=
                fromNSec (midpoint (getTimestamp first) (getTimestamp last));
              std_msgs.frame_id := _frameId n |};
         sensor_msgs.points := toPoint32 <$> pointCloud;
         sensor_msgs.channels :=
           [ {| sensor_msgs.name := "intensity";
                sensor_msgs.values := (Float32.of_double ∘ mI) <$> pointCloud |} ]
      |} in
    emit (EvPublish rosPointCloud).

(** ** Decode callbacks *)

Definition toLaserData (m : LaserDataMsg) : LaserData :=
  {| mDistance := distance m; mIntensity := intensity m |}.

Definition toDataChunk (m : DataChunkMsg) : DataChunk :=
  {| mHeaderInfo := headerInfo m;
     mRotationalInfo := rotationalInfo m;
     mLaserData := toLaserData <$> laserData m |}.

(** [velodyneDataPacketCallback(msg)].  The chunk and laser arrays of the
    message and of the packet have the same fixed sizes, so the two copy
    loops are maps. *)
Definition velodyneDataPacketCallback (numSubscribers : nat)
    (msg : DataPacketMsg) : M unit :=
  assign (set_frameId (std_msgs.frame_id (dp_header msg)));;
  let dataPacket :=
    {| mData := toDataChunk <$> dataChunks msg;
       mTimestamp := to_int64 (toNSec (std_msgs.stamp (dp_header msg)));
       mSpinCount := spinCount msg;
       mReserved := reserved msg |} in
  n ← this;
  assign (set_dataPackets (_dataPackets n ++ [dataPacket]));;
  n ← this;
  if Z.of_nat (length (_dataPackets n))
     =? static_cast_size_t (_numDataPackets n)
  then publish numSubscribers;; assign (set_dataPackets [])
  else mret ().

(** [velodyneBinarySnappyCallback(msg)].  The flag returned by
    [snappy::Uncompress] is dropped; an exception of [readBinary] leaves
    the callback. *)
Definition velodyneBinarySnappyCallback (numSubscribers : nat)
    (msg : BinarySnappyMsg) : M unit :=
  let uncompressedData := (snappy_Uncompress (data msg)).2 in
  assign (set_frameId (std_msgs.frame_id (bs_header msg)));;
  dataPacket ←
    match DataPacket_readBinary uncompressedData with
    | inl dataPacket => mret dataPacket
    | inr e => throw e
    end;
  let dataPacket :=
    setTimestamp (toNSec (std_msgs.stamp (bs_header msg))) dataPacket in
  n ← this;
  assign (set_dataPackets (_dataPackets n ++ [dataPacket]));;
  n ← this;
  if Z.of_nat (length (_dataPackets n))
     =? static_cast_size_t (_numDataPackets n)
  then publish numSubscribers;; assign (set_dataPackets [])
  else mret ().

(** ** Subscription life cycle *)

Definition initSubscribers : M unit :=
  n ← this;
  (if _useBinarySnappy n then
     let s := {| sub_topic := _velodyneBinarySnappyTopicName n;
                 sub_queue := static_cast_uint32_t (_queueDepth n);
                 sub_callback := velodyneBinarySnappyCb;
                 sub_hints := _transportHints n |} in
     emit (EvSubscribe s);;
     assign (set_velodyneBinarySnappySubscriber (Some s))
   else
     let s := {| sub_topic := _velodyneDataPacketTopicName n;
                 sub_queue := static_cast_uint32_t (_queueDepth n);
                 sub_callback := velodyneDataPacketCb;
                 sub_hints := _transportHints n |} in
     emit (EvSubscribe s);;
     assign (set_velodyneDataPacketSubscriber (Some s)));;
  assign (set_subscriptionIsActive true).

Definition shutdownSubscribers : M unit :=
  n ← this;
  (if _useBinarySnappy n then
     emit (EvShutdown velodyneBinarySnappyCb);;
     assign (set_velodyneBinarySnappySubscriber None)
   else
     emit (EvShutdown velodyneDataPacketCb);;
     assign (set_velodyneDataPacketSubscriber None));;
  assign (set_subscriptionIsActive false).

(** [updateSubscription(event)], the timer callback.  Whichever branch is
    taken polls the subscriber count once. *)
Definition updateSubscription (numSubscribers : nat) : M unit :=
  n ← this;
  if _subscriptionIsActive n && (numSubscribers =? 0)%nat
  then shutdownSubscribers
  else if negb (_subscriptionIsActive n) && (0 <? numSubscribers)%nat
  then initSubscribers
  else mret ().

(** ** Start-up *)

(** The literals [0.9], [120.0] and [1.0]. *)
Definition lit_0_9 : double := Double.div (Double.of_Z 9) (Double.of_Z 10).
Definition lit_120 : double := Double.of_Z 120.
Definition lit_1 : double := Double.of_Z 1.

Definition getParameters : M unit :=
  n ← this;
  let nh := _nodeHandle n in
  assign (set_minDistance (param (param_double nh) "sensor/min_distance" lit_0_9));;
  assign (set_maxDistance (param (param_double nh) "sensor/max_distance" lit_120));;
  assign (set_deviceName
            (param (param_string nh) "sensor/device_name" "Velodyne HDL-32E"));;
  n ← this;
  (if (_deviceName n =? "Velodyne HDL-64E S2")%string then
     assign (set_calibFileName
               (param (param_string nh) "sensor/calibration_file"
                  "conf/calib-HDL-64E.dat"))
   else if (_deviceName n =? "Velodyne HDL-32E")%string then
     assign (set_calibFileName
               (param (param_string nh) "sensor/calibration_file"
                  "conf/calib-HDL-32E.dat"))
   else emit (EvLog ERROR ("Unknown device: " +:+ _deviceName n)));;
  assign (set_velodyneBinarySnappyTopicName
            (param (param_string nh) "ros/velodyne_binary_snappy_topic_name"
               "/velodyne/binary_snappy"));;
  assign (set_velodyneDataPacketTopicName
            (param (param_string nh) "ros/velodyne_data_packet_topic_name"
               "/velodyne/data_packet"));;
  assign (set_pointCloudTopicName
            (param (param_string nh) "ros/point_cloud_topic_name" "point_cloud"));;
  assign (set_useBinarySnappy (param (param_bool nh) "ros/use_binary_snappy" true));;
  assign (set_queueDepth (param (param_int nh) "ros/queue_depth" 100));;
  assign (set_transportType (param (param_string nh) "ros/transport_type" "udp"));;
  n ← this;
  (if (_deviceName n =? "Velodyne HDL-64E S2")%string then
     assign (set_numDataPackets (param (param_int nh) "ros/num_data_packets" 348))
   else if (_deviceName n =? "Velodyne HDL-32E")%string then
     assign (set_numDataPackets (param (param_int nh) "ros/num_data_packets" 174))
   else mret ());;
  let rate := param (param_double nh) "ros/subscription_updater_rate" lit_1 in
  emit (EvCreateTimer (Double.div lit_1 rate));;
  assign (set_timer (Some (Double.div lit_1 rate))).

(** The object when the constructor body starts.  The initialiser list
    sets [_nodeHandle] and [_subscriptionIsActive]; members of class type
    are default-constructed; the remaining scalar members are not
    initialised and hold what the storage [raw] held. *)
Definition member_init (nh : ParamServer) (raw : Node) : Node :=
  {| _nodeHandle := nh;
     _pointCloudPublisher := None;
     _velodyneBinarySnappySubscriber := None;
     _velodyneDataPacketSubscriber := None;
     _timer := None;
     _subscriptionIsActive := false;
     _deviceName := "";
     _calibFileName := "";
     _calibration := None;
     _minDistance := _minDistance raw;
     _maxDistance := _maxDistance raw;
     _velodyneBinarySnappyTopicName := "";
     _velodyneDataPacketTopicName := "";
     _pointCloudTopicName := "";
     _useBinarySnappy := _useBinarySnappy raw;
     _queueDepth := _queueDepth raw;
     _transportType := "";
     _transportHints := [];
     _numDataPackets := _numDataPackets raw;
     _dataPackets := [];
     _frameId := "" |}.

(** [_dataPackets.reserve(n)], the [int] [n] converted to [size_type]:
    [std::length_error] when the count exceeds [max_size()], as the
    conversion of a negative [int] does.  Otherwise the capacity of the
    batch changes, which the model does not track; the allocation is
    taken to succeed. *)
Definition reserve (n : Z) : M unit :=
  if DataPacket_max_size <? static_cast_size_t n then throw length_error
  else mret ().

(** The constructor body.  [files] gives the content of the files that can
    be opened.  Calls into ROS are taken to return normally; [advertise]
    and [subscribe] take the queue depth as [uint32_t]. *)
Definition VelodynePostNode_body (files : gmap string string) : M unit :=
  getParameters;;
  n ← this;
  let calibFile := files !! _calibFileName n in
  assign (set_calibration (Some Calibration_default));;
  try_catch_IOException
    (n ← this;
     calibration ← deref (_calibration n);
     let r := Calibration_read calibFile calibration in
     assign (set_calibration (Some r.1));;
     match r.2 with
     | Some e => throw e
     | None => mret ()
     end)
    (λ what, emit (EvLog WARN ("IOException: " +:+ what)));;
  n ← this;
  (if (_transportType n =? "udp")%string then
     assign (set_transportHints (reliable (unreliable [])))
   else if (_transportType n =? "tcp")%string then
     assign (set_transportHints (unreliable (reliable [])))
   else emit (EvLog ERROR ("Unknown transport type: " +:+ _transportType n)));;
  n ← this;
  emit (EvAdvertise (_pointCloudTopicName n)
          (static_cast_uint32_t (_queueDepth n)));;
  assign (set_pointCloudPublisher
            (Some {| pub_topic := _pointCloudTopicName n;
                     pub_queue := static_cast_uint32_t (_queueDepth n) |}));;
  n ← this;
  reserve (_numDataPackets n).

(** [VelodynePostNode(nh)]: construction from the storage [raw]. *)
Definition VelodynePostNode (nh : ParamServer) (files : gmap string string)
    (raw : Node) : Result unit :=
  VelodynePostNode_body files {| node := member_init nh raw; trace := [] |}.

(** ** The dispatcher

    The decode callback of the active subscription and the timer callback
    run one at a time; each dispatch sees the subscriber count of its
    moment. *)

Inductive Delivery :=
| DataPacketDelivery (numSubscribers : nat) (msg : DataPacketMsg)
| BinarySnappyDelivery (numSubscribers : nat) (msg : BinarySnappyMsg).

Definition dispatch (d : Delivery) : M unit :=
  match d with
  | DataPacketDelivery numSubscribers msg =>
      velodyneDataPacketCallback numSubscribers msg
  | BinarySnappyDelivery numSubscribers msg =>
      velodyneBinarySnappyCallback numSubscribers msg
  end.

Fixpoint deliver (ds : list Delivery) : M unit :=
  match ds with
  | [] => mret ()
  | d :: ds' => dispatch d;; deliver ds'
  end.

Fixpoint ticks (counts : list nat) : M unit :=
  match counts with
  | [] => mret ()
  | c :: counts' => updateSubscription c;; ticks counts'
  end.

(** ** Vocabulary of the properties *)

Definition numSubscribersAt (d : Delivery) : nat :=
  match d with
  | DataPacketDelivery c _ | BinarySnappyDelivery c _ => c
  end.

Definition headerOf (d : Delivery) : std_msgs.Header :=
  match d with
  | DataPacketDelivery _ msg => dp_header msg
  | BinarySnappyDelivery _ msg => bs_header msg
  end.

(** The packet a message decodes to; [None] when deserialisation throws. *)
Definition decoded (d : Delivery) : option DataPacket :=
  match d with
  | DataPacketDelivery _ msg =>
      Some {| mData := toDataChunk <$> dataChunks msg;
              mTimestamp := to_int64 (toNSec (std_msgs.stamp (dp_header msg)));
              mSpinCount := spinCount msg;
              mReserved := reserved msg |}
  | BinarySnappyDelivery _ msg =>
      match DataPacket_readBinary (snappy_Uncompress (data msg)).2 with
      | inl dataPacket =>
          Some (setTimestamp (toNSec (std_msgs.stamp (bs_header msg))) dataPacket)
      | inr _ => None
      end
  end.

(** A compressed message fails to decode when decompression reports
    failure or deserialisation throws. *)
Definition decodeFails (msg : BinarySnappyMsg) : Prop :=
  (snappy_Uncompress (data msg)).1 = false
  ∨ ∃ e, DataPacket_readBinary (snappy_Uncompress (data msg)).2 = inr e.

(** The world a method leaves behind, and the exception it left by. *)
Definition resultWorld {A} (r : Result A) : option World :=
  match r with
  | Ok _ w | Raise _ w => Some w
  | Undef _ => None
  end.

Definition resultException {A} (r : Result A) : option Exn :=
  match r with
  | Raise e _ => Some e
  | _ => None
  end.

(** The batches that [publish] was entered with, oldest first. *)
Definition batchesOf (tr : list Event) : list (list DataPacket) :=
  omap (λ e, match e with EvCallPublish b => Some b | _ => None end) tr.

Definition isLog (e : Event) : bool :=
  match e with EvLog _ _ => true | _ => false end.

Definition messagesOf (tr : list Event) : list sensor_msgs.PointCloud :=
  omap (λ e, match e with EvPublish m => Some m | _ => None end) tr.

(** Every laser return of a batch with the rotational position of its
    chunk: packet order, then chunk order, then laser order. *)
Definition returnsOf (batch : list DataPacket) : list (Z * LaserData) :=
  pkt ← batch; chunk ← mData pkt;
  (λ laser, (mRotationalInfo chunk, laser)) <$> mLaserData chunk.

(** The returns of a batch within the distance thresholds, and the cloud
    the converter is specified to produce from them. *)
Definition keptReturns (minDistance maxDistance : double)
    (batch : list DataPacket) : list (Z * LaserData) :=
  filter (λ r, inRange minDistance maxDistance r.2 = true) (returnsOf batch).

Definition expectedCloud (calibration : Calibration)
    (minDistance maxDistance : double) (batch : list DataPacket)
    : VdynePointCloud :=
  (λ r, convertSingleReturn r.2 r.1 calibration)
    <$> keptReturns minDistance maxDistance batch.

(** The outbound message for a batch, from its first to its last packet. *)
Definition cloudMessage (n : Node) (calibration : Calibration)
    (first last : DataPacket) (batch : list DataPacket)
    : sensor_msgs.PointCloud :=
  let cloud := expectedCloud calibration (_minDistance n) (_maxDistance n) batch in
  {| sensor_msgs.header :=
       {| std_msgs.stamp :=
            fromNSec (midpoint (getTimestamp first) (getTimestamp last));
          std_msgs.frame_id := _frameId n |};
     sensor_msgs.points := toPoint32 <$> cloud;
     sensor_msgs.channels :=
       [ {| sensor_msgs.name := "intensity";
            sensor_msgs.values := (Float32.of_double ∘ mI) <$> cloud |} ] |}.

(** Members other than the frame identifier and the batch. *)
Definition otherMembers (n : Node) : Node :=
  set_frameId "" (set_dataPackets [] n).

Definition setFrame (frameId : string) (w : World) : World :=
  {| node := set_frameId frameId (node w); trace := trace w |}.

Definition setBatch (batch : list DataPacket) (w : World) : World :=
  {| node := set_dataPackets batch (node w); trace := trace w |}.

Definition addEvents (events : list Event) (w : World) : World :=
  {| node := node w; trace := trace w ++ events |}.

(** The tail shared by the two decode callbacks: append, then publish and
    clear when the batch is full. *)
Definition accumulate (numSubscribers : nat) (dataPacket : DataPacket) : M unit :=
  n ← this;
  assign (set_dataPackets (_dataPackets n ++ [dataPacket]));;
  n ← this;
  if Z.of_nat (length (_dataPackets n))
     =? static_cast_size_t (_numDataPackets n)
  then publish numSubscribers;; assign (set_dataPackets [])
  else mret ().

(** The events of one entry into [publish] with a batch that starts with
    [first] and ends with [last]. *)
Definition publishEvents (n : Node) (calibration : Calibration)
    (numSubscribers : nat) (first last : DataPacket) (batch : list DataPacket)
    : list Event :=
  EvCallPublish batch ::
  if (numSubscribers =? 0)%nat then []
  else (EvToPointCloud <$> batch)
       ++ [EvPublish (cloudMessage n calibration first last batch)].

(** The calibration file name of a freshly constructed node: the
    configured or default file of a known device, and the empty string of
    member initialisation for any other device name. *)
Definition resolvedCalibFileName (nh : ParamServer) : string :=
  let dev := param (param_string nh) "sensor/device_name" "Velodyne HDL-32E" in
  if (dev =? "Velodyne HDL-64E S2")%string then
    param (param_string nh) "sensor/calibration_file" "conf/calib-HDL-64E.dat"
  else if (dev =? "Velodyne HDL-32E")%string then
    param (param_string nh) "sensor/calibration_file" "conf/calib-HDL-32E.dat"
  else "".

(** The decoder input selected by [use_binary_snappy], and the
    subscription [initSubscribers] makes for it. *)
Definition selectedCallback (n : Node) : Callback :=
  if _useBinarySnappy n then velodyneBinarySnappyCb else velodyneDataPacketCb.

Definition selectedSubscription (n : Node) : Subscriber :=
  {| sub_topic := if _useBinarySnappy n then _velodyneBinarySnappyTopicName n
                  else _velodyneDataPacketTopicName n;
     sub_queue := static_cast_uint32_t (_queueDepth n);
     sub_callback := selectedCallback n;
     sub_hints := _transportHints n |}.

Definition setSelectedSubscriber (s : option Subscriber) (n : Node) : Node :=
  if _useBinarySnappy n then set_velodyneBinarySnappySubscriber s n
  else set_velodyneDataPacketSubscriber s n.

(** The world after the transition to Active, and after the transition
    back to Inactive. *)
Definition activated (w : World) : World :=
  {| node := set_subscriptionIsActive true
               (setSelectedSubscriber (Some (selectedSubscription (node w)))
                  (node w));
     trace := trace w ++ [EvSubscribe (selectedSubscription (node w))] |}.

Definition deactivated (w : World) : World :=
  {| node := set_subscriptionIsActive false
               (setSelectedSubscriber None (node w));
     trace := trace w ++ [EvShutdown (selectedCallback (node w))] |}.

(** ** The callback queue *)

(** [spin()] hands control to [ros::spin], which invokes the callbacks in
    the callback queue of the node one at a time, in order: the timer
    callback, with the subscriber count of its moment, or a decode
    callback with its message.  An exception that leaves a callback leaves
    [spin]. *)
Inductive Dispatch :=
| TimerEvent (numSubscribers : nat)
| MessageEvent (d : Delivery).

Definition service (e : Dispatch) : M unit :=
  match e with
  | TimerEvent numSubscribers => updateSubscription numSubscribers
  | MessageEvent d => dispatch d
  end.

Fixpoint spin (queue : list Dispatch) : M unit :=
  match queue with
  | [] => mret ()
  | e :: queue' => service e;; spin queue'
  end.

(** The subscriber handle that goes with a callback. *)
Definition subscriberOf (cb : Callback) (n : Node) : option Subscriber :=
  match cb with
  | velodyneBinarySnappyCb => _velodyneBinarySnappySubscriber n
  | velodyneDataPacketCb => _velodyneDataPacketSubscriber n
  end.

(** The callbacks that have a live subscriber. *)
Definition subscriptions (n : Node) : list Callback :=
  match _velodyneBinarySnappySubscriber n with
  | Some _ => [velodyneBinarySnappyCb]
  | None => []
  end
  ++ match _velodyneDataPacketSubscriber n with
     | Some _ => [velodyneDataPacketCb]
     | None => []
     end.

(** A node in service: its calibration is there, and the one live
    subscriber, if any, is the selected one and goes with the Active
    state. *)
Definition InService (n : Node) : Prop :=
  is_Some (_calibration n)
  ∧ subscriptions n
    = if _subscriptionIsActive n then [selectedCallback n] else [].

Definition isSubscribe (e : Event) : bool :=
  match e with EvSubscribe _ => true | _ => false end.

Definition isShutdown (e : Event) : bool :=
  match e with EvShutdown _ => true | _ => false end.

(** The Active state after the subscriptions and shutdowns of a trace,
    from the state before; [None] when a subscription is made in the
    Active state or a shutdown in the Inactive state. *)
Fixpoint lifecycle (active : bool) (tr : list Event) : option bool :=
  match tr with
  | [] => Some active
  | EvSubscribe _ :: tr' => if active then None else lifecycle true tr'
  | EvShutdown _ :: tr' => if active then lifecycle false tr' else None
  | _ :: tr' => lifecycle active tr'
  end.

Definition countOf (p : Event → bool) (tr : list Event) : nat :=
  length (filter (λ e, p e = true) tr).

(** What start-up settles: every member but the ones that change in
    operation (the two subscriber handles, the Active flag, the batch and
    the frame identifier). *)
Definition configuration (n : Node) : Node :=
  set_velodyneBinarySnappySubscriber None
    (set_velodyneDataPacketSubscriber None
       (set_subscriptionIsActive false
          (set_dataPackets [] (set_frameId "" n)))).

(** The events a node makes in operation for its subscriptions: each
    subscription is the selected one of [n], each shutdown is of the
    selected callback of [n]; nothing of start-up happens again. *)
Definition operational (n : Node) (e : Event) : Prop :=
  match e with
  | EvSubscribe s => s = selectedSubscription n
  | EvShutdown cb => cb = selectedCallback n
  | EvLog _ _ | EvCreateTimer _ | EvAdvertise _ _ => False
  | EvCallPublish _ | EvToPointCloud _ | EvPublish _ => True
  end.

(** A queue entry that is a message whose deserialisation throws. *)
Definition undecodable (e : Dispatch) : Prop :=
  match e with
  | MessageEvent d => decoded d = None
  | TimerEvent _ => False
  end.

(** The number of data packets of a freshly constructed node: the
    configured or default count of a known device, and for any other
    device name what the storage of the never-assigned member held. *)
Definition resolvedNumDataPackets (nh : ParamServer) (raw : Node) : Z :=
  let dev := param (param_string nh) "sensor/device_name" "Velodyne HDL-32E" in
  if (dev =? "Velodyne HDL-64E S2")%string then
    param (param_int nh) "ros/num_data_packets" 348
  else if (dev =? "Velodyne HDL-32E")%string then
    param (param_int nh) "ros/num_data_packets" 174
  else _numDataPackets raw.

(** Modelled from the spec: the calibration reader is libvelodyne's
    [operator>>] and is not under src/.  Following the interface
    [loadCalibration(path) -> CalibrationModel | LoadError], a load gives a
    model or an error and nothing besides: a read that throws has left the
    object it was handed as it was. *)
Definition loadsModelOrError : Prop :=
  ∀ (stream : option string) (c c' : Calibration) (e : Exn),
    Calibration_read stream c = (c', Some e) → c' = c.

(** The batches [publish] can stamp: the time stamps of the first and the
    last packet are not negative, as the capture times the callbacks take
    from message headers are, and the stamp computed from them is one a
    [ros::Time] holds.  Outside of them the difference of the two stamps
    overflows, or the conversion of the sum to [uint64_t] or to a
    [ros::Time] is out of range. *)
Definition stampable (batch : list DataPacket) : Prop :=
  ∀ first last : DataPacket,
    head batch = Some first → list.last batch = Some last →
    0 ≤ getTimestamp first < 2 ^ 63
    ∧ 0 ≤ getTimestamp last < 2 ^ 63
    ∧ midpoint (getTimestamp first) (getTimestamp last) < 2 ^ 32 * 10 ^ 9.

(** The members as [getParameters] leaves them on a freshly initialised
    object: each parameter is the value on the server, or its default; the
    calibration file name and the number of data packets have the defaults
    of the device, and are what member initialisation left for an unknown
    device. *)
Definition configuredNode (nh : ParamServer) (raw : Node) : Node :=
  {| _nodeHandle := nh;
     _pointCloudPublisher := None;
     _velodyneBinarySnappySubscriber := None;
     _velodyneDataPacketSubscriber := None;
     _timer :=
       Some (Double.div lit_1
               (param (param_double nh) "ros/subscription_updater_rate" lit_1));
     _subscriptionIsActive := false;
     _deviceName :=
       param (param_string nh) "sensor/device_name" "Velodyne HDL-32E";
     _calibFileName := resolvedCalibFileName nh;
     _calibration := None;
     _minDistance := param (param_double nh) "sensor/min_distance" lit_0_9;
     _maxDistance := param (param_double nh) "sensor/max_distance" lit_120;
     _velodyneBinarySnappyTopicName :=
       param (param_string nh) "ros/velodyne_binary_snappy_topic_name"
         "/velodyne/binary_snappy";
     _velodyneDataPacketTopicName :=
       param (param_string nh) "ros/velodyne_data_packet_topic_name"
         "/velodyne/data_packet";
     _pointCloudTopicName :=
       param (param_string nh) "ros/point_cloud_topic_name" "point_cloud";
     _useBinarySnappy := param (param_bool nh) "ros/use_binary_snappy" true;
     _queueDepth := param (param_int nh) "ros/queue_depth" 100;
     _transportType := param (param_string nh) "ros/transport_type" "udp";
     _transportHints := [];
     _numDataPackets := resolvedNumDataPackets nh raw;
     _dataPackets := [];
     _frameId := "" |}.

(** The transport hints of a freshly constructed node: both transports,
    the configured one first; nothing for an unknown transport type. *)
Definition resolvedTransportHints (nh : ParamServer) : TransportHints :=
  let tt := param (param_string nh) "ros/transport_type" "udp" in
  if (tt =? "udp")%string then [UDP; TCP]
  else if (tt =? "tcp")%string then [TCP; UDP]
  else [].

(** What start-up reports: an unknown device, a calibration that could
    not be read, an unknown transport type. *)
Definition deviceReport (nh : ParamServer) : list Event :=
  let dev := param (param_string nh) "sensor/device_name" "Velodyne HDL-32E" in
  if (dev =? "Velodyne HDL-64E S2")%string then []
  else if (dev =? "Velodyne HDL-32E")%string then []
  else [EvLog ERROR ("Unknown device: " +:+ dev)].

Definition calibrationReport (r : option Exn) : list Event :=
  match r with
  | Some (IOException what) => [EvLog WARN ("IOException: " +:+ what)]
  | _ => []
  end.

Definition transportReport (nh : ParamServer) : list Event :=
  let tt := param (param_string nh) "ros/transport_type" "udp" in
  if (tt =? "udp")%string then []
  else if (tt =? "tcp")%string then []
  else [EvLog ERROR ("Unknown transport type: " +:+ tt)].

(** The world in which the constructor reaches [reserve], when the
    calibration reader left the object [c'] and the exception [r], none or
    an [IOException]. *)
Definition startedWorld (nh : ParamServer) (raw : Node) (c' : Calibration)
    (r : option Exn) : World :=
  let period :=
    Double.div lit_1
      (param (param_double nh) "ros/subscription_updater_rate" lit_1) in
  let topic := param (param_string nh) "ros/point_cloud_topic_name" "point_cloud" in
  let queue := static_cast_uint32_t (param (param_int nh) "ros/queue_depth" 100) in
  {| node :=
       set_pointCloudPublisher
         (Some {| pub_topic := topic; pub_queue := queue |})
         (set_transportHints (resolvedTransportHints nh)
            (set_calibration (Some c') (configuredNode nh raw)));
     trace :=
       deviceReport nh ++ [EvCreateTimer period]
       ++ calibrationReport r ++ transportReport nh
       ++ [EvAdvertise topic queue] |}.

(** The names [getParameters] asks the server for, and a name the server
    does not resolve for any type. *)
Definition parameterNames : list string :=
  [ "sensor/min_distance"; "sensor/max_distance"; "sensor/device_name";
    "sensor/calibration_file"; "ros/velodyne_binary_snappy_topic_name";
    "ros/velodyne_data_packet_topic_name"; "ros/point_cloud_topic_name";
    "ros/use_binary_snappy"; "ros/queue_depth"; "ros/transport_type";
    "ros/num_data_packets"; "ros/subscription_updater_rate" ].

Definition unset (nh : ParamServer) (name : string) : Prop :=
  param_double nh !! name = None
  ∧ param_string nh !! name = None
  ∧ param_bool nh !! name = None
  ∧ param_int nh !! name = None.

(** The shape of an outbound message: one channel, named intensity, with
    one value per point. *)
Definition wellShaped (m : sensor_msgs.PointCloud) : Prop :=
  ∃ ch, sensor_msgs.channels m = [ch]
        ∧ sensor_msgs.name ch = "intensity"
        ∧ length (sensor_msgs.values ch) = length (sensor_msgs.points m).

(** What one dispatch of a decode callback can do, case by case. *)
Inductive Outcome (d : Delivery) (w : World) : Result unit → Prop :=
| out_throw (e : Exn) :
    decoded d = None →
    Outcome d w (Raise e (setFrame (std_msgs.frame_id (headerOf d)) w))
| out_append (p : DataPacket) :
    decoded d = Some p →
    Z.of_nat (S (length (_dataPackets (node w))))
      ≠ static_cast_size_t (_numDataPackets (node w)) →
    Outcome d w
      (Ok () (setBatch (_dataPackets (node w) ++ [p])
                (setFrame (std_msgs.frame_id (headerOf d)) w)))
| out_publish (p : DataPacket) (c : Calibration) :
    decoded d = Some p →
    Z.of_nat (S (length (_dataPackets (node w))))
      = static_cast_size_t (_numDataPackets (node w)) →
    (numSubscribersAt d = 0%nat ∨ _calibration (node w) = Some c) →
    Outcome d w
      (Ok () (setBatch []
                (addEvents
                   (publishEvents
                      (set_frameId (std_msgs.frame_id (headerOf d)) (node w))
                      c (numSubscribersAt d)
                      (default p (head (_dataPackets (node w)))) p
                      (_dataPackets (node w) ++ [p]))
                   (setFrame (std_msgs.frame_id (headerOf d)) w))))
| out_null (p : DataPacket) :
    decoded d = Some p →
    Z.of_nat (S (length (_dataPackets (node w))))
      = static_cast_size_t (_numDataPackets (node w)) →
    numSubscribersAt d ≠ 0%nat →
    _calibration (node w) = None →
    Outcome d w (Undef NullDereference).

End Node.

Arguments Ok {_ A} a w.
Arguments Raise {_ A} e w.
Arguments Undef {_ A} u.

(** Half of an integer, rounded to the nearest integer, halves away from
    zero: [round(d * 0.5)] in exact arithmetic. *)
Definition roundHalf (d : Z) : Z :=
  if 0 <=? d then (d + 1) / 2 else - ((- d + 1) / 2).

Definition exactMidpoint (frontStamp backStamp : Z) : Z :=
  frontStamp + roundHalf (backStamp - frontStamp).

(** ** Bench collaborators

    Small executable stand-ins for libvelodyne and snappy, used to run the
    node on concrete inputs. *)

Module Bench.

(** A calibration is a table of corrections, four zeros by default.  The
    stream holds one decimal digit per entry.  A read gives the table of
    the stream, or throws and leaves the table it was handed alone: when
    the file could not be opened, or holds a character that is not a
    digit. *)
Definition digitOf (a : ascii) : option Z :=
  let c := Z.of_nat (nat_of_ascii a) in
  if (48 <=? c) && (c <=? 57) then Some (c - 48) else None.

Fixpoint readEntries (s : string) : option (list Z) :=
  match s with
  | EmptyString => Some []
  | String a s' => v ← digitOf a; (v ::.) <$> readEntries s'
  end.

Definition readCalibration (stream : option string) (c : list Z)
    : list Z * option Exn :=
  match stream with
  | Some s =>
      match readEntries s with
      | Some table => (table, None)
      | None => (c, Some (IOException "Calibration::read(): unexpected token"))
      end
  | None => (c, Some (IOException "Calibration::read(): cannot read"))
  end.

(** The largest vector of packets of 1248 bytes. *)
Definition maxPackets : Z := (2 ^ 63 - 1) / 1248.

(** A compressed buffer is a length byte followed by that many bytes. *)
Definition uncompress (compressed : list Byte.byte) : bool * list Byte.byte :=
  match compressed with
  | [] => (false, [])
  | n :: rest =>
      if (Byte.to_nat n =? length rest)%nat then (true, rest) else (false, [])
  end.

(** A serialised packet is its spin count and its reserved byte.  A
    packet whose stream runs short keeps the zeros of its default
    construction. *)
Definition zeroPacket : DataPacket :=
  {| mData := []; mTimestamp := 0; mSpinCount := 0; mReserved := 0 |}.

Definition readPacket (bytes : list Byte.byte) : DataPacket :=
  match bytes with
  | s :: r :: _ =>
      {| mData := []; mTimestamp := 0;
         mSpinCount := Z.of_nat (Byte.to_nat s);
         mReserved := Z.of_nat (Byte.to_nat r) |}
  | _ => zeroPacket
  end.

Definition convert (laser : LaserData) (rotation : Z) (c : list Z) : Point3D :=
  {| mX := mDistance laser; mY := Double.of_Z rotation;
     mZ := Double.of_Z (foldr Z.add 0 c); mI := mIntensity laser |}.

(** Deserialisation that never throws. *)
Definition lenient : External :=
  {| Calibration := list Z;
     Calibration_default := [0; 0; 0; 0];
     Calibration_read := readCalibration;
     snappy_Uncompress := uncompress;
     DataPacket_readBinary := λ bytes, inl (readPacket bytes);
     convertSingleReturn := convert;
     DataPacket_max_size := maxPackets |}.

(** Deserialisation that throws on a stream that runs short. *)
Definition strict : External :=
  {| Calibration := list Z;
     Calibration_default := [0; 0; 0; 0];
     Calibration_read := readCalibration;
     snappy_Uncompress := uncompress;
     DataPacket_readBinary := λ bytes,
       match bytes with
       | _ :: _ :: _ => inl (readPacket bytes)
       | _ => inr (IOException "DataPacket::readBinary(): end of stream")
       end;
     convertSingleReturn := convert;
     DataPacket_max_size := maxPackets |}.

Definition noParams : ParamServer :=
  {| param_double := ∅; param_string := ∅; param_bool := ∅; param_int := ∅ |}.

(** A configuration that names an unknown device and an unknown
    transport. *)
Definition unknownNames : ParamServer :=
  {| param_double := ∅;
     param_string := {[ "sensor/device_name" := "VLP-16";
                        "ros/transport_type" := "shm" ]};
     param_bool := ∅;
     param_int := ∅ |}.

(** Storage whose scalar members are all zero. *)
Definition zeroStorage `{External} : Node :=
  {| _nodeHandle := noParams;
     _pointCloudPublisher := None;
     _velodyneBinarySnappySubscriber := None;
     _velodyneDataPacketSubscriber := None;
     _timer := None;
     _subscriptionIsActive := false;
     _deviceName := "";
     _calibFileName := "";
     _calibration := None;
     _minDistance := S754_zero false;
     _maxDistance := S754_zero false;
     _velodyneBinarySnappyTopicName := "";
     _velodyneDataPacketTopicName := "";
     _pointCloudTopicName := "";
     _useBinarySnappy := false;
     _queueDepth := 0;
     _transportType := "";
     _transportHints := [];
     _numDataPackets := 0;
     _dataPackets := [];
     _frameId := "" |}.

(** A constructed node that publishes every [k] packets, with the default
    thresholds. *)
Definition ready (E : External) (k : Z) (c : @Calibration E) : @World E :=
  {| node := set_numDataPackets k
               (set_calibration (Some c)
                  (set_maxDistance lit_120
                     (set_minDistance lit_0_9 zeroStorage)));
     trace := [] |}.

Definition table : list Z := [0; 0; 0; 0].

(** A raw message of one chunk with the given distances. *)
Definition rawMsg (frame : string) (t : Z) (distances : list double)
    : DataPacketMsg :=
  {| dp_header := {| std_msgs.frame_id := frame; std_msgs.stamp := fromNSec t |};
     dataChunks :=
       [ {| headerInfo := 0; rotationalInfo := 0;
            laserData :=
              (λ d, {| distance := d; intensity := Double.of_Z 1 |})
                <$> distances |} ];
     spinCount := 0;
     reserved := 0 |}.

Definition rawPacket (t : Z) (distances : list double) : DataPacket :=
  {| mData :=
       [ {| mHeaderInfo := 0; mRotationalInfo := 0;
            mLaserData :=
              (λ d, {| mDistance := d; mIntensity := Double.of_Z 1 |})
                <$> distances |} ];
     mTimestamp := t;
     mSpinCount := 0;
     mReserved := 0 |}.

(** A compressed message whose buffer is empty: decompression fails. *)
Definition corruptMsg : BinarySnappyMsg :=
  {| bs_header := {| std_msgs.frame_id := "velodyne";
                     std_msgs.stamp := fromNSec 7 |};
     data := [] |}.

(** Four raw messages with their subscriber counts, and the packets they
    decode to. *)
Definition fourDeliveries : list Delivery :=
  [ DataPacketDelivery 1 (rawMsg "velodyne" 1000 []);
    DataPacketDelivery 0 (rawMsg "velodyne" 3000 []);
    DataPacketDelivery 0 (rawMsg "velodyne" 5000 []);
    DataPacketDelivery 2 (rawMsg "velodyne" 7000 []) ].

Definition fourPackets : list DataPacket :=
  [ rawPacket 1000 []; rawPacket 3000 []; rawPacket 5000 []; rawPacket 7000 [] ].

(** Two raw messages stamped in 2014, a tenth of a second apart. *)
Definition lateDeliveries : list Delivery :=
  [ DataPacketDelivery 1 (rawMsg "velodyne" 1400000000000000001 []);
    DataPacketDelivery 1 (rawMsg "velodyne" 1400000000100000001 []) ].

(** The distances 0.5, 1.0, 60.0 and 150.0. *)
Definition fourDistances : list double :=
  [Double.of_scaled 1 (-1); Double.of_Z 1; Double.of_Z 60; Double.of_Z 150].

(** A consumer that comes, sees one raw packet and goes. *)
Definition shortVisit : list Dispatch :=
  [ TimerEvent 1;
    MessageEvent (DataPacketDelivery 1 (rawMsg "velodyne" 1000 []));
    TimerEvent 0 ].

(** A calibration file with four entries. *)
Definition calibrationFiles : gmap string string :=
  {[ "conf/calib-HDL-32E.dat" := "1234" ]}.

(** Storage in which the bits of the packet count were all set. *)
Definition staleStorage `{External} : Node :=
  set_numDataPackets (-1) zeroStorage.

End Bench.

(** * Properties *)

(** ** Double arithmetic on small integers

    Conversions, halving, rounding and sums of integers below [2^53] lose
    no bit. *)

Module DoubleFacts.

Import Double.

Lemma digits_log2 (p : positive) :
  Zpos (digits2_pos p) = Z.log2 (Zpos p) + 1.
Proof.
  induction p as [p IH|p IH|]; [| |done].
  - change (Zpos (digits2_pos p~1)) with (Zpos (Pos.succ (digits2_pos p))).
    rewrite Pos2Z.inj_succ, IH.
    change (Zpos p~1) with (2 * Zpos p + 1).
    rewrite Z.log2_succ_double by lia. lia.
  - change (Zpos (digits2_pos p~0)) with (Zpos (Pos.succ (digits2_pos p))).
    rewrite Pos2Z.inj_succ, IH.
    change (Zpos p~0) with (2 * Zpos p).
    rewrite Z.log2_double by lia. lia.
Qed.

Lemma iter_xO (m d : positive) :
  Zpos (Pos.iter xO m d) = Zpos m * 2 ^ Zpos d.
Proof.
  induction d as [|d IH] using Pos.peano_ind.
  - rewrite Z.pow_1_r. simpl. lia.
  - rewrite Pos.iter_succ, Pos2Z.inj_succ, Z.pow_succ_r by lia.
    rewrite (Pos2Z.inj_xO (Pos.iter xO m d)), IH. ring.
Qed.

Lemma shr_1_even (m : positive) : shr_1 (exact (Zpos m~0)) = exact (Zpos m).
Proof. reflexivity. Qed.

Lemma iter_pos_nat {A} (f : A → A) (p : positive) (x : A) :
  SpecFloat.iter_pos f p x = Nat.iter (Pos.to_nat p) f x.
Proof.
  revert x. induction p as [p IH|p IH|]; intros x;
    cbn [SpecFloat.iter_pos]; [| |done].
  - rewrite !IH, Pos2Nat.inj_xI.
    replace (S (2 * Pos.to_nat p)) with (Pos.to_nat p + (Pos.to_nat p + 1))%nat by lia.
    rewrite !Nat.iter_add. simpl. done.
  - rewrite !IH, Pos2Nat.inj_xO.
    replace (2 * Pos.to_nat p)%nat with (Pos.to_nat p + Pos.to_nat p)%nat by lia.
    by rewrite Nat.iter_add.
Qed.

Lemma shr_exact_nat (n : nat) (M mz : positive) :
  Zpos M = Zpos mz * 2 ^ Z.of_nat n →
  Nat.iter n shr_1 (exact (Zpos M)) = exact (Zpos mz).
Proof.
  revert M. induction n as [|n IH]; intros M HM.
  - simpl in *. f_equal. lia.
  - rewrite Nat.iter_succ_r.
    rewrite Nat2Z.inj_succ, Z.pow_succ_r in HM by lia.
    destruct M as [M|M|]; [lia| |lia].
    rewrite shr_1_even. apply IH. lia.
Qed.

Lemma shr_exact (p M mz : positive) :
  Zpos M = Zpos mz * 2 ^ Zpos p →
  SpecFloat.iter_pos shr_1 p (exact (Zpos M)) = exact (Zpos mz).
Proof.
  intros HM. rewrite iter_pos_nat. apply shr_exact_nat.
  by rewrite positive_nat_Z.
Qed.

Lemma shr_fexp_exact (M mz : positive) (e t : Z) :
  0 ≤ t →
  Zpos M = Zpos mz * 2 ^ t →
  Zpos (digits2_pos mz) = 53 →
  -1074 ≤ e + t →
  shr_fexp 53 1024 (Zpos M) e loc_Exact = (exact (Zpos mz), e + t).
Proof.
  intros Ht HM Hd He.
  unfold shr_fexp, shr_record_of_loc, Zdigits2, fexp, emin.
  rewrite digits_log2, HM, Z.log2_mul_pow2 by lia.
  rewrite digits_log2 in Hd.
  replace (Z.max (t + Z.log2 (Zpos mz) + 1 + e - 53) (3 - 1024 - 53) - e)
    with t by lia.
  destruct t as [|p|p]; [| |lia]; unfold shr.
  - rewrite Z.add_0_r. f_equal. unfold exact. f_equal. lia.
  - f_equal. fold (exact (Zpos mz * 2 ^ Zpos p)). rewrite <- HM.
    by apply shr_exact.
Qed.

(** Rounding a value that fits: no bit is lost. *)
Lemma round_aux_exact (s : bool) (M mz : positive) (e t : Z) :
  0 ≤ t →
  Zpos M = Zpos mz * 2 ^ t →
  Zpos (digits2_pos mz) = 53 →
  -1074 ≤ e + t ≤ 971 →
  binary_round_aux 53 1024 s (Zpos M) e loc_Exact = S754_finite s mz (e + t).
Proof.
  intros Ht HM Hd He. unfold binary_round_aux.
  rewrite (shr_fexp_exact M mz e t) by (done || lia).
  cbn [exact shr_m loc_of_shr_record round_nearest_even].
  rewrite (shr_fexp_exact mz mz (e + t) 0) by (done || lia).
  cbn [exact shr_m]. rewrite Z.add_0_r.
  by destruct (Z.leb_spec (e + t) (1024 - 53)); [|lia].
Qed.

Lemma log2_small (a : Z) : 0 < a < 2 ^ 53 → 0 ≤ Z.log2 a ≤ 52.
Proof.
  intros Ha. split; [apply Z.log2_nonneg|].
  assert (Z.log2 a < 53); [|lia]. apply Z.log2_lt_pow2; lia.
Qed.

Lemma canon_mantissa (a : Z) :
  0 < a < 2 ^ 53 →
  Zpos (Z.to_pos (a * 2 ^ (52 - Z.log2 a))) = a * 2 ^ (52 - Z.log2 a)
  ∧ Zpos (digits2_pos (Z.to_pos (a * 2 ^ (52 - Z.log2 a)))) = 53.
Proof.
  intros Ha. pose proof (log2_small a Ha) as Hl.
  assert (0 < 2 ^ (52 - Z.log2 a)) by (apply Z.pow_pos_nonneg; lia).
  assert (0 < a * 2 ^ (52 - Z.log2 a)) by lia.
  rewrite digits_log2, Z2Pos.id by done.
  split; [done|]. rewrite Z.log2_mul_pow2 by lia. lia.
Qed.

Lemma binary_round_exact (s : bool) (M : positive) (j a : Z) :
  0 ≤ j →
  0 < a < 2 ^ 53 →
  Zpos M = a * 2 ^ j →
  binary_round 53 1024 s M (- j) = canon s a.
Proof.
  intros Hj Ha HM. pose proof (log2_small a Ha) as Hl.
  destruct (canon_mantissa a Ha) as [Hmz Hd].
  unfold binary_round, fexp, emin.
  rewrite digits_log2, HM, Z.log2_mul_pow2 by lia.
  replace (Z.max (j + Z.log2 a + 1 + - j - 53) (3 - 1024 - 53))
    with (Z.log2 a - 52) by lia.
  unfold shl_align.
  destruct (Z.log2 a - 52 - - j) as [|d|d] eqn:Hdelta.
  - rewrite (round_aux_exact s M (Z.to_pos (a * 2 ^ (52 - Z.log2 a))) (- j) 0);
      [|lia| |done|lia].
    + unfold canon. f_equal. lia.
    + rewrite Hmz, HM, Z.pow_0_r. replace j with (52 - Z.log2 a) by lia. lia.
  - rewrite (round_aux_exact s M (Z.to_pos (a * 2 ^ (52 - Z.log2 a)))
               (- j) (Zpos d)); [|lia| |done|lia].
    + unfold canon. f_equal. lia.
    + rewrite Hmz, HM, <- Z.mul_assoc, <- Z.pow_add_r by lia.
      do 2 f_equal. lia.
  - rewrite (round_aux_exact s _ (Pos.iter xO M d) (Z.log2 a - 52) 0);
      [|lia|lia| |lia].
    + unfold canon. rewrite Z.add_0_r. f_equal.
      apply Pos2Z.inj. rewrite Hmz, iter_xO, HM.
      rewrite <- Z.mul_assoc, <- Z.pow_add_r by lia. do 2 f_equal. lia.
    + rewrite digits_log2, iter_xO, HM.
      rewrite <- Z.mul_assoc, <- Z.pow_add_r, Z.log2_mul_pow2 by lia. lia.
Qed.

Lemma of_Z_pos (a : Z) : 0 < a < 2 ^ 53 → Double.of_Z a = canon false a.
Proof.
  intros Ha. destruct a as [|p|p]; [lia| |lia].
  unfold Double.of_Z, Double.of_scaled, binary_normalize.
  apply (binary_round_exact false p 0); [done|done|]. lia.
Qed.

Lemma of_Z_neg (a : Z) : 0 < a < 2 ^ 53 → Double.of_Z (- a) = canon true a.
Proof.
  intros Ha. destruct a as [|p|p]; [lia| |lia].
  unfold Double.of_Z, Double.of_scaled. simpl.
  apply (binary_round_exact true p 0); [done|done|]. lia.
Qed.

Lemma normalize_scaled (v j : Z) :
  0 ≤ j →
  - 2 ^ 53 < v < 2 ^ 53 →
  binary_normalize 53 1024 (v * 2 ^ j) (- j) false = Double.of_Z v.
Proof.
  intros Hj Hv.
  assert (0 < 2 ^ j) as Hp by (apply Z.pow_pos_nonneg; lia).
  destruct v as [|p|p].
  - done.
  - rewrite of_Z_pos by lia.
    destruct (Zpos p * 2 ^ j) as [|M|M] eqn:HM; [lia| |lia].
    by apply binary_round_exact; [|lia|].
  - change (Zneg p) with (- Zpos p). rewrite of_Z_neg by lia.
    destruct (- Zpos p * 2 ^ j) as [|M|M] eqn:HM; [lia|lia|].
    apply binary_round_exact; [done|lia|lia].
Qed.

Lemma mul_half (s : bool) (a : Z) :
  0 < a < 2 ^ 53 →
  Double.mul (canon s a) Double.half
  = S754_finite s (Z.to_pos (a * 2 ^ (52 - Z.log2 a))) (Z.log2 a - 53).
Proof.
  intros Ha. pose proof (log2_small a Ha) as Hl.
  destruct (canon_mantissa a Ha) as [Hmz Hd].
  unfold Double.mul, Double.half, canon, SFmul.
  rewrite xorb_false_r.
  rewrite (round_aux_exact s _ (Z.to_pos (a * 2 ^ (52 - Z.log2 a))) _ 52);
    [|lia| |done|lia].
  - f_equal. lia.
  - by rewrite Pos2Z.inj_mul.
Qed.

Lemma round_half_canon (s : bool) (a : Z) :
  0 < a < 2 ^ 53 →
  Double.round
    (S754_finite s (Z.to_pos (a * 2 ^ (52 - Z.log2 a))) (Z.log2 a - 53))
  = Double.of_Z (cond_Zopp s ((a + 1) / 2)).
Proof.
  intros Ha. pose proof (log2_small a Ha) as Hl.
  destruct (canon_mantissa a Ha) as [Hmz Hd].
  unfold Double.round.
  destruct (Z.leb_spec 0 (Z.log2 a - 53)) as [|_]; [lia|].
  rewrite Hmz, Z.shiftl_1_l, Z.shiftr_div_pow2 by lia.
  replace (- (Z.log2 a - 53) - 1) with (52 - Z.log2 a) by lia.
  replace (- (Z.log2 a - 53)) with (Z.succ (52 - Z.log2 a)) by lia.
  rewrite Z.pow_succ_r by lia.
  assert (0 < 2 ^ (52 - Z.log2 a)) as Hp by (apply Z.pow_pos_nonneg; lia).
  replace (a * 2 ^ (52 - Z.log2 a) + 2 ^ (52 - Z.log2 a))
    with ((a + 1) * 2 ^ (52 - Z.log2 a)) by ring.
  rewrite Z.div_mul_cancel_r by lia.
  assert (0 < (a + 1) / 2 < 2 ^ 53) as Hq.
  { split; [apply Z.div_str_pos; lia|].
    apply Z.div_lt_upper_bound; lia. }
  destruct s; simpl cond_Zopp.
  - rewrite of_Z_neg by done.
    destruct ((a + 1) / 2) as [|q|q] eqn:Eq; [lia| |lia].
    apply (binary_round_exact true q 0); [done|lia|lia].
  - rewrite of_Z_pos by done.
    destruct ((a + 1) / 2) as [|q|q] eqn:Eq; [lia| |lia].
    apply (binary_round_exact false q 0); [done|lia|lia].
Qed.

(** [round(d * 0.5)] is exact on integers below [2^53]. *)
Lemma round_mul_half (d : Z) :
  - 2 ^ 53 < d < 2 ^ 53 →
  Double.round (Double.mul (Double.of_Z d) Double.half)
  = Double.of_Z (roundHalf d).
Proof.
  intros Hd. unfold roundHalf.
  destruct (Z.leb_spec 0 d) as [Hpos|Hneg].
  - destruct (decide (d = 0)) as [->|Hnz]; [done|].
    rewrite of_Z_pos, mul_half, round_half_canon by lia. done.
  - replace d with (- - d) at 1 by lia.
    rewrite of_Z_neg, mul_half, round_half_canon by lia. done.
Qed.

Lemma shl_align_fst (m : positive) (e e' : Z) :
  e' ≤ e → Zpos (fst (shl_align m e e')) = Zpos m * 2 ^ (e - e').
Proof.
  intros He. unfold shl_align.
  destruct (e' - e) as [|d|d] eqn:Hd; cbn [fst]; [|lia|].
  - replace (e - e') with 0 by lia. lia.
  - rewrite iter_xO. do 2 f_equal. lia.
Qed.

Lemma add_canon (sx sy : bool) (a b : Z) :
  0 < a < 2 ^ 53 →
  0 < b < 2 ^ 53 →
  - 2 ^ 53 < cond_Zopp sx a + cond_Zopp sy b < 2 ^ 53 →
  Double.add (canon sx a) (canon sy b)
  = Double.of_Z (cond_Zopp sx a + cond_Zopp sy b).
Proof.
  intros Ha Hb Hv.
  pose proof (log2_small a Ha) as Hla. pose proof (log2_small b Hb) as Hlb.
  destruct (canon_mantissa a Ha) as [Hma _].
  destruct (canon_mantissa b Hb) as [Hmb _].
  unfold Double.add, canon, SFadd.
  set (ez := Z.min (Z.log2 a - 52) (Z.log2 b - 52)).
  rewrite !shl_align_fst, Hma, Hmb by lia.
  rewrite <- !Z.mul_assoc, <- !Z.pow_add_r by lia.
  replace (52 - Z.log2 a + (Z.log2 a - 52 - ez)) with (- ez) by lia.
  replace (52 - Z.log2 b + (Z.log2 b - 52 - ez)) with (- ez) by lia.
  replace (cond_Zopp sx (a * 2 ^ (- ez)) + cond_Zopp sy (b * 2 ^ (- ez)))
    with ((cond_Zopp sx a + cond_Zopp sy b) * 2 ^ (- ez))
    by (destruct sx, sy; simpl; ring).
  replace ez with (- - ez) at 2 by lia.
  apply normalize_scaled; lia.
Qed.

(** Addition is exact on integers below [2^53] whose sum is below
    [2^53]. *)
Lemma add_exact (x y : Z) :
  - 2 ^ 53 < x < 2 ^ 53 →
  - 2 ^ 53 < y < 2 ^ 53 →
  - 2 ^ 53 < x + y < 2 ^ 53 →
  Double.add (Double.of_Z x) (Double.of_Z y) = Double.of_Z (x + y).
Proof.
  intros Hx Hy Hxy.
  destruct (Z.lt_trichotomy x 0) as [Nx|[->|Px]];
    destruct (Z.lt_trichotomy y 0) as [Ny|[->|Py]].
  - replace x with (- - x) at 1 by lia. replace y with (- - y) at 1 by lia.
    rewrite (of_Z_neg (- x)), (of_Z_neg (- y)), (add_canon true true)
      by (simpl; lia).
    simpl. f_equal. lia.
  - rewrite Z.add_0_r. replace x with (- - x) by lia.
    by rewrite (of_Z_neg (- x)) by lia.
  - replace x with (- - x) at 1 by lia.
    rewrite (of_Z_neg (- x)), (of_Z_pos y), (add_canon true false)
      by (simpl; lia).
    simpl. f_equal. lia.
  - rewrite Z.add_0_l. replace y with (- - y) by lia.
    by rewrite (of_Z_neg (- y)) by lia.
  - done.
  - rewrite Z.add_0_l. by rewrite (of_Z_pos y) by lia.
  - replace y with (- - y) at 1 by lia.
    rewrite (of_Z_neg (- y)), (of_Z_pos x), (add_canon false true)
      by (simpl; lia).
    simpl. f_equal. lia.
  - rewrite Z.add_0_r. by rewrite (of_Z_pos x) by lia.
  - by rewrite (of_Z_pos x), (of_Z_pos y), (add_canon false false)
      by (simpl; lia).
Qed.

Lemma to_uint64_of_Z (v : Z) :
  0 ≤ v < 2 ^ 53 → Double.to_uint64 (Double.of_Z v) = v.
Proof.
  intros Hv. destruct (decide (v = 0)) as [->|Hnz]; [done|].
  assert (0 < v < 2 ^ 53) as Hv' by lia.
  pose proof (log2_small v Hv') as Hl.
  destruct (canon_mantissa v Hv') as [Hm _].
  rewrite of_Z_pos by done. unfold canon, Double.to_uint64.
  rewrite Hm.
  replace (Z.log2 v - 52) with (- (52 - Z.log2 v)) by lia.
  rewrite Z.shiftl_opp_r, Z.shiftr_div_pow2 by lia.
  assert (0 < 2 ^ (52 - Z.log2 v)) by (apply Z.pow_pos_nonneg; lia).
  rewrite Z.div_mul by lia. lia.
Qed.

Lemma roundHalf_bounds (f b : Z) :
  0 ≤ f < 2 ^ 53 →
  0 ≤ b < 2 ^ 53 →
  - 2 ^ 53 < roundHalf (b - f) < 2 ^ 53
  ∧ 0 ≤ f + roundHalf (b - f) < 2 ^ 53.
Proof.
  intros Hf Hb. unfold roundHalf.
  destruct (Z.leb_spec 0 (b - f)).
  - pose proof (Z.div_mod (b - f + 1) 2 ltac:(lia)).
    pose proof (Z.mod_pos_bound (b - f + 1) 2 ltac:(lia)). lia.
  - pose proof (Z.div_mod (- (b - f) + 1) 2 ltac:(lia)).
    pose proof (Z.mod_pos_bound (- (b - f) + 1) 2 ltac:(lia)). lia.
Qed.

(** On timestamps below [2^53] the stamp expression of [publish] is the
    exact midpoint. *)
Lemma midpoint_exact (f b : Z) :
  0 ≤ f < 2 ^ 53 →
  0 ≤ b < 2 ^ 53 →
  midpoint f b = exactMidpoint f b.
Proof.
  intros Hf Hb. unfold midpoint, exactMidpoint.
  destruct (roundHalf_bounds f b Hf Hb) as [Hr Hs].
  assert (to_int64 (b - f) = b - f) as ->.
  { unfold to_int64. rewrite Z.mod_small; lia. }
  rewrite round_mul_half, add_exact, to_uint64_of_Z by lia. done.
Qed.

End DoubleFacts.

Section Properties.

Context `{External}.

(** ** Running the methods *)

Ltac run :=
  cbv [mbind M_bind mret M_ret this assign emit throw undefined
       setFrame setBatch addEvents]; cbn [node trace].

Lemma front_head {A} (v : list A) (a : A) (w : World) :
  head v = Some a → front v w = Ok a w.
Proof. unfold front. by intros ->. Qed.

Lemma back_last {A} (v : list A) (a : A) (w : World) :
  last v = Some a → back v w = Ok a w.
Proof. unfold back. by intros ->. Qed.

(** The converter appends to the cloud exactly the expected points. *)
Lemma toPointCloud_chunk (c : Calibration) (lo hi : double) (rot : Z)
    (lasers : list LaserData) (cloud : VdynePointCloud) :
  fold_left
    (λ cloud laser,
       if inRange lo hi laser
       then cloud ++ [convertSingleReturn laser rot c] else cloud)
    lasers cloud
  = cloud ++ ((λ r, convertSingleReturn r.2 r.1 c)
                <$> filter (λ r : Z * LaserData, inRange lo hi r.2 = true)
                      ((λ laser, (rot, laser)) <$> lasers)).
Proof.
  revert cloud. induction lasers as [|l lasers IH]; intros cloud; simpl.
  - by rewrite app_nil_r.
  - rewrite IH. rewrite filter_cons. simpl.
    destruct (inRange lo hi l) eqn:E.
    + rewrite decide_True by done. simpl. by rewrite <- app_assoc.
    + rewrite decide_False by (by rewrite not_true_iff_false). done.
Qed.

Lemma toPointCloud_append (c : Calibration) (lo hi : double)
    (pkt : DataPacket) (cloud : VdynePointCloud) :
  toPointCloud pkt c cloud lo hi = cloud ++ expectedCloud c lo hi [pkt].
Proof.
  unfold toPointCloud, expectedCloud, keptReturns, returnsOf. simpl.
  rewrite app_nil_r.
  generalize (mData pkt) as chunks. intros chunks. revert cloud.
  induction chunks as [|ch chunks IH]; intros cloud; simpl.
  - by rewrite app_nil_r.
  - rewrite toPointCloud_chunk, IH.
    rewrite filter_app, fmap_app, app_assoc. done.
Qed.

Lemma expectedCloud_cons (c : Calibration) (lo hi : double)
    (pkt : DataPacket) (batch : list DataPacket) :
  expectedCloud c lo hi (pkt :: batch)
  = expectedCloud c lo hi [pkt] ++ expectedCloud c lo hi batch.
Proof.
  unfold expectedCloud, keptReturns, returnsOf. simpl.
  by rewrite app_nil_r, filter_app, fmap_app.
Qed.

Lemma bind_ok {A B} (m : M A) (f : A → M B) (w w' : World) (a : A) :
  m w = Ok a w' → (m ≫= f) w = f a w'.
Proof. unfold mbind, M_bind. by intros ->. Qed.

(** The conversion loop of [publish]. *)
Lemma conversion_loop (oc : option Calibration) (c : Calibration)
    (lo hi : double) (batch : list DataPacket)
    (cloud : VdynePointCloud) (w : World) :
  oc = Some c →
  for_each batch
    (λ pointCloud it,
       calibration ← deref oc;
       emit (EvToPointCloud it);;
       mret (toPointCloud it calibration pointCloud lo hi))
    cloud w
  = Ok (cloud ++ expectedCloud c lo hi batch)
      (addEvents (EvToPointCloud <$> batch) w).
Proof.
  intros Hc. revert cloud w.
  induction batch as [|pkt batch IH]; intros cloud w.
  - unfold expectedCloud. simpl. run. rewrite !app_nil_r. by destruct w.
  - cbn [for_each]. erewrite bind_ok; [rewrite IH|by rewrite Hc].
    run. rewrite toPointCloud_append, (expectedCloud_cons _ _ _ pkt batch).
    simpl. by rewrite <- !app_assoc.
Qed.

(** [publish] without demand: nothing but the entry is recorded. *)
Lemma publish_no_demand (w : World) :
  publish 0 w = Ok () (addEvents [EvCallPublish (_dataPackets (node w))] w).
Proof. reflexivity. Qed.

(** [publish] with demand on a batch from [first] to [last]. *)
Lemma publish_demand (numSubscribers : nat) (c : Calibration)
    (first last : DataPacket) (w : World) :
  numSubscribers ≠ 0%nat →
  _calibration (node w) = Some c →
  head (_dataPackets (node w)) = Some first →
  list.last (_dataPackets (node w)) = Some last →
  publish numSubscribers w
  = Ok () (addEvents
             (publishEvents (node w) c numSubscribers first last
                (_dataPackets (node w))) w).
Proof.
  intros Hs Hc Hf Hl. unfold publish, publishEvents.
  destruct (Nat.eqb_spec numSubscribers 0) as [|_]; [done|].
  do 2 (erewrite bind_ok by reflexivity).
  erewrite bind_ok by (by apply (conversion_loop _ c)).
  erewrite bind_ok by (by apply front_head).
  erewrite bind_ok by (by apply back_last).
  unfold cloudMessage. run. simpl. by rewrite <- !app_assoc.
Qed.

(** An empty batch is the one state in which [publish] touches what is
    not there. *)
Lemma publish_empty (numSubscribers : nat) (c : Calibration) (w : World) :
  numSubscribers ≠ 0%nat →
  _calibration (node w) = Some c →
  _dataPackets (node w) = [] →
  publish numSubscribers w = Undef EmptyVectorAccess.
Proof.
  intros Hs Hc Hb. unfold publish.
  destruct (Nat.eqb_spec numSubscribers 0) as [|_]; [done|].
  do 2 (erewrite bind_ok by reflexivity).
  rewrite Hb. erewrite bind_ok by (by apply (conversion_loop _ c)).
  reflexivity.
Qed.

Lemma publish_defined (numSubscribers : nat) (w : World) :
  _dataPackets (node w) ≠ [] →
  publish numSubscribers w ≠ Undef EmptyVectorAccess.
Proof.
  intros Hb. unfold publish.
  destruct (Nat.eqb_spec numSubscribers 0) as [|_]; [done|].
  do 2 (erewrite bind_ok by reflexivity).
  destruct (_dataPackets (node w)) as [|p b] eqn:Hd; [done|].
  destruct (_calibration (node w)) as [c|] eqn:Hc.
  - erewrite bind_ok by (by apply (conversion_loop _ c)).
    erewrite bind_ok by reflexivity.
    destruct (list.last (p :: b)) as [l|] eqn:Hl.
    + by erewrite bind_ok by (by apply back_last).
    + by apply last_None in Hl.
  - done.
Qed.

(** ** The accumulator *)

Lemma dispatch_decoded (d : Delivery) (p : DataPacket) (w : World) :
  decoded d = Some p →
  dispatch d w
  = accumulate (numSubscribersAt d) p
      (setFrame (std_msgs.frame_id (headerOf d)) w).
Proof.
  destruct d as [s msg|s msg]; simpl.
  - by intros [= <-].
  - unfold velodyneBinarySnappyCallback.
    destruct (DataPacket_readBinary _) as [q|e]; [|done].
    by intros [= <-].
Qed.

Lemma dispatch_throws (d : Delivery) (w : World) :
  decoded d = None →
  ∃ e, dispatch d w = Raise e (setFrame (std_msgs.frame_id (headerOf d)) w).
Proof.
  destruct d as [s msg|s msg]; simpl; [done|].
  unfold velodyneBinarySnappyCallback.
  destruct (DataPacket_readBinary _) as [q|e]; [done|].
  intros _. by exists e.
Qed.

Lemma accumulate_partial (numSubscribers : nat) (p : DataPacket) (w : World) :
  Z.of_nat (S (length (_dataPackets (node w))))
    ≠ static_cast_size_t (_numDataPackets (node w)) →
  accumulate numSubscribers p w
  = Ok () (setBatch (_dataPackets (node w) ++ [p]) w).
Proof.
  intros Hk. unfold accumulate.
  do 3 (erewrite bind_ok by reflexivity).
  cbn [node _dataPackets _numDataPackets set_dataPackets].
  rewrite length_app, Nat.add_1_r.
  by destruct (Z.eqb_spec (Z.of_nat (S (length (_dataPackets (node w)))))
                 (static_cast_size_t (_numDataPackets (node w)))).
Qed.

Lemma accumulate_full_no_demand (p : DataPacket) (w : World) :
  Z.of_nat (S (length (_dataPackets (node w))))
    = static_cast_size_t (_numDataPackets (node w)) →
  accumulate 0 p w
  = Ok () (setBatch []
             (addEvents [EvCallPublish (_dataPackets (node w) ++ [p])] w)).
Proof.
  intros Hk. unfold accumulate.
  do 3 (erewrite bind_ok by reflexivity).
  cbn [node _dataPackets _numDataPackets set_dataPackets].
  rewrite length_app, Nat.add_1_r, Hk, Z.eqb_refl.
  reflexivity.
Qed.

Lemma accumulate_full (numSubscribers : nat) (c : Calibration)
    (p : DataPacket) (w : World) :
  Z.of_nat (S (length (_dataPackets (node w))))
    = static_cast_size_t (_numDataPackets (node w)) →
  _calibration (node w) = Some c →
  accumulate numSubscribers p w
  = Ok () (setBatch []
             (addEvents
                (publishEvents (node w) c numSubscribers
                   (default p (head (_dataPackets (node w)))) p
                   (_dataPackets (node w) ++ [p])) w)).
Proof.
  intros Hk Hc.
  destruct (decide (numSubscribers = 0%nat)) as [->|Hs].
  { by rewrite accumulate_full_no_demand. }
  unfold accumulate.
  do 3 (erewrite bind_ok by reflexivity).
  cbn [node _dataPackets _numDataPackets set_dataPackets].
  rewrite length_app, Nat.add_1_r, Hk, Z.eqb_refl.
  erewrite bind_ok.
  2:{ apply (publish_demand numSubscribers c
               (default p (head (_dataPackets (node w)))) p); try done; simpl.
      - by destruct (_dataPackets (node w)).
      - by rewrite last_snoc. }
  reflexivity.
Qed.

Lemma publish_null (numSubscribers : nat) (w : World) :
  numSubscribers ≠ 0%nat →
  _calibration (node w) = None →
  _dataPackets (node w) ≠ [] →
  publish numSubscribers w = Undef NullDereference.
Proof.
  intros Hs Hc Hb. unfold publish.
  destruct (Nat.eqb_spec numSubscribers 0) as [|_]; [done|].
  do 2 (erewrite bind_ok by reflexivity).
  destruct (_dataPackets (node w)) as [|p b]; [done|].
  by rewrite Hc.
Qed.

Lemma accumulate_null (numSubscribers : nat) (p : DataPacket) (w : World) :
  Z.of_nat (S (length (_dataPackets (node w))))
    = static_cast_size_t (_numDataPackets (node w)) →
  numSubscribers ≠ 0%nat →
  _calibration (node w) = None →
  accumulate numSubscribers p w = Undef NullDereference.
Proof.
  intros Hk Hs Hc. unfold accumulate.
  do 3 (erewrite bind_ok by reflexivity).
  cbn [node _dataPackets _numDataPackets set_dataPackets].
  rewrite length_app, Nat.add_1_r, Hk, Z.eqb_refl.
  unfold mbind at 1, M_bind at 1.
  rewrite publish_null; [done..|].
  simpl. by destruct (_dataPackets (node w)).
Qed.

(** Every dispatch of a decode callback is one of the cases of
    [Outcome]. *)
Lemma dispatch_outcome (d : Delivery) (w : World) : Outcome d w (dispatch d w).
Proof.
  destruct (decoded d) as [p|] eqn:Hd.
  - rewrite (dispatch_decoded d p) by done.
    destruct (decide (Z.of_nat (S (length (_dataPackets (node w))))
                      = static_cast_size_t (_numDataPackets (node w))))
      as [Hk|Hk].
    + destruct (decide (numSubscribersAt d = 0%nat)) as [Hs|Hs].
      * pose proof (out_publish d w p Calibration_default Hd Hk (or_introl Hs))
          as Ho.
        unfold publishEvents in Ho. rewrite Hs in *.
        rewrite accumulate_full_no_demand by done. exact Ho.
      * destruct (_calibration (node w)) as [c|] eqn:Hc.
        -- rewrite (accumulate_full _ c) by done.
           exact (out_publish d w p c Hd Hk (or_intror Hc)).
        -- rewrite accumulate_null by done.
           exact (out_null d w p Hd Hk Hs Hc).
    + rewrite accumulate_partial by done.
      exact (out_append d w p Hd Hk).
  - destruct (dispatch_throws d w Hd) as [e ->]. by apply out_throw.
Qed.

Lemma batchesOf_app (tr1 tr2 : list Event) :
  batchesOf (tr1 ++ tr2) = batchesOf tr1 ++ batchesOf tr2.
Proof. apply omap_app. Qed.

Lemma batchesOf_conversions (batch : list DataPacket) :
  batchesOf (EvToPointCloud <$> batch) = [].
Proof. by induction batch. Qed.

Lemma batchesOf_publishEvents (n : Node) (c : Calibration) (s : nat)
    (first last : DataPacket) (batch : list DataPacket) :
  batchesOf (publishEvents n c s first last batch) = [batch].
Proof.
  unfold publishEvents. destruct (s =? 0)%nat; [done|].
  change (batchesOf (EvCallPublish batch :: ?l)) with (batch :: batchesOf l).
  by rewrite batchesOf_app, batchesOf_conversions.
Qed.

(** ** Safety of the batch accesses *)

(** C9.  Whatever the configured number of packets, the batch and the
    message, a decode callback never reads the first or last element of an
    empty batch; and when it returns, every entry into [publish] it made
    came right after the append of the decoded packet, with a batch whose
    size equals the configured value converted to [size_t] and is at least
    one, so that its first and last packets exist. *)
Theorem C9_publish_reads_nonempty_batch (d : Delivery) (w : World) :
  dispatch d w ≠ Undef EmptyVectorAccess
  ∧ ∀ (w' : World) (batch : list DataPacket),
      dispatch d w = Ok () w' →
      batch ∈ batchesOf (drop (length (trace w)) (trace w')) →
      (∃ p, decoded d = Some p ∧ batch = _dataPackets (node w) ++ [p])
      ∧ Z.of_nat (length batch)
        = static_cast_size_t (_numDataPackets (node w))
      ∧ (1 ≤ length batch)%nat
      ∧ is_Some (head batch) ∧ is_Some (last batch).
Proof.
  destruct (dispatch_outcome d w) as [e Hd|p Hd Hk|p c Hd Hk Hc|p Hd Hk Hs Hc];
    (split; [done|]); intros w' batch [= <-]; cbn [trace setBatch setFrame addEvents].
  - rewrite drop_all. by intros ?%elem_of_nil.
  - rewrite drop_app_length, batchesOf_publishEvents.
    intros ->%list_elem_of_singleton.
    split; [by exists p|].
    rewrite length_app, Nat.add_1_r.
    split; [done|]. split; [lia|].
    split; [by destruct (_dataPackets (node w))|by rewrite last_snoc].
Qed.

(** ** The frame identifier *)

Lemma messagesOf_app (tr1 tr2 : list Event) :
  messagesOf (tr1 ++ tr2) = messagesOf tr1 ++ messagesOf tr2.
Proof. apply omap_app. Qed.

Lemma messagesOf_conversions (batch : list DataPacket) :
  messagesOf (EvToPointCloud <$> batch) = [].
Proof. by induction batch. Qed.

Lemma messagesOf_publishEvents (n : Node) (c : Calibration) (s : nat)
    (first last : DataPacket) (batch : list DataPacket) :
  messagesOf (publishEvents n c s first last batch)
  = if (s =? 0)%nat then [] else [cloudMessage n c first last batch].
Proof.
  unfold publishEvents. destruct (s =? 0)%nat; [done|].
  change (messagesOf (EvCallPublish batch :: ?l)) with (messagesOf l).
  by rewrite messagesOf_app, messagesOf_conversions.
Qed.

(** A decode callback that returns or throws has stored the frame
    identifier of its message and touched no member but that and the
    batch. *)
Lemma dispatch_frame (d : Delivery) (w w' : World) :
  (dispatch d w = Ok () w' ∨ ∃ e, dispatch d w = Raise e w') →
  _frameId (node w') = std_msgs.frame_id (headerOf d)
  ∧ otherMembers (node w') = otherMembers (node w).
Proof.
  intros Hr.
  destruct (dispatch_outcome d w) as [e Hd|p Hd Hk|p c Hd Hk Hc|p Hd Hk Hs Hc];
    destruct Hr as [Hr|[e' Hr]]; try done; by simplify_eq.
Qed.

(** C10.  A decode callback that returns or throws has stored the frame
    identifier of the message header and changed no member other than
    the frame identifier and the batch; this holds for a compressed
    message whose deserialisation throws, because the assignment comes
    first.  On a constructed node the callback does return or throw.  The
    stored identifier is the one attached to the clouds: every message
    published during the callback carries it. *)
Theorem C10_frame_identifier_always_updated (d : Delivery) (w : World) :
  (∀ w' : World,
     (dispatch d w = Ok () w' ∨ ∃ e, dispatch d w = Raise e w') →
     _frameId (node w') = std_msgs.frame_id (headerOf d)
     ∧ otherMembers (node w') = otherMembers (node w))
  ∧ (decoded d = None →
     ∃ e, dispatch d w
          = Raise e (setFrame (std_msgs.frame_id (headerOf d)) w))
  ∧ (is_Some (_calibration (node w)) →
     ∃ w', dispatch d w = Ok () w' ∨ ∃ e, dispatch d w = Raise e w')
  ∧ (∀ (w' : World) (m : sensor_msgs.PointCloud),
       dispatch d w = Ok () w' →
       m ∈ messagesOf (drop (length (trace w)) (trace w')) →
       std_msgs.frame_id (sensor_msgs.header m)
       = std_msgs.frame_id (headerOf d)).
Proof.
  split; [|split; [|split]].
  - intros w'. apply dispatch_frame.
  - apply dispatch_throws.
  - intros [c Hc].
    destruct (dispatch_outcome d w) as [e Hd|p Hd Hk|p c' Hd Hk Hc'|p Hd Hk Hs Hc'];
      eauto; congruence.
  - intros w' m.
    destruct (dispatch_outcome d w) as [e Hd|p Hd Hk|p c Hd Hk Hc|p Hd Hk Hs Hc];
      intros [= <-]; cbn [trace setBatch setFrame addEvents].
    + rewrite drop_all. by intros ?%elem_of_nil.
    + rewrite drop_app_length, messagesOf_publishEvents.
      destruct (numSubscribersAt d =? 0)%nat; [by intros ?%elem_of_nil|].
      by intros ->%list_elem_of_singleton.
Qed.

(** ** Batching *)

Lemma deliver_app (ds1 ds2 : list Delivery) (w : World) :
  deliver (ds1 ++ ds2) w = (deliver ds1;; deliver ds2) w.
Proof.
  revert w. induction ds1 as [|d ds1 IH]; intros w; [done|].
  cbn [app deliver]. unfold mbind, M_bind in *.
  destruct (dispatch d w); [apply IH|done..].
Qed.

Lemma otherMembers_eq (n n' : Node) :
  otherMembers n = otherMembers n' →
  _numDataPackets n = _numDataPackets n'
  ∧ _calibration n = _calibration n'
  ∧ _minDistance n = _minDistance n'
  ∧ _maxDistance n = _maxDistance n'.
Proof.
  intros Heq. repeat split.
  - exact (f_equal _numDataPackets Heq).
  - exact (f_equal _calibration Heq).
  - exact (f_equal _minDistance Heq).
  - exact (f_equal _maxDistance Heq).
Qed.

(** Packets that do not fill the batch are appended and nothing else
    happens. *)
Lemma deliver_partial (ds : list Delivery) (ps : list DataPacket) :
  Forall2 (λ d p, decoded d = Some p) ds ps →
  ∀ w : World,
    Z.of_nat (length (_dataPackets (node w)) + length ds)
      < static_cast_size_t (_numDataPackets (node w)) →
    ∃ w', deliver ds w = Ok () w'
          ∧ trace w' = trace w
          ∧ _dataPackets (node w') = _dataPackets (node w) ++ ps
          ∧ otherMembers (node w') = otherMembers (node w).
Proof.
  induction 1 as [|d p ds ps Hd _ IH]; intros w Hlen.
  - exists w. by rewrite app_nil_r.
  - cbn [deliver length] in *. unfold mbind, M_bind.
    rewrite (dispatch_decoded d p), accumulate_partial by (done || simpl; lia).
    destruct (IH (setBatch (_dataPackets (node w) ++ [p])
                    (setFrame (std_msgs.frame_id (headerOf d)) w)))
      as (w' & Hrun & Htr & Hb & Ho).
    { simpl. rewrite length_app. simpl. lia. }
    exists w'. split; [done|]. split; [done|].
    split; [by rewrite Hb; simpl; rewrite <- app_assoc|by rewrite Ho].
Qed.

Lemma length_concat_uniform (K : Z) (bs : list (list DataPacket)) :
  Forall (λ b, Z.of_nat (length b) = K) bs →
  Z.of_nat (length (concat bs)) = K * Z.of_nat (length bs).
Proof.
  induction 1 as [|b bs Hb _ IH]; simpl; [lia|].
  rewrite length_app. lia.
Qed.

(** The invariant of the accumulator over any run of decoded packets:
    every batch handed to [publish] has exactly [K] packets, the batches
    followed by what is left in the accumulator are the packets in
    arrival order, and fewer than [K] packets are left. *)
Lemma deliver_invariant (K : Z) (c : Calibration)
    (ds : list Delivery) (ps : list DataPacket) :
  Forall2 (λ d p, decoded d = Some p) ds ps →
  ∀ w : World,
    static_cast_size_t (_numDataPackets (node w)) = K →
    _calibration (node w) = Some c →
    Z.of_nat (length (_dataPackets (node w))) < K →
    ∃ w' new,
      deliver ds w = Ok () w'
      ∧ trace w' = trace w ++ new
      ∧ static_cast_size_t (_numDataPackets (node w')) = K
      ∧ _calibration (node w') = Some c
      ∧ Z.of_nat (length (_dataPackets (node w'))) < K
      ∧ Forall (λ b, Z.of_nat (length b) = K) (batchesOf new)
      ∧ concat (batchesOf new) ++ _dataPackets (node w')
        = _dataPackets (node w) ++ ps.
Proof.
  induction 1 as [|d p ds ps Hd _ IH]; intros w HK Hc Hlen.
  - exists w, []. rewrite !app_nil_r. by repeat split.
  - cbn [deliver]. unfold mbind, M_bind.
    destruct (dispatch_outcome d w)
      as [e Hd'|p' Hd' Hk|p' c' Hd' Hk Hc'|p' Hd' Hk Hs Hc']; [congruence| | |congruence].
    + assert (p' = p) as -> by congruence.
      destruct (IH (setBatch (_dataPackets (node w) ++ [p])
                      (setFrame (std_msgs.frame_id (headerOf d)) w)))
        as (w' & new & Hrun & Htr & HK' & Hc'' & Hlen' & Hall & Hcat);
        [done|done|simpl; rewrite length_app; simpl; lia|].
      exists w', new. repeat split; try done.
      rewrite Hcat. simpl. by rewrite <- app_assoc.
    + assert (p' = p) as -> by congruence.
      match goal with
      | |- context [deliver ds ?w1] =>
          destruct (IH w1)
            as (w' & new & Hrun & Htr & HK' & Hc'' & Hlen' & Hall & Hcat);
            [done|done|simpl; lia|]
      end.
      eexists w', (_ ++ new). split; [exact Hrun|].
      split; [by rewrite Htr; simpl; rewrite <- app_assoc|].
      rewrite batchesOf_app, batchesOf_publishEvents.
      repeat split; try done.
      * constructor; [|done]. rewrite length_app. simpl. lia.
      * simpl in Hcat. simpl. rewrite <- !app_assoc. simpl. by rewrite Hcat.
Qed.

(** C3.  Starting from an empty accumulator with a positive configured
    count [k], a run of [N = q * k] successfully decoded packets hands
    exactly [q] batches to [publish], each of exactly [k] packets, which
    concatenated are the packets in arrival order; the accumulator is empty
    afterwards.  After every prefix of the run the accumulator holds
    [length prefix mod k] packets: fewer than [k], and none right after a
    completed batch. *)
Theorem C3_batch_sizing (k : Z) (c : Calibration) (w : World)
    (ds : list Delivery) (ps : list DataPacket) (q : nat) :
  0 < k < 2 ^ 64 →
  _numDataPackets (node w) = k →
  _calibration (node w) = Some c →
  _dataPackets (node w) = [] →
  Forall2 (λ d p, decoded d = Some p) ds ps →
  Z.of_nat (length ds) = Z.of_nat q * k →
  (∃ w' new,
     deliver ds w = Ok () w'
     ∧ trace w' = trace w ++ new
     ∧ length (batchesOf new) = q
     ∧ Forall (λ b, Z.of_nat (length b) = k) (batchesOf new)
     ∧ concat (batchesOf new) = ps
     ∧ _dataPackets (node w') = [])
  ∧ ∀ ds1 ds2, ds = ds1 ++ ds2 →
      ∃ w1, deliver ds1 w = Ok () w1
            ∧ Z.of_nat (length (_dataPackets (node w1)))
              = Z.of_nat (length ds1) mod k.
Proof.
  intros Hk Hn Hc Hb Hdec HN.
  assert (static_cast_size_t (_numDataPackets (node w)) = k) as HK.
  { unfold static_cast_size_t. rewrite Hn. apply Z.mod_small. lia. }
  split.
  - destruct (deliver_invariant k c ds ps Hdec w)
      as (w' & new & Hrun & Htr & _ & _ & Hlen & Hall & Hcat);
      [done|done|rewrite Hb; simpl; lia|].
    rewrite Hb in Hcat. simpl in Hcat.
    pose proof (length_concat_uniform k _ Hall) as Hsz.
    pose proof (f_equal length Hcat) as Hl.
    rewrite length_app, <- (Forall2_length _ _ _ Hdec) in Hl.
    assert (length (batchesOf new) = q) as Hq.
    { destruct (Nat.lt_trichotomy (length (batchesOf new)) q)
        as [Hlt|[Heq|Hgt]]; [|done|]; exfalso.
      - assert (k * (Z.of_nat (length (batchesOf new)) + 1) ≤ k * Z.of_nat q)
          by (apply Z.mul_le_mono_nonneg_l; lia).
        lia.
      - assert (k * (Z.of_nat q + 1) ≤ k * Z.of_nat (length (batchesOf new)))
          by (apply Z.mul_le_mono_nonneg_l; lia).
        lia. }
    assert (length (_dataPackets (node w')) = 0%nat) as Hz by lia.
    apply length_zero_iff_nil in Hz.
    exists w', new. rewrite Hz, app_nil_r in Hcat. by repeat split.
  - intros ds1 ds2 ->.
    apply Forall2_app_inv_l in Hdec as (ps1 & ps2 & Hdec1 & _ & _).
    destruct (deliver_invariant k c ds1 ps1 Hdec1 w)
      as (w1 & new & Hrun & _ & _ & _ & Hlen & Hall & Hcat);
      [done|done|rewrite Hb; simpl; lia|].
    exists w1. split; [done|].
    rewrite Hb in Hcat. simpl in Hcat.
    pose proof (length_concat_uniform k _ Hall) as Hsz.
    pose proof (f_equal length Hcat) as Hl.
    rewrite length_app, <- (Forall2_length _ _ _ Hdec1) in Hl.
    apply (Z.mod_unique_pos _ _ (Z.of_nat (length (batchesOf new)))); lia.
Qed.

(** ** Demand gating *)

(** A run whose last packet completes the batch: the earlier packets are
    only appended, and the last dispatch enters [publish] with all of
    them. *)
Lemma deliver_completing (k : Z) (c : Calibration) (w : World)
    (ds : list Delivery) (d : Delivery) (ps : list DataPacket) :
  0 < k < 2 ^ 64 →
  _numDataPackets (node w) = k →
  _calibration (node w) = Some c →
  _dataPackets (node w) = [] →
  Forall2 (λ d p, decoded d = Some p) (ds ++ [d]) ps →
  Z.of_nat (length ps) = k →
  ∃ w' first last,
    deliver (ds ++ [d]) w = Ok () w'
    ∧ head ps = Some first ∧ list.last ps = Some last
    ∧ trace w'
      = trace w ++ publishEvents (node w') c (numSubscribersAt d) first last ps
    ∧ _dataPackets (node w') = []
    ∧ _numDataPackets (node w') = k
    ∧ _calibration (node w') = Some c.
Proof.
  intros Hk Hn Hc Hb Hdec Hlen.
  assert (static_cast_size_t k = k) as HK by (apply Z.mod_small; lia).
  apply Forall2_app_inv_l in Hdec as (ps1 & ps2 & Hdec1 & Hdec2 & ->).
  apply Forall2_cons_inv_l in Hdec2 as (p & ps' & Hd & ->%Forall2_nil_inv_l & ->).
  rewrite length_app in Hlen. simpl in Hlen.
  pose proof (Forall2_length _ _ _ Hdec1) as Hl1.
  destruct (deliver_partial ds ps1 Hdec1 w) as (w1 & Hrun & Htr & Hb1 & Ho).
  { rewrite Hb, Hn, HK. simpl. lia. }
  apply otherMembers_eq in Ho as (Hn1 & Hc1 & Hmin & Hmax).
  rewrite Hb in Hb1. simpl in Hb1.
  rewrite deliver_app. erewrite bind_ok by exact Hrun.
  cbn [deliver]. unfold mbind, M_bind.
  rewrite (dispatch_decoded d p) by done.
  rewrite (accumulate_full _ c);
    [|simpl; rewrite Hb1, Hn1, Hn, HK; lia|simpl; congruence].
  eexists _, (default p (head ps1)), p.
  split; [reflexivity|]. simpl. rewrite Hb1, Htr.
  repeat split; try congruence.
  - by destruct ps1.
  - by rewrite last_snoc.
Qed.

(** C2.  With no subscriber when the batch completes, nothing is
    converted and nothing is published (the only trace of the batch is the
    entry into [publish]), and the batch is cleared all the same.  The next
    full batch, completed with a subscriber present, is published exactly
    once, and the conversions and the message are those of its own packets
    alone. *)
Theorem C2_demand_gating (k : Z) (c : Calibration) (w : World)
    (ds1 ds2 : list Delivery) (d1 d2 : Delivery) (ps1 ps2 : list DataPacket) :
  0 < k < 2 ^ 64 →
  _numDataPackets (node w) = k →
  _calibration (node w) = Some c →
  _dataPackets (node w) = [] →
  Forall2 (λ d p, decoded d = Some p) (ds1 ++ [d1]) ps1 →
  Forall2 (λ d p, decoded d = Some p) (ds2 ++ [d2]) ps2 →
  Z.of_nat (length ps1) = k →
  Z.of_nat (length ps2) = k →
  numSubscribersAt d1 = 0%nat →
  numSubscribersAt d2 ≠ 0%nat →
  ∃ w1 w2 first last,
    deliver (ds1 ++ [d1]) w = Ok () w1
    ∧ trace w1 = trace w ++ [EvCallPublish ps1]
    ∧ _dataPackets (node w1) = []
    ∧ deliver (ds2 ++ [d2]) w1 = Ok () w2
    ∧ head ps2 = Some first ∧ list.last ps2 = Some last
    ∧ trace w2
      = trace w1 ++ [EvCallPublish ps2] ++ (EvToPointCloud <$> ps2)
          ++ [EvPublish (cloudMessage (node w2) c first last ps2)]
    ∧ _dataPackets (node w2) = [].
Proof.
  intros Hk Hn Hc Hb Hdec1 Hdec2 Hl1 Hl2 Hs1 Hs2.
  destruct (deliver_completing k c w ds1 d1 ps1)
    as (w1 & f1 & l1 & Hrun1 & _ & _ & Htr1 & Hb1 & Hn1 & Hc1); try done.
  destruct (deliver_completing k c w1 ds2 d2 ps2)
    as (w2 & first & last & Hrun2 & Hf & Hl & Htr2 & Hb2 & _ & _); try done.
  exists w1, w2, first, last.
  unfold publishEvents in Htr1, Htr2. rewrite Hs1 in Htr1.
  destruct (Nat.eqb_spec (numSubscribersAt d2) 0) as [|_]; [done|].
  by repeat split.
Qed.

(** ** Decode failures *)

Lemma no_log_publishEvents (n : Node) (c : Calibration) (s : nat)
    (first last : DataPacket) (batch : list DataPacket) :
  Forall (λ e, isLog e = false) (publishEvents n c s first last batch).
Proof.
  unfold publishEvents. constructor; [done|].
  destruct (s =? 0)%nat; [done|].
  apply Forall_app. split; [|by repeat constructor].
  by apply Forall_fmap, Forall_true.
Qed.

(** C1, as the code has it.  The compressed callback has no failure path
    of its own: the flag of the decompression is not consulted and nothing
    is ever reported.  When deserialisation throws, the exception leaves
    the callback, with the batch and the trace as they were.  When it
    returns, the packet it produced gets the stamp of the message and is
    appended like any other: it stays in the batch, or completes it and is
    handed to [publish] with it. *)
Theorem C1_decode_failure_is_not_handled (numSubscribers : nat)
    (msg : BinarySnappyMsg) (w : World) :
  let frameId := std_msgs.frame_id (bs_header msg) in
  let stamp := toNSec (std_msgs.stamp (bs_header msg)) in
  let batch := _dataPackets (node w) in
  let full :=
    Z.of_nat (S (length batch)) = static_cast_size_t (_numDataPackets (node w)) in
  (∀ e, DataPacket_readBinary (snappy_Uncompress (data msg)).2 = inr e →
        velodyneBinarySnappyCallback numSubscribers msg w
        = Raise e (setFrame frameId w))
  ∧ (∀ q, DataPacket_readBinary (snappy_Uncompress (data msg)).2 = inl q →
          ¬ full →
          velodyneBinarySnappyCallback numSubscribers msg w
          = Ok () (setBatch (batch ++ [setTimestamp stamp q])
                     (setFrame frameId w)))
  ∧ (∀ q c, DataPacket_readBinary (snappy_Uncompress (data msg)).2 = inl q →
            full →
            _calibration (node w) = Some c →
            velodyneBinarySnappyCallback numSubscribers msg w
            = Ok () (setBatch []
                       (addEvents
                          (publishEvents (set_frameId frameId (node w)) c
                             numSubscribers
                             (default (setTimestamp stamp q) (head batch))
                             (setTimestamp stamp q)
                             (batch ++ [setTimestamp stamp q]))
                          (setFrame frameId w))))
  ∧ (∀ w', (velodyneBinarySnappyCallback numSubscribers msg w = Ok () w'
            ∨ ∃ e, velodyneBinarySnappyCallback numSubscribers msg w
                   = Raise e w') →
           Forall (λ e, isLog e = false) (drop (length (trace w)) (trace w'))).
Proof.
  intros frameId stamp batch full.
  set (d := BinarySnappyDelivery numSubscribers msg).
  change (velodyneBinarySnappyCallback numSubscribers msg) with (dispatch d).
  split; [|split; [|split]].
  - intros e He. unfold d, dispatch, velodyneBinarySnappyCallback.
    by rewrite He.
  - intros q Hq Hfull.
    rewrite (dispatch_decoded d (setTimestamp stamp q)) by (by simpl; rewrite Hq).
    by rewrite accumulate_partial.
  - intros q c Hq Hfull Hc.
    rewrite (dispatch_decoded d (setTimestamp stamp q)) by (by simpl; rewrite Hq).
    by rewrite (accumulate_full _ c).
  - intros w' Hr.
    destruct (dispatch_outcome d w) as [e Hd|p Hd Hk|p c Hd Hk Hc|p Hd Hk Hs Hc];
      destruct Hr as [Hr|[e' Hr]]; try done; simplify_eq;
      cbn [trace setBatch setFrame addEvents].
    + by rewrite drop_all.
    + by rewrite drop_all.
    + rewrite drop_app_length. apply no_log_publishEvents.
Qed.

(** ** Subscription life cycle *)

Lemma initSubscribers_activates (w : World) :
  initSubscribers w = Ok () (activated w).
Proof.
  unfold initSubscribers, activated, selectedSubscription, selectedCallback,
    setSelectedSubscriber.
  run. by destruct (_useBinarySnappy (node w)).
Qed.

Lemma shutdownSubscribers_deactivates (w : World) :
  shutdownSubscribers w = Ok () (deactivated w).
Proof.
  unfold shutdownSubscribers, deactivated, selectedCallback,
    setSelectedSubscriber.
  run. by destruct (_useBinarySnappy (node w)).
Qed.

Lemma tick_activates (c : nat) (w : World) :
  _subscriptionIsActive (node w) = false → c ≠ 0%nat →
  updateSubscription c w = Ok () (activated w).
Proof.
  intros Ha Hc. unfold updateSubscription.
  erewrite bind_ok by reflexivity. rewrite Ha. simpl.
  destruct c; [done|]. apply initSubscribers_activates.
Qed.

Lemma tick_deactivates (w : World) :
  _subscriptionIsActive (node w) = true →
  updateSubscription 0 w = Ok () (deactivated w).
Proof.
  intros Ha. unfold updateSubscription.
  erewrite bind_ok by reflexivity. rewrite Ha. simpl.
  apply shutdownSubscribers_deactivates.
Qed.

Lemma tick_idle (c : nat) (w : World) :
  _subscriptionIsActive (node w) = negb (c =? 0)%nat →
  updateSubscription c w = Ok () w.
Proof.
  intros Ha. unfold updateSubscription.
  erewrite bind_ok by reflexivity. rewrite Ha. by destruct c.
Qed.

(** ** Start-up *)

Ltac exec :=
  cbv [mbind M_bind mret M_ret this assign emit throw undefined deref
       try_catch_IOException];
  cbn [node trace].

(** [getParameters] on a freshly initialised object. *)
Lemma getParameters_run (nh : ParamServer) (raw : Node) :
  getParameters {| node := member_init nh raw; trace := [] |}
  = Ok () {| node := configuredNode nh raw;
             trace :=
               deviceReport nh
               ++ [EvCreateTimer
                     (Double.div lit_1
                        (param (param_double nh)
                           "ros/subscription_updater_rate" lit_1))] |}.
Proof.
  unfold getParameters, configuredNode, resolvedCalibFileName,
    resolvedNumDataPackets, deviceReport.
  exec. cbn [_deviceName set_deviceName _nodeHandle set_minDistance
             set_maxDistance member_init].
  remember (param (param_string nh) "sensor/device_name" "Velodyne HDL-32E")
    as dev eqn:Hdev.
  destruct (dev =? "Velodyne HDL-64E S2")%string eqn:E64;
    cbn; rewrite <- ?Hdev, ?E64; [reflexivity|].
  destruct (dev =? "Velodyne HDL-32E")%string eqn:E32;
    cbn; rewrite <- ?Hdev, ?E64, ?E32; reflexivity.
Qed.

(** The constructor, in closed form.  An exception of the calibration
    reader other than [IOException] leaves it before the transport hints
    are resolved.  Otherwise it reports what there is to report,
    advertises, and hands the number of data packets to [reserve], which
    completes the construction or throws. *)
Lemma constructor_run (nh : ParamServer) (files : gmap string string)
    (raw : Node) (c' : Calibration) (r : option Exn) :
  Calibration_read (files !! resolvedCalibFileName nh) Calibration_default
    = (c', r) →
  VelodynePostNode nh files raw
  = match r with
    | Some (OtherException what) =>
        Raise (OtherException what)
          {| node := set_calibration (Some c') (configuredNode nh raw);
             trace :=
               deviceReport nh
               ++ [EvCreateTimer
                     (Double.div lit_1
                        (param (param_double nh)
                           "ros/subscription_updater_rate" lit_1))] |}
    | _ =>
        if DataPacket_max_size
           <? static_cast_size_t (resolvedNumDataPackets nh raw)
        then Raise length_error (startedWorld nh raw c' r)
        else Ok () (startedWorld nh raw c' r)
    end.
Proof.
  intros Hread.
  unfold VelodynePostNode, VelodynePostNode_body, startedWorld.
  erewrite bind_ok by apply getParameters_run.
  exec. cbn [_calibFileName _calibration set_calibration configuredNode].
  rewrite Hread. unfold resolvedTransportHints, transportReport, reserve.
  remember (param (param_string nh) "ros/transport_type" "udp") as tt eqn:Htt.
  destruct r as [[what|what]|]; cbn; rewrite <- ?Htt; [|done|].
  all: destruct (tt =? "udp")%string eqn:Eu;
    [|destruct (tt =? "tcp")%string eqn:Et];
    cbn; rewrite <- ?Htt, ?Eu, ?Et; cbn.
  all: destruct (DataPacket_max_size <? _);
    cbv [throw mret M_ret]; rewrite <- ?app_assoc; reflexivity.
Qed.

(** C6.  A constructed node is Inactive.  A tick that finds the node
    Inactive and a positive consumer count subscribes the one decoder
    input selected by [use_binary_snappy] and makes the node Active; a tick
    that finds it Active and no consumer shuts that subscription down and
    makes it Inactive; any other tick changes nothing and emits nothing.
    Over the counts 0, 0, 1, 1, 0 from Inactive the only events are one
    subscription, at the third tick, and one shutdown, at the fifth. *)
Theorem C6_lifecycle_transitions :
  (∀ nh files raw w0,
     VelodynePostNode nh files raw = Ok () w0 →
     _subscriptionIsActive (node w0) = false)
  ∧ (∀ c w,
       _subscriptionIsActive (node w) = false → c ≠ 0%nat →
       updateSubscription c w = Ok () (activated w)
       ∧ _subscriptionIsActive (node (activated w)) = true
       ∧ sub_callback (selectedSubscription (node w))
         = (if _useBinarySnappy (node w) then velodyneBinarySnappyCb
            else velodyneDataPacketCb)
       ∧ (if _useBinarySnappy (node w)
          then _velodyneBinarySnappySubscriber (node (activated w))
               = Some (selectedSubscription (node w))
               ∧ _velodyneDataPacketSubscriber (node (activated w))
                 = _velodyneDataPacketSubscriber (node w)
          else _velodyneDataPacketSubscriber (node (activated w))
               = Some (selectedSubscription (node w))
               ∧ _velodyneBinarySnappySubscriber (node (activated w))
                 = _velodyneBinarySnappySubscriber (node w)))
  ∧ (∀ w,
       _subscriptionIsActive (node w) = true →
       updateSubscription 0 w = Ok () (deactivated w)
       ∧ _subscriptionIsActive (node (deactivated w)) = false)
  ∧ (∀ c w,
       _subscriptionIsActive (node w) = negb (c =? 0)%nat →
       updateSubscription c w = Ok () w)
  ∧ (∀ w,
       _subscriptionIsActive (node w) = false →
       ticks [0; 0]%nat w = Ok () w
       ∧ ticks [0; 0; 1]%nat w = Ok () (activated w)
       ∧ ticks [0; 0; 1; 1]%nat w = Ok () (activated w)
       ∧ ticks [0; 0; 1; 1; 0]%nat w = Ok () (deactivated (activated w))
       ∧ trace (deactivated (activated w))
         = trace w ++ [EvSubscribe (selectedSubscription (node w));
                       EvShutdown (selectedCallback (node w))]).
Proof.
  split; [|split; [|split; [|split]]].
  - intros nh files raw w0 Hrun.
    destruct (Calibration_read (files !! resolvedCalibFileName nh)
                Calibration_default) as [c' r] eqn:Hread.
    rewrite (constructor_run nh files raw c' r Hread) in Hrun.
    destruct r as [[what|what]|]; [|done|].
    all: destruct (DataPacket_max_size <? _); [done|]; by injection Hrun as <-.
  - intros c w Ha Hc. split; [by apply tick_activates|].
    unfold activated, setSelectedSubscriber, selectedSubscription,
      selectedCallback.
    destruct (_useBinarySnappy (node w)) eqn:E; cbn; by rewrite ?E.
  - intros w Ha. split; [by apply tick_deactivates|done].
  - apply tick_idle.
  - intros w Ha.
    assert (ticks [0; 0]%nat w = Ok () w) as H2.
    { cbn [ticks]. by do 2 (erewrite bind_ok by (by apply tick_idle)). }
    assert (ticks [0; 0; 1]%nat w = Ok () (activated w)) as H3.
    { cbn [ticks]. do 2 (erewrite bind_ok by (by apply tick_idle)).
      by erewrite bind_ok by (by apply tick_activates). }
    assert (ticks [0; 0; 1; 1]%nat w = Ok () (activated w)) as H4.
    { cbn [ticks]. do 2 (erewrite bind_ok by (by apply tick_idle)).
      erewrite bind_ok by (by apply tick_activates).
      by erewrite bind_ok by (by apply tick_idle). }
    repeat split; try done.
    + cbn [ticks]. do 2 (erewrite bind_ok by (by apply tick_idle)).
      erewrite bind_ok by (by apply tick_activates).
      erewrite bind_ok by (by apply tick_idle).
      by erewrite bind_ok by (by apply tick_deactivates).
    + unfold deactivated, activated, selectedCallback, setSelectedSubscriber.
      destruct (_useBinarySnappy (node w)) eqn:E; cbn; rewrite ?E;
        by rewrite <- app_assoc.
Qed.

(** A negative [int] converted to [size_t] exceeds every [max_size()]. *)
Lemma negative_count_rejected (n : Z) :
  DataPacket_max_size < 2 ^ 63 → - 2 ^ 31 ≤ n < 0 →
  DataPacket_max_size < static_cast_size_t n.
Proof.
  intros Hmax Hn. unfold static_cast_size_t.
  replace (n mod 2 ^ 64) with (n + 2 ^ 64); [lia|].
  apply (Z.mod_unique_pos _ _ (-1)); lia.
Qed.

Lemma deviceReport_unknown (nh : ParamServer) :
  let dev := param (param_string nh) "sensor/device_name" "Velodyne HDL-32E" in
  dev ≠ "Velodyne HDL-64E S2" → dev ≠ "Velodyne HDL-32E" →
  deviceReport nh = [EvLog ERROR ("Unknown device: " +:+ dev)]
  ∧ resolvedCalibFileName nh = ""
  ∧ ∀ raw, resolvedNumDataPackets nh raw = _numDataPackets raw.
Proof.
  intros dev N64 N32.
  unfold deviceReport, resolvedCalibFileName, resolvedNumDataPackets.
  fold dev.
  by rewrite (proj2 (String.eqb_neq _ _) N64), (proj2 (String.eqb_neq _ _) N32).
Qed.

Lemma transportReport_unknown (nh : ParamServer) :
  let tt := param (param_string nh) "ros/transport_type" "udp" in
  tt ≠ "udp" → tt ≠ "tcp" →
  transportReport nh = [EvLog ERROR ("Unknown transport type: " +:+ tt)]
  ∧ resolvedTransportHints nh = [].
Proof.
  intros tt Nu Nt. unfold transportReport, resolvedTransportHints. fold tt.
  by rewrite (proj2 (String.eqb_neq _ _) Nu), (proj2 (String.eqb_neq _ _) Nt).
Qed.

(** C8, as the code has it.  A device name other than the two supported
    ones is reported as an error, and the calibration file name and the
    number of data packets are not assigned: they are what member
    initialisation left, the empty string and the content of the raw
    storage.  A transport type other than [udp] and [tcp] is reported as
    an error, and the transport hints stay default-constructed.  Start-up
    goes on after either report, through the advertisement, to the last
    statement of the constructor, which hands the number of data packets
    to [reserve]: for an unknown device that is the never-assigned
    content of the storage, and when [reserve] rejects it, as it does
    every negative count, [std::length_error] leaves the constructor.
    (The calibration reader is taken not to throw anything but an
    [IOException].) *)
Theorem C8_startup_after_a_configuration_error (nh : ParamServer)
    (files : gmap string string) (raw : Node) (c' : Calibration)
    (r : option Exn) :
  Calibration_read (files !! resolvedCalibFileName nh) Calibration_default
    = (c', r) →
  (∀ what, r ≠ Some (OtherException what)) →
  let dev := param (param_string nh) "sensor/device_name" "Velodyne HDL-32E" in
  let tt := param (param_string nh) "ros/transport_type" "udp" in
  let w' := startedWorld nh raw c' r in
  VelodynePostNode nh files raw
  = (if DataPacket_max_size <? static_cast_size_t (_numDataPackets (node w'))
     then Raise length_error w' else Ok () w')
  ∧ (dev ≠ "Velodyne HDL-64E S2" → dev ≠ "Velodyne HDL-32E" →
     EvLog ERROR ("Unknown device: " +:+ dev) ∈ trace w'
     ∧ _calibFileName (node w') = ""
     ∧ _numDataPackets (node w') = _numDataPackets raw)
  ∧ (tt ≠ "udp" → tt ≠ "tcp" →
     EvLog ERROR ("Unknown transport type: " +:+ tt) ∈ trace w'
     ∧ _transportHints (node w') = [])
  ∧ (dev ≠ "Velodyne HDL-64E S2" → dev ≠ "Velodyne HDL-32E" →
     DataPacket_max_size < 2 ^ 63 → - 2 ^ 31 ≤ _numDataPackets raw < 0 →
     VelodynePostNode nh files raw = Raise length_error w').
Proof.
  intros Hread Hr dev tt w'.
  pose proof (constructor_run nh files raw c' r Hread) as Hrun.
  assert (VelodynePostNode nh files raw
          = (if DataPacket_max_size
                <? static_cast_size_t (resolvedNumDataPackets nh raw)
             then Raise length_error w' else Ok () w')) as Hrun'.
  { destruct r as [[what|what]|]; [done|by destruct (Hr what)|done]. }
  split; [exact Hrun'|]. split; [|split].
  - intros N64 N32.
    destruct (deviceReport_unknown nh N64 N32) as (Hrep & Hfile & Hcount).
    unfold w', startedWorld. cbn [trace node]. rewrite Hrep.
    split; [set_solver|].
    split; [exact Hfile|apply Hcount].
  - intros Nu Nt.
    destruct (transportReport_unknown nh Nu Nt) as (Hrep & Hhints).
    unfold w', startedWorld. cbn [trace node]. rewrite Hrep.
    split; [|exact Hhints].
    set_solver.
  - intros N64 N32 Hmax Hneg.
    destruct (deviceReport_unknown nh N64 N32) as (_ & _ & Hcount).
    rewrite Hrun', Hcount.
    pose proof (negative_count_rejected _ Hmax Hneg) as Hlt.
    by apply Z.ltb_lt in Hlt as ->.
Qed.

(** C7.  When reading the calibration file throws an [IOException], the
    constructor is not left by it: the message of the exception is
    reported as a warning and the constructor goes on, through the
    advertisement, to its last statement, [reserve], which completes the
    construction for every number of data packets that a vector can hold
    (and throws [std::length_error] for any other, as it does when the
    calibration loads).  With a reader that gives a model or an error and
    nothing besides, the calibration of the node is then the
    default-constructed one.  No decode callback and no tick changes it
    afterwards, and it is the calibration that [publish] converts every
    batch with. *)
Theorem C7_calibration_load_failure (nh : ParamServer)
    (files : gmap string string) (raw : Node) (what : string) :
  loadsModelOrError →
  (Calibration_read (files !! resolvedCalibFileName nh) Calibration_default).2
    = Some (IOException what) →
  (static_cast_size_t (resolvedNumDataPackets nh raw) ≤ DataPacket_max_size →
   ∃ w', VelodynePostNode nh files raw = Ok () w'
         ∧ EvLog WARN ("IOException: " +:+ what) ∈ trace w'
         ∧ _calibration (node w') = Some Calibration_default)
  ∧ (∃ w', (VelodynePostNode nh files raw = Ok () w'
            ∨ VelodynePostNode nh files raw = Raise length_error w'
              ∧ DataPacket_max_size
                < static_cast_size_t (resolvedNumDataPackets nh raw))
           ∧ EvLog WARN ("IOException: " +:+ what) ∈ trace w'
           ∧ (∃ topic queue, EvAdvertise topic queue ∈ trace w')
           ∧ _calibration (node w') = Some Calibration_default)
  ∧ (∀ d w2 w3,
       (dispatch d w2 = Ok () w3 ∨ ∃ e, dispatch d w2 = Raise e w3) →
       _calibration (node w3) = _calibration (node w2))
  ∧ (∀ c w2 w3,
       updateSubscription c w2 = Ok () w3 →
       _calibration (node w3) = _calibration (node w2))
  ∧ (∀ numSubscribers w2 first last,
       numSubscribers ≠ 0%nat →
       _calibration (node w2) = Some Calibration_default →
       head (_dataPackets (node w2)) = Some first →
       list.last (_dataPackets (node w2)) = Some last →
       publish numSubscribers w2
       = Ok () (addEvents
                  (publishEvents (node w2) Calibration_default numSubscribers
                     first last (_dataPackets (node w2))) w2)).
Proof.
  intros Hspec Hread.
  destruct (Calibration_read (files !! resolvedCalibFileName nh)
              Calibration_default) as [c' r] eqn:Hrd.
  simpl in Hread. subst r.
  assert (c' = Calibration_default) as -> by exact (Hspec _ _ _ _ Hrd).
  assert (EvLog WARN ("IOException: " +:+ what)
            ∈ trace (startedWorld nh raw Calibration_default
                       (Some (IOException what)))) as Hwarn.
  { unfold startedWorld. cbn [trace calibrationReport]. set_solver. }
  split; [|split; [|split; [|split]]].
  - intros Hcount. rewrite (constructor_run nh files raw _ _ Hrd).
    destruct (Z.ltb_spec DataPacket_max_size
                (static_cast_size_t (resolvedNumDataPackets nh raw)));
      [lia|].
    eexists. by split_and!.
  - rewrite (constructor_run nh files raw _ _ Hrd).
    eexists. split; [|split; [exact Hwarn|split; [|done]]].
    + destruct (Z.ltb_spec DataPacket_max_size
                  (static_cast_size_t (resolvedNumDataPackets nh raw)));
        [by right|by left].
    + eexists _, _. unfold startedWorld. cbn [trace].
      do 4 (apply elem_of_app; right). constructor.
  - intros d w2 w3 Hr.
    destruct (dispatch_frame d w2 w3 Hr) as [_ Ho].
    by apply otherMembers_eq in Ho as (_ & ? & _).
  - intros c w2 w3.
    destruct (_subscriptionIsActive (node w2)) eqn:Ha; destruct c as [|c].
    + rewrite tick_deactivates by done. intros [= <-].
      unfold deactivated, setSelectedSubscriber. simpl.
      by destruct (_useBinarySnappy (node w2)).
    + rewrite tick_idle by done. by intros [= <-].
    + rewrite tick_idle by done. by intros [= <-].
    + rewrite tick_activates by done. intros [= <-].
      unfold activated, setSelectedSubscriber. simpl.
      by destruct (_useBinarySnappy (node w2)).
  - intros s w2 first last Hs Hc Hf Hl. by apply publish_demand.
Qed.

(** ** The distance filter *)

(** C5.  With demand, [publish] converts the packets of the batch in
    order, and the cloud it sends holds one point per laser return whose
    distance lies between the two thresholds, bounds included, and no
    other: the kept returns are those of the batch in packet, chunk and
    laser order that pass the test, and the points and the intensity
    channel are their conversions in that order. *)
Theorem C5_distance_filter (numSubscribers : nat) (c : Calibration)
    (first last : DataPacket) (w : World) :
  let batch := _dataPackets (node w) in
  let lo := _minDistance (node w) in
  let hi := _maxDistance (node w) in
  let kept := keptReturns lo hi batch in
  let cloud := (λ r, convertSingleReturn r.2 r.1 c) <$> kept in
  numSubscribers ≠ 0%nat →
  _calibration (node w) = Some c →
  head batch = Some first →
  list.last batch = Some last →
  (∃ m, publish numSubscribers w
        = Ok () (addEvents
                   ([EvCallPublish batch] ++ (EvToPointCloud <$> batch)
                    ++ [EvPublish m]) w)
        ∧ sensor_msgs.points m = toPoint32 <$> cloud
        ∧ sensor_msgs.channels m
          = [ {| sensor_msgs.name := "intensity";
                 sensor_msgs.values := (Float32.of_double ∘ mI) <$> cloud |} ])
  ∧ kept `sublist_of` returnsOf batch
  ∧ ∀ r, r ∈ kept
         ↔ r ∈ returnsOf batch
           ∧ Double.leb lo (mDistance r.2) = true
           ∧ Double.leb (mDistance r.2) hi = true.
Proof.
  intros batch lo hi kept cloud Hs Hc Hf Hl. split; [|split].
  - exists (cloudMessage (node w) c first last batch).
    split; [|split; reflexivity].
    rewrite (publish_demand numSubscribers c first last) by done.
    unfold publishEvents.
    by destruct (Nat.eqb_spec numSubscribers 0) as [|_].
  - apply sublist_filter.
  - intros r. unfold kept, keptReturns, inRange.
    rewrite list_elem_of_filter, andb_true_iff. tauto.
Qed.

(** ** The stamp of the outbound message *)

(** C4, as the code has it.  The stamp of the published message is the
    expression [first + round((last - first) * 0.5)] evaluated in double
    arithmetic on the time stamps of the first and last packet of the
    batch.  When both lie below [2^53] nanoseconds nothing is rounded and
    the stamp is the exact midpoint, halves rounded away from zero. *)
Theorem C4_timestamp_midpoint (numSubscribers : nat) (c : Calibration)
    (first last : DataPacket) (w : World) :
  let batch := _dataPackets (node w) in
  numSubscribers ≠ 0%nat →
  _calibration (node w) = Some c →
  head batch = Some first →
  list.last batch = Some last →
  ∃ m, publish numSubscribers w
       = Ok () (addEvents
                  ([EvCallPublish batch] ++ (EvToPointCloud <$> batch)
                   ++ [EvPublish m]) w)
       ∧ toNSec (std_msgs.stamp (sensor_msgs.header m))
         = midpoint (getTimestamp first) (getTimestamp last)
       ∧ (0 ≤ getTimestamp first < 2 ^ 53 →
          0 ≤ getTimestamp last < 2 ^ 53 →
          toNSec (std_msgs.stamp (sensor_msgs.header m))
          = getTimestamp first
            + roundHalf (getTimestamp last - getTimestamp first)).
Proof.
  intros batch Hs Hc Hf Hl.
  exists (cloudMessage (node w) c first last batch).
  split; [|split].
  - rewrite (publish_demand numSubscribers c first last) by done.
    unfold publishEvents.
    by destruct (Nat.eqb_spec numSubscribers 0) as [|_].
  - done.
  - intros H1 H2. simpl. by rewrite DoubleFacts.midpoint_exact.
Qed.

End Properties.

(** * The node in operation *)

Section Operation.

Context `{External}.

(** ** What the callbacks leave alone *)

(** A decode callback that returns or throws has changed the frame
    identifier and the batch and nothing else. *)
Lemma dispatch_node (d : Delivery) (w w' : World) :
  resultWorld (dispatch d w) = Some w' →
  node w'
  = set_frameId (_frameId (node w'))
      (set_dataPackets (_dataPackets (node w')) (node w)).
Proof.
  destruct (dispatch_outcome d w) as [e Hd|p Hd Hk|p c Hd Hk Hc|p Hd Hk Hs Hc];
    simpl; intros [= <-]; reflexivity.
Qed.

Lemma dispatch_trace (d : Delivery) (w w' : World) :
  resultWorld (dispatch d w) = Some w' →
  ∃ new, trace w' = trace w ++ new
         ∧ Forall (λ e, match e with
                        | EvCallPublish _ | EvToPointCloud _ | EvPublish _ => True
                        | _ => False
                        end) new.
Proof.
  destruct (dispatch_outcome d w) as [e Hd|p Hd Hk|p c Hd Hk Hc|p Hd Hk Hs Hc];
    simpl; intros [= <-]; cbn [trace].
  - exists []. by rewrite app_nil_r.
  - exists []. by rewrite app_nil_r.
  - eexists. split; [reflexivity|]. unfold publishEvents.
    constructor; [done|]. destruct (numSubscribersAt d =? 0)%nat; [done|].
    apply Forall_app. split; [|by repeat constructor].
    apply Forall_fmap, Forall_true. done.
Qed.

(** The timer callback, case by case. *)
Lemma tick_cases (c : nat) (w : World) :
  updateSubscription c w
  = Ok () (if _subscriptionIsActive (node w)
           then if (c =? 0)%nat then deactivated w else w
           else if (c =? 0)%nat then w else activated w).
Proof.
  destruct (_subscriptionIsActive (node w)) eqn:Ha, c as [|c]; simpl.
  - by apply tick_deactivates.
  - by apply tick_idle.
  - by apply tick_idle.
  - by apply tick_activates.
Qed.

Lemma InService_inactive (n : Node) :
  InService n → _subscriptionIsActive n = false →
  _velodyneBinarySnappySubscriber n = None
  ∧ _velodyneDataPacketSubscriber n = None.
Proof.
  intros [_ Hs] Ha. rewrite Ha in Hs. unfold subscriptions in Hs.
  by destruct (_velodyneBinarySnappySubscriber n),
    (_velodyneDataPacketSubscriber n).
Qed.

Lemma InService_active (n : Node) :
  InService n → _subscriptionIsActive n = true →
  is_Some (subscriberOf (selectedCallback n) n)
  ∧ ∀ cb, cb ≠ selectedCallback n → subscriberOf cb n = None.
Proof.
  intros [_ Hs] Ha. rewrite Ha in Hs.
  unfold subscriptions, selectedCallback in *.
  destruct (_useBinarySnappy n), (_velodyneBinarySnappySubscriber n) eqn:E1,
    (_velodyneDataPacketSubscriber n) eqn:E2; simplify_eq/=.
  all: split; [by simpl; rewrite ?E1, ?E2|].
  all: intros [] ?; simpl; by rewrite ?E1, ?E2.
Qed.

Lemma activated_InService (w : World) :
  InService (node w) → _subscriptionIsActive (node w) = false →
  InService (node (activated w)).
Proof.
  intros Hi Ha. destruct (InService_inactive _ Hi Ha) as [H1 H2].
  destruct Hi as [Hc _]. split.
  - unfold activated, setSelectedSubscriber. simpl.
    by destruct (_useBinarySnappy (node w)).
  - unfold activated, setSelectedSubscriber, subscriptions, selectedCallback.
    simpl. destruct (_useBinarySnappy (node w)) eqn:E; simpl; rewrite ?E.
    + by rewrite H2.
    + by rewrite H1.
Qed.

Lemma deactivated_InService (w : World) :
  InService (node w) → _subscriptionIsActive (node w) = true →
  InService (node (deactivated w)).
Proof.
  intros Hi Ha. destruct (InService_active _ Hi Ha) as [_ Ho].
  destruct Hi as [Hc _]. split.
  - unfold deactivated, setSelectedSubscriber. simpl.
    by destruct (_useBinarySnappy (node w)).
  - unfold deactivated, setSelectedSubscriber, subscriptions. simpl.
    unfold selectedCallback in Ho.
    destruct (_useBinarySnappy (node w)) eqn:E; simpl.
    + pose proof (Ho velodyneDataPacketCb ltac:(done)) as Hn.
      simpl in Hn. by rewrite Hn.
    + pose proof (Ho velodyneBinarySnappyCb ltac:(done)) as Hn.
      simpl in Hn. by rewrite Hn.
Qed.

Lemma countOf_app (p : Event → bool) (tr1 tr2 : list Event) :
  countOf p (tr1 ++ tr2) = (countOf p tr1 + countOf p tr2)%nat.
Proof. unfold countOf. by rewrite filter_app, length_app. Qed.

Lemma countOf_publishing (p : Event → bool) (new : list Event) :
  Forall (λ e, match e with
               | EvCallPublish _ | EvToPointCloud _ | EvPublish _ => True
               | _ => False
               end) new →
  (∀ e, p e = true → match e with
                     | EvCallPublish _ | EvToPointCloud _ | EvPublish _ => False
                     | _ => True
                     end) →
  countOf p new = 0%nat.
Proof.
  intros Hall Hp. unfold countOf.
  induction Hall as [|e new He _ IH]; [done|].
  rewrite filter_cons. destruct (decide (p e = true)) as [Hpe|]; [|done].
  specialize (Hp e Hpe). by destruct e.
Qed.

Lemma lifecycle_app (active : bool) (tr1 tr2 : list Event) :
  lifecycle active (tr1 ++ tr2)
  = lifecycle active tr1 ≫= λ active', lifecycle active' tr2.
Proof.
  revert active. induction tr1 as [|e tr1 IH]; intros active; [done|].
  destruct e, active; simpl; auto.
Qed.

Lemma lifecycle_publishing (active : bool) (new : list Event) :
  Forall (λ e, match e with
               | EvCallPublish _ | EvToPointCloud _ | EvPublish _ => True
               | _ => False
               end) new →
  lifecycle active new = Some active.
Proof. induction 1 as [|e new He _ IH]; [done|]. by destruct e. Qed.

(** One queue entry serviced by a node in service. *)
Lemma service_step (e : Dispatch) (w : World) :
  InService (node w) →
  ∃ w' new,
    (service e w = Ok () w'
     ∨ undecodable e ∧ ∃ x, service e w = Raise x w')
    ∧ InService (node w')
    ∧ configuration (node w') = configuration (node w)
    ∧ trace w' = trace w ++ new
    ∧ (countOf isSubscribe new + Nat.b2n (_subscriptionIsActive (node w))
       = countOf isShutdown new + Nat.b2n (_subscriptionIsActive (node w')))%nat
    ∧ lifecycle (_subscriptionIsActive (node w)) new
      = Some (_subscriptionIsActive (node w'))
    ∧ Forall (operational (node w)) new.
Proof.
  intros Hi. destruct e as [c|d]; cbn [service].
  - rewrite tick_cases.
    destruct (_subscriptionIsActive (node w)) eqn:Ha, (c =? 0)%nat.
    + exists (deactivated w), [EvShutdown (selectedCallback (node w))].
      split; [by left|]. split; [by apply deactivated_InService|].
      split; [|by repeat constructor].
      unfold deactivated, setSelectedSubscriber. simpl.
      by destruct (_useBinarySnappy (node w)).
    + exists w, []. rewrite app_nil_r, Ha. by split_and!; auto.
    + exists w, []. rewrite app_nil_r, Ha. by split_and!; auto.
    + exists (activated w), [EvSubscribe (selectedSubscription (node w))].
      split; [by left|]. split; [by apply activated_InService|].
      split; [|by repeat constructor].
      unfold activated, setSelectedSubscriber. simpl.
      by destruct (_useBinarySnappy (node w)).
  - assert (∃ w', resultWorld (dispatch d w) = Some w'
                  ∧ (dispatch d w = Ok () w'
                     ∨ decoded d = None ∧ ∃ x, dispatch d w = Raise x w'))
      as (w' & Hw & Hr).
    { destruct Hi as [[c Hc] _].
      destruct (dispatch_outcome d w)
        as [x Hd|p Hd Hk|p c' Hd Hk Hc'|p Hd Hk Hs Hc']; [| | |congruence].
      all: eexists; split; [reflexivity|]; eauto. }
    destruct (dispatch_trace d w w' Hw) as (new & Htr & Hnew).
    pose proof (dispatch_node d w w' Hw) as Hn.
    exists w', new. split; [exact Hr|].
    split; [by rewrite Hn|]. split; [by rewrite Hn|]. split; [done|].
    split; [|split].
    + rewrite Hn. simpl.
      rewrite !countOf_publishing; try done; by intros [].
    + rewrite Hn. simpl. by apply lifecycle_publishing.
    + eapply Forall_impl; [exact Hnew|]. by intros [].
Qed.

Lemma configuration_selected (n n' : Node) :
  configuration n' = configuration n →
  selectedSubscription n' = selectedSubscription n
  ∧ selectedCallback n' = selectedCallback n
  ∧ _calibration n' = _calibration n
  ∧ _numDataPackets n' = _numDataPackets n
  ∧ _pointCloudPublisher n' = _pointCloudPublisher n.
Proof.
  intros Heq. repeat split.
  - exact (f_equal selectedSubscription Heq).
  - exact (f_equal selectedCallback Heq).
  - exact (f_equal _calibration Heq).
  - exact (f_equal _numDataPackets Heq).
  - exact (f_equal _pointCloudPublisher Heq).
Qed.

(** A queue serviced by a node in service. *)
Lemma spin_steps (queue : list Dispatch) (w : World) :
  InService (node w) →
  ∃ w' new,
    (spin queue w = Ok () w'
     ∨ Exists undecodable queue ∧ ∃ x, spin queue w = Raise x w')
    ∧ InService (node w')
    ∧ configuration (node w') = configuration (node w)
    ∧ trace w' = trace w ++ new
    ∧ (countOf isSubscribe new + Nat.b2n (_subscriptionIsActive (node w))
       = countOf isShutdown new + Nat.b2n (_subscriptionIsActive (node w')))%nat
    ∧ lifecycle (_subscriptionIsActive (node w)) new
      = Some (_subscriptionIsActive (node w'))
    ∧ Forall (operational (node w)) new.
Proof.
  revert w. induction queue as [|e queue IH]; intros w Hi.
  - exists w, []. rewrite app_nil_r. by split_and!; auto.
  - destruct (service_step e w Hi)
      as (w1 & new1 & Hr1 & Hi1 & Hc1 & Ht1 & Hn1 & Hl1 & Ho1).
    cbn [spin]. destruct Hr1 as [Hr1|[Hu [x Hr1]]].
    + destruct (IH w1 Hi1) as (w' & new & Hr & Hi' & Hc & Ht & Hn & Hl & Ho).
      destruct (configuration_selected _ _ Hc1) as (Hss & Hsc & _).
      exists w', (new1 ++ new). erewrite bind_ok by exact Hr1.
      split. { destruct Hr as [Hr|[Hu [x Hr]]]; [by left|right]. split; eauto. }
      split; [done|]. split; [congruence|].
      split; [by rewrite Ht, Ht1, app_assoc|].
      split; [rewrite !countOf_app; lia|].
      split; [by rewrite lifecycle_app, Hl1|].
      apply Forall_app. split; [done|].
      eapply Forall_impl; [exact Ho|].
      intros ev. unfold operational. by rewrite Hss, Hsc.
    + exists w1, new1. split; [|done].
      right. split; [by left|]. exists x.
      unfold mbind, M_bind. by rewrite Hr1.
Qed.

(** ** The subscription life cycle in operation *)

(** X1.  The timer callback is level-triggered: whatever the state before,
    after a tick the node is Active exactly when the count it polled was
    positive, and a further tick that polls a count of the same kind (zero, or
    positive) changes nothing and emits nothing. *)
Theorem X1_tick_follows_demand (c : nat) (w : World) :
  ∃ w', updateSubscription c w = Ok () w'
        ∧ _subscriptionIsActive (node w') = negb (c =? 0)%nat
        ∧ ∀ c', (c' =? 0)%nat = (c =? 0)%nat →
                updateSubscription c' w' = Ok () w'.
Proof.
  rewrite tick_cases. eexists. split; [reflexivity|].
  assert (∀ w', _subscriptionIsActive (node w') = negb (c =? 0)%nat →
                ∀ c', (c' =? 0)%nat = (c =? 0)%nat →
                      updateSubscription c' w' = Ok () w') as Hidle.
  { intros w' Ha c' Hc'. apply tick_idle. by rewrite Ha, Hc'. }
  destruct (_subscriptionIsActive (node w)) eqn:Ha, (c =? 0)%nat eqn:Hc;
    (split; [by rewrite ?Ha|]); apply Hidle; by rewrite ?Ha, ?Hc.
Qed.

(** X2.  Demand that comes and goes leaves the node as it was: on an Inactive
    node in service, a tick with a positive count followed by a tick with
    count zero restores every member; what remains is one subscription and one
    shutdown in the trace. *)
Theorem X2_demand_round_trip (c : nat) (w : World) :
  InService (node w) →
  _subscriptionIsActive (node w) = false →
  c ≠ 0%nat →
  ∃ w', ticks [c; 0%nat] w = Ok () w'
        ∧ node w' = node w
        ∧ trace w'
          = trace w ++ [EvSubscribe (selectedSubscription (node w));
                        EvShutdown (selectedCallback (node w))].
Proof.
  intros Hi Ha Hc. destruct (InService_inactive _ Hi Ha) as [H1 H2].
  cbn [ticks]. erewrite bind_ok by (by apply tick_activates).
  erewrite bind_ok.
  2:{ apply tick_deactivates. unfold activated. simpl.
      unfold setSelectedSubscriber. by destruct (_useBinarySnappy (node w)). }
  eexists. split; [reflexivity|].
  unfold deactivated, activated, setSelectedSubscriber, selectedCallback.
  simpl. destruct w as [n tr]. simpl in *.
  destruct n. simpl in *. subst.
  destruct _useBinarySnappy0; simpl; by rewrite <- app_assoc.
Qed.

(** X3.  At most one decoder input is subscribed at any time, and it is the
    one selected at start-up.  For a node in service and any queue of timer
    and decode callbacks: when [spin] has gone through the queue, or was left
    by an exception on the way, the selected input is subscribed if the node
    is Active and nothing is subscribed if it is Inactive; what start-up
    settled (parameters, calibration, publisher, timer) is as it was; and
    every subscription and shutdown made on the way was that of the selected
    input, with the same topic, queue depth, callback and hints, and nothing
    of start-up was done again. *)
Theorem X3_one_subscription_at_a_time (queue : list Dispatch) (w : World) :
  InService (node w) →
  ∃ w' new,
    resultWorld (spin queue w) = Some w'
    ∧ subscriptions (node w')
      = (if _subscriptionIsActive (node w')
         then [selectedCallback (node w)] else [])
    ∧ configuration (node w') = configuration (node w)
    ∧ trace w' = trace w ++ new
    ∧ Forall (operational (node w)) new.
Proof.
  intros Hi.
  destruct (spin_steps queue w Hi)
    as (w' & new & Hr & [_ Hs] & Hc & Ht & _ & _ & Ho).
  destruct (configuration_selected _ _ Hc) as (_ & Hsc & _).
  exists w', new. rewrite <- Hsc. split; [|done].
  by destruct Hr as [->|[_ [x ->]]].
Qed.

(** X4.  Subscriptions and shutdowns alternate.  Over any queue of callbacks
    on a node in service, no subscription is made while the node is Active
    and no shutdown while it is Inactive, and the state the events lead to
    is the state of the node afterwards; so the number of subscriptions
    made, plus one if the node was Active before, equals the number of
    shutdowns made, plus one if it is Active after. *)
Theorem X4_subscriptions_balance (queue : list Dispatch) (w : World) :
  InService (node w) →
  ∃ w' new,
    resultWorld (spin queue w) = Some w'
    ∧ trace w' = trace w ++ new
    ∧ lifecycle (_subscriptionIsActive (node w)) new
      = Some (_subscriptionIsActive (node w'))
    ∧ (countOf isSubscribe new + Nat.b2n (_subscriptionIsActive (node w))
       = countOf isShutdown new
         + Nat.b2n (_subscriptionIsActive (node w')))%nat.
Proof.
  intros Hi.
  destruct (spin_steps queue w Hi)
    as (w' & new & Hr & _ & _ & Ht & Hn & Hl & _).
  exists w', new. split; [|done].
  by destruct Hr as [->|[_ [x ->]]].
Qed.

(** X5.  No queue of callbacks makes a node in service misbehave: no callback
    dereferences a null calibration or reads an element of an empty batch, in
    any order of timer and decode callbacks.  [spin] returns, unless the
    deserialisation of one of the messages throws, and then an exception
    leaves [spin]. *)
Theorem X5_spin_is_defined (queue : list Dispatch) (w : World) :
  InService (node w) →
  (∃ w', spin queue w = Ok () w')
  ∨ (Exists undecodable queue ∧ ∃ x w', spin queue w = Raise x w').
Proof.
  intros Hi.
  destruct (spin_steps queue w Hi) as (w' & new & [Hr|[Hu [x Hr]]] & _);
    [left|right]; eauto.
Qed.

(** ** The accumulator in operation *)

(** The timer callback changes the two subscriber handles and the Active
    flag and nothing else, and makes no entry into [publish]. *)
Lemma ticks_frame (cs : list nat) (w : World) :
  ∃ w' new,
    ticks cs w = Ok () w'
    ∧ trace w' = trace w ++ new
    ∧ batchesOf new = []
    ∧ messagesOf new = []
    ∧ otherMembers (configuration (node w'))
      = otherMembers (configuration (node w))
    ∧ _dataPackets (node w') = _dataPackets (node w)
    ∧ _frameId (node w') = _frameId (node w).
Proof.
  revert w. induction cs as [|c cs IH]; intros w.
  - exists w, []. by rewrite app_nil_r.
  - cbn [ticks]. erewrite bind_ok by apply tick_cases.
    match goal with
    | |- context [ticks cs ?w1] =>
        destruct (IH w1) as (w' & new & Hr & Ht & Hb & Hm & Hc & Hd & Hf);
        assert (∃ new1, trace w1 = trace w ++ new1
                        ∧ batchesOf new1 = [] ∧ messagesOf new1 = []
                        ∧ otherMembers (configuration (node w1))
                          = otherMembers (configuration (node w))
                        ∧ _dataPackets (node w1) = _dataPackets (node w)
                        ∧ _frameId (node w1) = _frameId (node w))
          as (new1 & Ht1 & Hb1 & Hm1 & Hc1 & Hd1 & Hf1)
    end.
    { destruct (_subscriptionIsActive (node w)), (c =? 0)%nat.
      2,3: exists []; by rewrite app_nil_r.
      all: eexists; split; [reflexivity|].
      all: unfold deactivated, activated, setSelectedSubscriber; simpl.
      all: by destruct (_useBinarySnappy (node w)). }
    exists w', (new1 ++ new). split; [done|].
    split; [by rewrite Ht, Ht1, <- app_assoc|].
    split; [by rewrite batchesOf_app, Hb, Hb1|].
    split; [by rewrite messagesOf_app, Hm, Hm1|].
    split_and!; congruence.
Qed.

(** Packets that never make the batch size equal to the configured count
    are appended and nothing else happens. *)
Lemma deliver_appends (K : Z) (ds : list Delivery) (ps : list DataPacket) :
  Forall2 (λ d p, decoded d = Some p) ds ps →
  ∀ w : World,
    static_cast_size_t (_numDataPackets (node w)) = K →
    (∀ i : nat, (i < length ds)%nat →
       Z.of_nat (S (length (_dataPackets (node w)) + i)) ≠ K) →
    ∃ w', deliver ds w = Ok () w'
          ∧ trace w' = trace w
          ∧ _dataPackets (node w') = _dataPackets (node w) ++ ps
          ∧ otherMembers (node w') = otherMembers (node w).
Proof.
  induction 1 as [|d p ds ps Hd _ IH]; intros w HK Hne.
  - exists w. by rewrite app_nil_r.
  - cbn [deliver]. unfold mbind, M_bind.
    rewrite (dispatch_decoded d p) by done. rewrite accumulate_partial.
    2:{ simpl. rewrite HK. specialize (Hne 0%nat). rewrite Nat.add_0_r in Hne.
        apply Hne. simpl. lia. }
    destruct (IH (setBatch (_dataPackets (node w) ++ [p])
                    (setFrame (std_msgs.frame_id (headerOf d)) w)))
      as (w' & Hrun & Htr & Hb & Ho).
    { done. }
    { intros i Hi. simpl. rewrite length_app. simpl.
      specialize (Hne (S i)). simpl in Hne.
      replace (length (_dataPackets (node w)) + 1 + i)%nat
        with (length (_dataPackets (node w)) + S i)%nat by lia.
      apply Hne. lia. }
    exists w'. split; [done|]. split; [done|].
    split; [by rewrite Hb; simpl; rewrite <- app_assoc|by rewrite Ho].
Qed.

(** X6.  A batch that has outgrown the configured count is out of reach.  When
    the accumulator already holds at least as many packets as the count asks
    for (in particular when the count is zero), no later packet makes the
    sizes equal: every decoded packet is appended, [publish] is never entered
    and nothing is ever emitted or cleared. *)
Theorem X6_batch_out_of_reach (ds : list Delivery) (ps : list DataPacket)
    (w : World) :
  static_cast_size_t (_numDataPackets (node w))
    ≤ Z.of_nat (length (_dataPackets (node w))) →
  Forall2 (λ d p, decoded d = Some p) ds ps →
  ∃ w', deliver ds w = Ok () w'
        ∧ trace w' = trace w
        ∧ _dataPackets (node w') = _dataPackets (node w) ++ ps.
Proof.
  intros Hk Hdec.
  destruct (deliver_appends _ ds ps Hdec w eq_refl) as (w' & Hr & Ht & Hb & _).
  { intros i _. lia. }
  by exists w'.
Qed.

(** X7.  Batching from any state.  With a positive configured count [k] and
    fewer than [k] packets in the accumulator, [N] decoded packets make [(held
    + N) / k] entries into [publish] and leave [(held + N) mod k] packets
    behind; the batches followed by what is left are the packets that were
    held followed by the new ones, in order. *)
Theorem X7_batching_from_any_state (k : Z) (c : Calibration) (w : World)
    (ds : list Delivery) (ps : list DataPacket) :
  0 < k < 2 ^ 64 →
  _numDataPackets (node w) = k →
  _calibration (node w) = Some c →
  Z.of_nat (length (_dataPackets (node w))) < k →
  Forall2 (λ d p, decoded d = Some p) ds ps →
  let total := Z.of_nat (length (_dataPackets (node w)) + length ds) in
  ∃ w' new,
    deliver ds w = Ok () w'
    ∧ trace w' = trace w ++ new
    ∧ Z.of_nat (length (batchesOf new)) = total / k
    ∧ Z.of_nat (length (_dataPackets (node w'))) = total mod k
    ∧ Forall (λ b, Z.of_nat (length b) = k) (batchesOf new)
    ∧ concat (batchesOf new) ++ _dataPackets (node w')
      = _dataPackets (node w) ++ ps.
Proof.
  intros Hk Hn Hc Hlen Hdec total.
  assert (static_cast_size_t (_numDataPackets (node w)) = k) as HK.
  { unfold static_cast_size_t. rewrite Hn. apply Z.mod_small. lia. }
  destruct (deliver_invariant k c ds ps Hdec w HK Hc Hlen)
    as (w' & new & Hrun & Htr & _ & _ & Hlen' & Hall & Hcat).
  pose proof (length_concat_uniform k _ Hall) as Hsz.
  pose proof (f_equal length Hcat) as Hl.
  rewrite !length_app, <- (Forall2_length _ _ _ Hdec) in Hl.
  assert (total = Z.of_nat (length (batchesOf new)) * k
                  + Z.of_nat (length (_dataPackets (node w')))) as Hdm.
  { unfold total. lia. }
  exists w', new. split; [done|]. split; [done|].
  split; [|split; [|done]].
  - apply (Z.div_unique_pos _ _ _
                       (Z.of_nat (length (_dataPackets (node w'))))); lia.
  - apply (Z.mod_unique_pos _ _
                       (Z.of_nat (length (batchesOf new)))); lia.
Qed.

(** A run whose last packet completes a batch that was already begun. *)
Lemma deliver_completes (k : Z) (c : Calibration) (w : World)
    (ds : list Delivery) (d : Delivery) (ps : list DataPacket) (p : DataPacket) :
  static_cast_size_t (_numDataPackets (node w)) = k →
  _calibration (node w) = Some c →
  Forall2 (λ d p, decoded d = Some p) ds ps →
  decoded d = Some p →
  Z.of_nat (length (_dataPackets (node w)) + length ds + 1) = k →
  let batch := _dataPackets (node w) ++ ps ++ [p] in
  ∃ w' first,
    deliver (ds ++ [d]) w = Ok () w'
    ∧ head batch = Some first
    ∧ trace w'
      = trace w ++ publishEvents (node w') c (numSubscribersAt d) first p batch
    ∧ _dataPackets (node w') = []
    ∧ _frameId (node w') = std_msgs.frame_id (headerOf d)
    ∧ otherMembers (node w') = otherMembers (node w).
Proof.
  intros HK Hc Hdec Hd Hlen batch.
  pose proof (Forall2_length _ _ _ Hdec) as Hl.
  destruct (deliver_partial ds ps Hdec w) as (w1 & Hrun & Htr & Hb1 & Ho).
  { rewrite HK. lia. }
  pose proof Ho as Ho'.
  apply otherMembers_eq in Ho' as (Hn1 & Hc1 & _).
  rewrite deliver_app. erewrite bind_ok by exact Hrun.
  cbn [deliver]. unfold mbind, M_bind.
  rewrite (dispatch_decoded d p) by done.
  rewrite (accumulate_full _ c).
  2:{ simpl. rewrite Hb1, Hn1, HK, length_app. lia. }
  2:{ simpl. congruence. }
  eexists _, (default p (head (_dataPackets (node w) ++ ps))).
  split; [reflexivity|]. simpl. rewrite Hb1, Htr.
  unfold batch. rewrite !app_assoc.
  split; [by destruct (_dataPackets (node w) ++ ps)|].
  split; [done|]. split; [done|]. split; [done|].
  exact Ho.
Qed.

(** X8.  A shutdown does not clear the batch.  Packets that arrived before any
    number of timer events, whichever transitions those make, stay in the
    accumulator: the packets that arrive afterwards are appended to them, and
    the batch that is then completed starts with the old packets. *)
Theorem X8_partial_batch_outlives_shutdown (k : Z) (c : Calibration) (w : World)
    (ds1 ds2 : list Delivery) (d : Delivery) (cs : list nat)
    (ps1 ps2 : list DataPacket) :
  0 < k < 2 ^ 64 →
  _numDataPackets (node w) = k →
  _calibration (node w) = Some c →
  _dataPackets (node w) = [] →
  Forall2 (λ d p, decoded d = Some p) ds1 ps1 →
  Forall2 (λ d p, decoded d = Some p) (ds2 ++ [d]) ps2 →
  Z.of_nat (length ps1 + length ps2) = k →
  ∃ w1 w2 w3 new,
    deliver ds1 w = Ok () w1
    ∧ ticks cs w1 = Ok () w2
    ∧ _dataPackets (node w2) = ps1
    ∧ deliver (ds2 ++ [d]) w2 = Ok () w3
    ∧ trace w3 = trace w2 ++ new
    ∧ batchesOf new = [ps1 ++ ps2]
    ∧ _dataPackets (node w3) = [].
Proof.
  intros Hk Hn Hc Hb Hdec1 Hdec2 Hlen.
  assert (static_cast_size_t k = k) as HK by (apply Z.mod_small; lia).
  apply Forall2_app_inv_l in Hdec2 as (ps2' & pl & Hdec2 & Hdl & ->).
  apply Forall2_cons_inv_l in Hdl as (p & ps' & Hd & ->%Forall2_nil_inv_l & ->).
  rewrite length_app in Hlen. simpl in Hlen.
  pose proof (Forall2_length _ _ _ Hdec1) as Hl1.
  pose proof (Forall2_length _ _ _ Hdec2) as Hl2.
  destruct (deliver_partial ds1 ps1 Hdec1 w) as (w1 & Hr1 & Ht1 & Hb1 & Ho1).
  { rewrite Hb, Hn, HK. simpl. lia. }
  rewrite Hb in Hb1. simpl in Hb1.
  apply otherMembers_eq in Ho1 as (Hn1 & Hc1 & _).
  destruct (ticks_frame cs w1) as (w2 & tnew & Hr2 & Ht2 & _ & _ & Ho2 & Hb2 & _).
  assert (_numDataPackets (node w2) = k ∧ _calibration (node w2) = Some c)
    as [Hn2 Hc2].
  { split.
    - transitivity (_numDataPackets (node w1)); [|congruence].
      exact (f_equal _numDataPackets Ho2).
    - transitivity (_calibration (node w1)); [|congruence].
      exact (f_equal _calibration Ho2). }
  destruct (deliver_completes k c w2 ds2 d ps2' p)
    as (w3 & first & Hr3 & _ & Ht3 & Hb3 & _); try done.
  { by rewrite Hn2. }
  { rewrite Hb2, Hb1. lia. }
  exists w1, w2, w3. eexists. split; [done|]. split; [done|].
  split; [congruence|]. split; [done|]. split; [exact Ht3|].
  split; [|done]. by rewrite batchesOf_publishEvents, Hb2, Hb1.
Qed.

(** X9.  Messages follow batches.  Over any run of messages on a node with a
    calibration, every outbound message comes from an entry into [publish], at
    most one from each; when a consumer is present at every dispatch there is
    exactly one message for each batch, and when none ever is there is no
    message at all.  Every message has the shape the consumers rely on: one
    channel, named intensity, with one value per point. *)
Theorem X9_messages_follow_batches (ds : list Delivery) (w : World) :
  is_Some (_calibration (node w)) →
  ∃ w' new,
    resultWorld (deliver ds w) = Some w'
    ∧ trace w' = trace w ++ new
    ∧ (length (messagesOf new) ≤ length (batchesOf new))%nat
    ∧ (Forall (λ d, numSubscribersAt d ≠ 0%nat) ds →
       length (messagesOf new) = length (batchesOf new))
    ∧ (Forall (λ d, numSubscribersAt d = 0%nat) ds → messagesOf new = [])
    ∧ Forall wellShaped (messagesOf new).
Proof.
  revert w. induction ds as [|d ds IH]; intros w Hcal.
  - exists w, []. rewrite app_nil_r. by split_and!.
  - cbn [deliver]. unfold mbind, M_bind.
    destruct (dispatch_outcome d w)
      as [x Hd|p Hd Hk|p c' Hd Hk Hc'|p Hd Hk Hs Hc'].
    + eexists _, []. simpl. rewrite app_nil_r. by split_and!.
    + match goal with
      | |- context [deliver ds ?w1] =>
          destruct (IH w1) as (w' & new & Hr & Ht & Hle & Hall & Hnone & Hws);
            [done|]
      end.
      exists w', new. split; [done|]. split; [done|]. split; [done|].
      split; [|split; [|done]].
      * intros Hf. apply Hall. by inversion Hf.
      * intros Hf. apply Hnone. by inversion Hf.
    + match goal with
      | |- context [deliver ds ?w1] =>
          destruct (IH w1) as (w' & new & Hr & Ht & Hle & Hall & Hnone & Hws);
            [done|]
      end.
      eexists w', (_ ++ new). split; [done|].
      split; [by rewrite Ht; simpl; rewrite <- app_assoc|].
      rewrite batchesOf_app, messagesOf_app, batchesOf_publishEvents,
        messagesOf_publishEvents, !length_app.
      destruct (Nat.eqb_spec (numSubscribersAt d) 0) as [Hz|Hnz]; simpl.
      * split; [lia|]. split; [|split; [|done]].
        -- intros Hf. by inversion Hf.
        -- intros Hf. apply Hnone. by inversion Hf.
      * split; [lia|]. split; [|split].
        -- intros Hf. f_equal. apply Hall. by inversion Hf.
        -- intros Hf. by inversion Hf.
        -- constructor; [|done]. eexists. split; [reflexivity|].
           split; [done|]. simpl. by rewrite !length_fmap.
    + destruct Hcal as [c Hc]. congruence.
Qed.

(** X10.  [publish], in every state it can stamp.  It returns exactly when
    there is no consumer, or the batch is not empty and the calibration is
    there; it never throws; otherwise it reads the first element of an
    empty batch or dereferences a null calibration.  When it returns it has
    changed no member of the node.  Without a consumer it has emitted
    nothing beyond the entry; with one it has converted every packet of
    the batch and published one message, which carries the stored frame
    identifier and has one intensity value for each point. *)
Theorem X10_publish_in_every_state (numSubscribers : nat) (w : World) :
  let batch := _dataPackets (node w) in
  stampable batch →
  match publish numSubscribers w with
  | Ok _ w' =>
      node w' = node w
      ∧ (numSubscribers = 0%nat ∨ batch ≠ [] ∧ is_Some (_calibration (node w)))
      ∧ ∃ new, trace w' = trace w ++ EvCallPublish batch :: new
               ∧ (numSubscribers = 0%nat → new = [])
               ∧ (numSubscribers ≠ 0%nat →
                  ∃ m, new = (EvToPointCloud <$> batch) ++ [EvPublish m]
                       ∧ wellShaped m
                       ∧ std_msgs.frame_id (sensor_msgs.header m)
                         = _frameId (node w))
  | Raise _ _ => False
  | Undef u =>
      numSubscribers ≠ 0%nat
      ∧ (u = EmptyVectorAccess ∧ batch = []
         ∨ u = NullDereference ∧ batch ≠ [] ∧ _calibration (node w) = None)
  end.
Proof.
  intros batch _. unfold batch.
  destruct (decide (numSubscribers = 0%nat)) as [->|Hs].
  { rewrite publish_no_demand. simpl. split; [done|]. split; [by left|].
    exists []. by split_and!. }
  destruct (_dataPackets (node w)) as [|p0 b] eqn:Hb.
  { unfold publish. destruct (Nat.eqb_spec numSubscribers 0) as [|_]; [done|].
    do 2 (erewrite bind_ok by reflexivity). rewrite Hb. simpl.
    split; [done|]. by left. }
  destruct (_calibration (node w)) as [c|] eqn:Hc.
  - destruct (list.last (p0 :: b)) as [l|] eqn:Hl; [|by apply last_None in Hl].
    rewrite (publish_demand numSubscribers c p0 l) by (done || by rewrite Hb).
    simpl. split; [done|]. split; [right; by eauto|].
    unfold publishEvents. destruct (Nat.eqb_spec numSubscribers 0) as [|_]; [done|].
    rewrite Hb. eexists. split; [reflexivity|]. split; [done|].
    intros _. eexists. split; [reflexivity|]. split; [|done].
    eexists. split; [reflexivity|]. split; [done|].
    simpl. by rewrite !length_fmap.
  - rewrite publish_null by (done || by rewrite Hb).
    split; [done|]. right. by split_and!.
Qed.

(** ** Decoding and stamping *)

Lemma to_int64_small (t : Z) : - 2 ^ 63 ≤ t < 2 ^ 63 → to_int64 t = t.
Proof. intros Ht. unfold to_int64. rewrite Z.mod_small; lia. Qed.

Lemma to_int64_inj (t1 t2 : Z) :
  0 ≤ t1 < 2 ^ 64 → 0 ≤ t2 < 2 ^ 64 → to_int64 t1 = to_int64 t2 → t1 = t2.
Proof.
  intros H1 H2. unfold to_int64. intros Heq.
  pose proof (Z.div_mod (t1 + 2 ^ 63) (2 ^ 64) ltac:(lia)).
  pose proof (Z.div_mod (t2 + 2 ^ 63) (2 ^ 64) ltac:(lia)).
  pose proof (Z.mod_pos_bound (t1 + 2 ^ 63) (2 ^ 64) ltac:(lia)).
  pose proof (Z.mod_pos_bound (t2 + 2 ^ 63) (2 ^ 64) ltac:(lia)).
  lia.
Qed.

(** Both decode callbacks stamp the packet with the capture time of the
    message header. *)
Lemma decoded_timestamp (d : Delivery) (p : DataPacket) :
  decoded d = Some p →
  getTimestamp p = to_int64 (toNSec (std_msgs.stamp (headerOf d))).
Proof.
  destruct d as [s msg|s msg]; simpl.
  - by intros [= <-].
  - destruct (DataPacket_readBinary _) as [q|e]; [|done]. by intros [= <-].
Qed.

#[local] Instance toLaserData_inj : Inj (=) (=) toLaserData.
Proof. intros [d1 i1] [d2 i2]. unfold toLaserData. simpl. congruence. Qed.

#[local] Instance toDataChunk_inj : Inj (=) (=) toDataChunk.
Proof.
  intros [h1 r1 l1] [h2 r2 l2]. unfold toDataChunk. simpl.
  intros [= -> -> Hl]. by apply (inj (fmap toLaserData)) in Hl as ->.
Qed.

(** X11.  The raw decode loses nothing.  Two raw messages that decode to the
    same packet have the same chunks (header word, rotational position and
    every distance and intensity, in order), the same spin count and reserved
    word, and the same capture time. *)
Theorem X11_raw_decode_is_lossless (s1 s2 : nat) (m1 m2 : DataPacketMsg) :
  0 ≤ toNSec (std_msgs.stamp (dp_header m1)) < 2 ^ 64 →
  0 ≤ toNSec (std_msgs.stamp (dp_header m2)) < 2 ^ 64 →
  decoded (DataPacketDelivery s1 m1) = decoded (DataPacketDelivery s2 m2) →
  dataChunks m1 = dataChunks m2
  ∧ spinCount m1 = spinCount m2
  ∧ reserved m1 = reserved m2
  ∧ std_msgs.stamp (dp_header m1) = std_msgs.stamp (dp_header m2).
Proof.
  intros H1 H2. simpl. intros [= Hc Ht Hs Hr].
  apply (inj (fmap toDataChunk)) in Hc.
  apply to_int64_inj in Ht; [|done..].
  split_and!; try done.
  destruct (std_msgs.stamp (dp_header m1)), (std_msgs.stamp (dp_header m2)).
  simpl in Ht. by subst.
Qed.

Lemma roundHalf_between (x : Z) :
  Z.min 0 x ≤ roundHalf x ≤ Z.max 0 x.
Proof.
  unfold roundHalf. destruct (Z.leb_spec 0 x).
  - pose proof (Z.div_mod (x + 1) 2 ltac:(lia)).
    pose proof (Z.mod_pos_bound (x + 1) 2 ltac:(lia)). lia.
  - pose proof (Z.div_mod (- x + 1) 2 ltac:(lia)).
    pose proof (Z.mod_pos_bound (- x + 1) 2 ltac:(lia)). lia.
Qed.

(** X12.  From the message headers to the stamp of the cloud.  When the
    packets of [k] messages complete a batch with a consumer present, exactly
    one message is published; for capture times below [2^53] nanoseconds its
    stamp is the rounded midpoint of the capture times of the first and the
    last message of the batch, so it lies between the two, and its frame
    identifier is that of the last message. *)
Theorem X12_cloud_stamp_from_message_stamps (k : Z) (c : Calibration) (w : World)
    (ds : list Delivery) (d dfirst : Delivery) (ps : list DataPacket) :
  0 < k < 2 ^ 64 →
  _numDataPackets (node w) = k →
  _calibration (node w) = Some c →
  _dataPackets (node w) = [] →
  Forall2 (λ d p, decoded d = Some p) (ds ++ [d]) ps →
  Z.of_nat (length ps) = k →
  numSubscribersAt d ≠ 0%nat →
  head (ds ++ [d]) = Some dfirst →
  let tf := toNSec (std_msgs.stamp (headerOf dfirst)) in
  let tl := toNSec (std_msgs.stamp (headerOf d)) in
  0 ≤ tf < 2 ^ 53 →
  0 ≤ tl < 2 ^ 53 →
  ∃ w' m,
    deliver (ds ++ [d]) w = Ok () w'
    ∧ messagesOf (drop (length (trace w)) (trace w')) = [m]
    ∧ toNSec (std_msgs.stamp (sensor_msgs.header m)) = tf + roundHalf (tl - tf)
    ∧ Z.min tf tl ≤ toNSec (std_msgs.stamp (sensor_msgs.header m)) ≤ Z.max tf tl
    ∧ std_msgs.frame_id (sensor_msgs.header m)
      = std_msgs.frame_id (headerOf d).
Proof.
  intros Hk Hn Hc Hb Hdec Hlen Hs Hfirst tf tl Htf Htl.
  assert (static_cast_size_t (_numDataPackets (node w)) = k) as HK.
  { unfold static_cast_size_t. rewrite Hn. apply Z.mod_small. lia. }
  apply Forall2_app_inv_l in Hdec as (ps1 & pl & Hdec1 & Hdl & ->).
  apply Forall2_cons_inv_l in Hdl as (p & ps' & Hd & ->%Forall2_nil_inv_l & ->).
  rewrite length_app in Hlen. simpl in Hlen.
  pose proof (Forall2_length _ _ _ Hdec1) as Hl1.
  destruct (deliver_completes k c w ds d ps1 p)
    as (w' & first & Hrun & Hhead & Htr & _ & Hf & _); try done.
  { rewrite Hb. simpl. lia. }
  rewrite Hb in Hhead, Htr. simpl in Hhead, Htr.
  assert (decoded dfirst = Some first) as Hdf.
  { destruct Hdec1 as [|d0 p0 ds0 ps0 Hd0 _]; simpl in *; by simplify_eq. }
  assert (getTimestamp first = tf ∧ getTimestamp p = tl) as [Hgf Hgl].
  { rewrite (decoded_timestamp dfirst first), (decoded_timestamp d p) by done.
    rewrite !to_int64_small; [done|unfold tl; lia|unfold tf; lia]. }
  eexists w', _. split; [done|].
  rewrite Htr, drop_app_length, messagesOf_publishEvents.
  destruct (Nat.eqb_spec (numSubscribersAt d) 0) as [|_]; [done|].
  split; [reflexivity|]. simpl. rewrite Hgf, Hgl.
  rewrite DoubleFacts.midpoint_exact by done. unfold exactMidpoint.
  pose proof (roundHalf_between (tl - tf)).
  split; [done|]. split; [lia|done].
Qed.

(** ** What a constructed node is *)

(** X13.  Start-up establishes service.  Unless the calibration reader
    throws something other than an [IOException], or [reserve] rejects the
    number of data packets, the constructor completes and leaves a node in
    service: the calibration is the object the reader left, the node is
    Inactive with no subscription, the batch is empty, the publisher is
    advertised on the configured topic with the configured queue depth (as
    [uint32_t]), and the timer runs with the period [1.0 / rate].  The
    trace of start-up is the timer and the advertisement, in this order,
    with nothing around them but reports. *)
Theorem X13_startup_establishes_service (nh : ParamServer)
    (files : gmap string string) (raw : Node) (c' : Calibration)
    (r : option Exn) :
  Calibration_read (files !! resolvedCalibFileName nh) Calibration_default
    = (c', r) →
  (∀ what, r ≠ Some (OtherException what)) →
  static_cast_size_t (resolvedNumDataPackets nh raw) ≤ DataPacket_max_size →
  let period :=
    Double.div lit_1
      (param (param_double nh) "ros/subscription_updater_rate" lit_1) in
  let topic := param (param_string nh) "ros/point_cloud_topic_name" "point_cloud" in
  let queue := static_cast_uint32_t (param (param_int nh) "ros/queue_depth" 100) in
  ∃ w' reports1 reports2,
    VelodynePostNode nh files raw = Ok () w'
    ∧ InService (node w')
    ∧ _calibration (node w') = Some c'
    ∧ _subscriptionIsActive (node w') = false
    ∧ subscriptions (node w') = []
    ∧ _dataPackets (node w') = []
    ∧ _pointCloudPublisher (node w')
      = Some {| pub_topic := topic; pub_queue := queue |}
    ∧ _timer (node w') = Some period
    ∧ trace w'
      = reports1 ++ [EvCreateTimer period] ++ reports2
        ++ [EvAdvertise topic queue]
    ∧ Forall (λ e, isLog e = true) (reports1 ++ reports2).
Proof.
  intros Hread Hr Hcount period topic queue.
  assert (VelodynePostNode nh files raw = Ok () (startedWorld nh raw c' r))
    as ->.
  { rewrite (constructor_run nh files raw c' r Hread).
    destruct (Z.ltb_spec DataPacket_max_size
                (static_cast_size_t (resolvedNumDataPackets nh raw)));
      [lia|].
    destruct r as [[what|what]|]; [done|by destruct (Hr what)|done]. }
  assert (Forall (λ e, isLog e = true)
            (deviceReport nh ++ calibrationReport r ++ transportReport nh))
    as Hlogs.
  { unfold deviceReport, calibrationReport, transportReport. cbv zeta.
    repeat apply Forall_app_2.
    - destruct (String.eqb _ "Velodyne HDL-64E S2");
        [|destruct (String.eqb _ "Velodyne HDL-32E")]; by repeat constructor.
    - destruct r as [[what|what]|]; by repeat constructor.
    - destruct (String.eqb _ "udp"); [|destruct (String.eqb _ "tcp")];
        by repeat constructor. }
  eexists _, (deviceReport nh), (calibrationReport r ++ transportReport nh).
  split; [reflexivity|].
  split; [split; [by eexists|reflexivity]|].
  split_and!; try done.
  unfold startedWorld. cbn [trace]. by rewrite <- ?app_assoc.
Qed.

(** X14.  A calibration that loads is used as read, in silence: when the
    reader returns, and [reserve] accepts the number of data packets, the
    constructor completes, the node holds the calibration the reader
    produced and start-up has logged no warning. *)
Theorem X14_calibration_load_success (nh : ParamServer)
    (files : gmap string string) (raw : Node) (c' : Calibration) :
  Calibration_read (files !! resolvedCalibFileName nh) Calibration_default
    = (c', None) →
  static_cast_size_t (resolvedNumDataPackets nh raw) ≤ DataPacket_max_size →
  ∃ w', VelodynePostNode nh files raw = Ok () w'
        ∧ _calibration (node w') = Some c'
        ∧ ∀ text, EvLog WARN text ∉ trace w'.
Proof.
  intros Hread Hcount. rewrite (constructor_run nh files raw c' None Hread).
  destruct (Z.ltb_spec DataPacket_max_size
              (static_cast_size_t (resolvedNumDataPackets nh raw)));
    [lia|].
  eexists. split; [reflexivity|]. split; [done|].
  intros text. unfold startedWorld. cbn [trace calibrationReport].
  unfold deviceReport, transportReport. cbv zeta.
  destruct (String.eqb _ "Velodyne HDL-64E S2");
    [|destruct (String.eqb _ "Velodyne HDL-32E")].
  all: destruct (String.eqb _ "udp"); [|destruct (String.eqb _ "tcp")].
  all: rewrite ?not_elem_of_app, ?not_elem_of_cons.
  all: split_and?; try done; apply not_elem_of_nil.
Qed.

(** X15.  The configuration reaches the subscription.  On a node whose
    construction completed, the first timer event that finds a consumer
    subscribes the input selected by [use_binary_snappy] (the compressed
    one unless configured otherwise) on its configured topic, with the
    configured queue depth (as [uint32_t]) and with both transports in the
    hints, the configured one first (no hint at all for an unknown
    transport type). *)
Theorem X15_first_subscription_is_the_configured_one (nh : ParamServer)
    (files : gmap string string) (raw : Node) (w' : World) (c : nat) :
  VelodynePostNode nh files raw = Ok () w' →
  c ≠ 0%nat →
  let useBinarySnappy := param (param_bool nh) "ros/use_binary_snappy" true in
  let tt := param (param_string nh) "ros/transport_type" "udp" in
  let s :=
    {| sub_topic :=
         if useBinarySnappy
         then param (param_string nh) "ros/velodyne_binary_snappy_topic_name"
                "/velodyne/binary_snappy"
         else param (param_string nh) "ros/velodyne_data_packet_topic_name"
                "/velodyne/data_packet";
       sub_queue :=
         static_cast_uint32_t (param (param_int nh) "ros/queue_depth" 100);
       sub_callback :=
         if useBinarySnappy then velodyneBinarySnappyCb
         else velodyneDataPacketCb;
       sub_hints :=
         if (tt =? "udp")%string then [UDP; TCP]
         else if (tt =? "tcp")%string then [TCP; UDP]
         else [] |} in
  ∃ w'',
    updateSubscription c w' = Ok () w''
    ∧ trace w'' = trace w' ++ [EvSubscribe s]
    ∧ subscriptions (node w'') = [sub_callback s]
    ∧ _subscriptionIsActive (node w'') = true.
Proof.
  intros Hrun Hc useBinarySnappy tt s.
  destruct (Calibration_read (files !! resolvedCalibFileName nh)
              Calibration_default) as [c' r] eqn:Hread.
  rewrite (constructor_run nh files raw c' r Hread) in Hrun.
  assert (w' = startedWorld nh raw c' r) as ->.
  { destruct r as [[what|what]|]; [|done|].
    all: destruct (DataPacket_max_size <? _); [done|]; by injection Hrun. }
  rewrite tick_activates by done.
  eexists. split; [reflexivity|].
  unfold activated, setSelectedSubscriber, subscriptions,
    selectedSubscription, selectedCallback, startedWorld, s.
  cbn. fold useBinarySnappy. by destruct useBinarySnappy.
Qed.

(** X16.  The configuration of a fresh deployment.  When the server resolves
    none of the parameter names, the node is configured for the HDL-32E: 174
    packets to a revolution, the calibration file [conf/calib-HDL-32E.dat],
    the thresholds 0.9 and 120, the compressed input on
    [/velodyne/binary_snappy], the output on [point_cloud] with queue depth
    100, the transport type [udp], and a timer of one second; nothing is
    reported. *)
Theorem X16_fresh_deployment_defaults (nh : ParamServer) (raw : Node) :
  Forall (unset nh) parameterNames →
  ∃ w1, getParameters {| node := member_init nh raw; trace := [] |} = Ok () w1
        ∧ _deviceName (node w1) = "Velodyne HDL-32E"
        ∧ _numDataPackets (node w1) = 174
        ∧ _calibFileName (node w1) = "conf/calib-HDL-32E.dat"
        ∧ _minDistance (node w1) = lit_0_9
        ∧ _maxDistance (node w1) = lit_120
        ∧ _useBinarySnappy (node w1) = true
        ∧ _velodyneBinarySnappyTopicName (node w1) = "/velodyne/binary_snappy"
        ∧ _velodyneDataPacketTopicName (node w1) = "/velodyne/data_packet"
        ∧ _queueDepth (node w1) = 100
        ∧ _pointCloudTopicName (node w1) = "point_cloud"
        ∧ _transportType (node w1) = "udp"
        ∧ _timer (node w1) = Some lit_1
        ∧ trace w1 = [EvCreateTimer lit_1].
Proof.
  intros Hunset. rewrite getParameters_run. eexists. split; [reflexivity|].
  unfold parameterNames in Hunset.
  repeat match goal with
         | H : Forall _ (_ :: _) |- _ =>
             apply Forall_cons in H as [(? & ? & ? & ?) H]
         end.
  unfold configuredNode, resolvedCalibFileName, resolvedNumDataPackets,
    deviceReport, param.
  cbn [node trace _deviceName _numDataPackets _calibFileName _minDistance
       _maxDistance _useBinarySnappy _velodyneBinarySnappyTopicName
       _velodyneDataPacketTopicName _pointCloudTopicName _queueDepth
       _transportType _timer].
  repeat match goal with H : _ !! _ = None |- _ => rewrite !H; clear H end.
  split_and!; reflexivity.
Qed.

End Operation.

(** ** The node on the bench *)

(** Start-up with an unknown device and an unknown transport, no
    calibration file: three reports, and the constructor completes with
    the file name, the packet count and the hints as member initialisation
    left them. *)
Example startup_with_unknown_names :
  let r := @VelodynePostNode Bench.lenient Bench.unknownNames ∅
             Bench.zeroStorage in
  resultException r = None
  ∧ trace <$> resultWorld r
    = Some [ EvLog ERROR "Unknown device: VLP-16";
             EvCreateTimer lit_1;
             EvLog WARN "IOException: Calibration::read(): cannot read";
             EvLog ERROR "Unknown transport type: shm";
             EvAdvertise "point_cloud" 100 ]
  ∧ (λ w, (_calibFileName (node w), _numDataPackets (node w),
           _transportHints (node w))) <$> resultWorld r
    = Some (""%string, 0, []).
Proof. repeat split; vm_compute; reflexivity. Qed.

(** Five ticks with the counts 0, 0, 1, 1, 0 on a node configured for raw
    packets: one subscription and one shutdown. *)
Example five_ticks :
  trace <$> resultWorld
              (@ticks Bench.lenient [0; 0; 1; 1; 0]%nat
                 (Bench.ready Bench.lenient 2 Bench.table))
  = Some [ EvSubscribe {| sub_topic := ""; sub_queue := 0;
                          sub_callback := velodyneDataPacketCb;
                          sub_hints := [] |};
           EvShutdown velodyneDataPacketCb ].
Proof. vm_compute. reflexivity. Qed.

(** C4 fails as stated.  For two packets stamped 1400000000000000001 and
    1400000000100000001 nanoseconds the published stamp is
    1400000000049999872, while the midpoint is 1400000000050000001. *)
Lemma C4_stamp_is_rounded_to_a_double :
  let r := @deliver Bench.lenient Bench.lateDeliveries
             (Bench.ready Bench.lenient 2 Bench.table) in
  (λ w, (λ m, toNSec (std_msgs.stamp (sensor_msgs.header m)))
          <$> messagesOf (trace w)) <$> resultWorld r
  = Some [1400000000049999872]
  ∧ resultException r = None
  ∧ exactMidpoint 1400000000000000001 1400000000100000001
    = 1400000000050000001
  ∧ midpoint 1400000000000000001 1400000000100000001
    ≠ exactMidpoint 1400000000000000001 1400000000100000001.
Proof.
  repeat split; try (vm_compute; reflexivity).
  intros Heq. vm_compute in Heq. discriminate.
Qed.

(** C1 fails as stated.  A compressed message with an empty buffer does
    not decompress.  With a reader that returns a packet all the same, the
    callback appends that packet to the batch in progress, which grows
    from one packet to two, and reports nothing.  With a reader that
    throws, the exception leaves the callback. *)
Lemma C1_corrupt_message_is_appended :
  let w := setBatch [Bench.rawPacket 5 []] (Bench.ready Bench.lenient 3 Bench.table) in
  let r := @velodyneBinarySnappyCallback Bench.lenient 1 Bench.corruptMsg w in
  let w' := setBatch [Bench.rawPacket 5 []] (Bench.ready Bench.strict 3 Bench.table) in
  let r' := @velodyneBinarySnappyCallback Bench.strict 1 Bench.corruptMsg w' in
  @decodeFails Bench.lenient Bench.corruptMsg
  ∧ resultException r = None
  ∧ (λ w, _dataPackets (node w)) <$> resultWorld r
    = Some [Bench.rawPacket 5 []; setTimestamp 7 Bench.zeroPacket]
  ∧ trace <$> resultWorld r = Some []
  ∧ @decodeFails Bench.strict Bench.corruptMsg
  ∧ resultException r'
    = Some (IOException "DataPacket::readBinary(): end of stream").
Proof.
  repeat split; try (vm_compute; reflexivity); by left.
Qed.

(** Four packets with [k = 2]: two batches of two, in order. *)
Lemma C3_batch_sizing_witness :
  ∃ w' new,
    @deliver Bench.lenient Bench.fourDeliveries
      (Bench.ready Bench.lenient 2 Bench.table) = Ok () w'
    ∧ trace w' = [] ++ new
    ∧ length (batchesOf new) = 2%nat
    ∧ Forall (λ b, Z.of_nat (length b) = 2) (batchesOf new)
    ∧ concat (batchesOf new) = Bench.fourPackets
    ∧ _dataPackets (node w') = [].
Proof.
  refine (proj1 (@C3_batch_sizing Bench.lenient 2 Bench.table
                   (Bench.ready Bench.lenient 2 Bench.table)
                   Bench.fourDeliveries Bench.fourPackets 2 _ _ _ _ _ _)).
  - lia.
  - reflexivity.
  - reflexivity.
  - reflexivity.
  - repeat constructor.
  - reflexivity.
Defined.

(** The first batch completes with no subscriber, the second with two. *)
Lemma C2_demand_gating_witness :
  let w := Bench.ready Bench.lenient 2 Bench.table in
  ∃ w1 w2 first last,
    @deliver Bench.lenient (take 2 Bench.fourDeliveries) w = Ok () w1
    ∧ trace w1 = trace w ++ [EvCallPublish (take 2 Bench.fourPackets)]
    ∧ _dataPackets (node w1) = []
    ∧ @deliver Bench.lenient (drop 2 Bench.fourDeliveries) w1 = Ok () w2
    ∧ head (drop 2 Bench.fourPackets) = Some first
    ∧ list.last (drop 2 Bench.fourPackets) = Some last
    ∧ trace w2
      = trace w1 ++ [EvCallPublish (drop 2 Bench.fourPackets)]
          ++ (EvToPointCloud <$> drop 2 Bench.fourPackets)
          ++ [EvPublish (cloudMessage (node w2) Bench.table first last
                           (drop 2 Bench.fourPackets))]
    ∧ _dataPackets (node w2) = [].
Proof.
  refine (@C2_demand_gating Bench.lenient 2 Bench.table
            (Bench.ready Bench.lenient 2 Bench.table)
            [DataPacketDelivery 1 (Bench.rawMsg "velodyne" 1000 [])]
            [DataPacketDelivery 0 (Bench.rawMsg "velodyne" 5000 [])]
            (DataPacketDelivery 0 (Bench.rawMsg "velodyne" 3000 []))
            (DataPacketDelivery 2 (Bench.rawMsg "velodyne" 7000 []))
            (take 2 Bench.fourPackets) (drop 2 Bench.fourPackets)
            _ _ _ _ _ _ _ _ _ _).
  - lia.
  - reflexivity.
  - reflexivity.
  - reflexivity.
  - repeat constructor.
  - repeat constructor.
  - reflexivity.
  - reflexivity.
  - reflexivity.
  - discriminate.
Defined.

(** First packet at 1000, last at 3000: the message is stamped 2000. *)
Lemma C4_timestamp_midpoint_witness :
  let w := setBatch [Bench.rawPacket 1000 []; Bench.rawPacket 3000 []]
             (Bench.ready Bench.lenient 2 Bench.table) in
  ∃ m, @publish Bench.lenient 1 w
       = Ok () (addEvents
                  ([EvCallPublish (_dataPackets (node w))]
                   ++ (EvToPointCloud <$> _dataPackets (node w))
                   ++ [EvPublish m]) w)
       ∧ toNSec (std_msgs.stamp (sensor_msgs.header m)) = 2000.
Proof.
  intros w.
  destruct (@C4_timestamp_midpoint Bench.lenient 1 Bench.table
              (Bench.rawPacket 1000 []) (Bench.rawPacket 3000 []) w)
    as (m & Hrun & _ & Hexact).
  - discriminate.
  - reflexivity.
  - reflexivity.
  - reflexivity.
  - exists m. split; [exact Hrun|].
    rewrite Hexact; [reflexivity|simpl; lia|simpl; lia].
Defined.

(** Returns at 0.5, 1.0, 60.0 and 150.0 with the thresholds 0.9 and
    120.0: the returns at 1.0 and 60.0 are kept. *)
Lemma C5_distance_filter_witness :
  let w := setBatch [Bench.rawPacket 1000 Bench.fourDistances]
             (Bench.ready Bench.lenient 1 Bench.table) in
  let cloud :=
    (λ r, Bench.convert r.2 r.1 Bench.table)
      <$> keptReturns lit_0_9 lit_120 (_dataPackets (node w)) in
  (∃ m, @publish Bench.lenient 1 w
        = Ok () (addEvents
                   ([EvCallPublish (_dataPackets (node w))]
                    ++ (EvToPointCloud <$> _dataPackets (node w))
                    ++ [EvPublish m]) w)
        ∧ sensor_msgs.points m = toPoint32 <$> cloud)
  ∧ mDistance ∘ snd <$> keptReturns lit_0_9 lit_120 (_dataPackets (node w))
    = [Double.of_Z 1; Double.of_Z 60].
Proof.
  intros w cloud. split.
  - destruct (@C5_distance_filter Bench.lenient 1 Bench.table
                (Bench.rawPacket 1000 Bench.fourDistances)
                (Bench.rawPacket 1000 Bench.fourDistances) w)
      as ((m & Hrun & Hpts & _) & _).
    + discriminate.
    + reflexivity.
    + reflexivity.
    + reflexivity.
    + exists m. split; [exact Hrun|exact Hpts].
  - vm_compute. reflexivity.
Defined.

(** A consumer comes and goes on a node that publishes every two packets. *)
Lemma X2_demand_round_trip_witness :
  let w := Bench.ready Bench.lenient 2 Bench.table in
  ∃ w', @ticks Bench.lenient [1; 0]%nat w = Ok () w'
        ∧ node w' = node w
        ∧ trace w'
          = trace w ++ [EvSubscribe (selectedSubscription (node w));
                        EvShutdown (selectedCallback (node w))].
Proof.
  apply (@X2_demand_round_trip Bench.lenient 1).
  - split; [by eexists|reflexivity].
  - reflexivity.
  - discriminate.
Defined.

(** A subscription, a raw packet and a shutdown. *)
Lemma X3_one_subscription_at_a_time_witness :
  let w := Bench.ready Bench.lenient 2 Bench.table in
  ∃ w' new,
    resultWorld (@spin Bench.lenient Bench.shortVisit w) = Some w'
    ∧ subscriptions (node w')
      = (if _subscriptionIsActive (node w')
         then [selectedCallback (node w)] else [])
    ∧ configuration (node w') = configuration (node w)
    ∧ trace w' = trace w ++ new
    ∧ Forall (operational (node w)) new.
Proof.
  apply (@X3_one_subscription_at_a_time Bench.lenient).
  split; [by eexists|reflexivity].
Defined.

Lemma X4_subscriptions_balance_witness :
  let w := Bench.ready Bench.lenient 2 Bench.table in
  ∃ w' new,
    resultWorld (@spin Bench.lenient Bench.shortVisit w) = Some w'
    ∧ trace w' = trace w ++ new
    ∧ lifecycle (_subscriptionIsActive (node w)) new
      = Some (_subscriptionIsActive (node w'))
    ∧ (countOf isSubscribe new + Nat.b2n (_subscriptionIsActive (node w))
       = countOf isShutdown new
         + Nat.b2n (_subscriptionIsActive (node w')))%nat.
Proof.
  apply (@X4_subscriptions_balance Bench.lenient).
  split; [by eexists|reflexivity].
Defined.

Lemma X5_spin_is_defined_witness :
  let w := Bench.ready Bench.lenient 2 Bench.table in
  (∃ w', @spin Bench.lenient Bench.shortVisit w = Ok () w')
  ∨ (Exists (@undecodable Bench.lenient) Bench.shortVisit
     ∧ ∃ x w', @spin Bench.lenient Bench.shortVisit w = Raise x w').
Proof.
  apply (@X5_spin_is_defined Bench.lenient).
  split; [by eexists|reflexivity].
Defined.

(** A configured count of zero: two packets, and nothing but appends. *)
Lemma X6_batch_out_of_reach_witness :
  let w := Bench.ready Bench.lenient 0 Bench.table in
  ∃ w', @deliver Bench.lenient (take 2 Bench.fourDeliveries) w = Ok () w'
        ∧ trace w' = trace w
        ∧ _dataPackets (node w') = _dataPackets (node w) ++ take 2 Bench.fourPackets.
Proof.
  apply (@X6_batch_out_of_reach Bench.lenient).
  - discriminate.
  - repeat constructor.
Defined.

(** One packet held and three more, with [k = 2]: two batches, none left. *)
Lemma X7_batching_from_any_state_witness :
  let w := setBatch [Bench.rawPacket 5 []]
             (Bench.ready Bench.lenient 2 Bench.table) in
  ∃ w' new,
    @deliver Bench.lenient (take 3 Bench.fourDeliveries) w = Ok () w'
    ∧ trace w' = trace w ++ new
    ∧ Z.of_nat (length (batchesOf new)) = 4 / 2
    ∧ Z.of_nat (length (_dataPackets (node w'))) = 4 mod 2
    ∧ Forall (λ b, Z.of_nat (length b) = 2) (batchesOf new)
    ∧ concat (batchesOf new) ++ _dataPackets (node w')
      = _dataPackets (node w) ++ take 3 Bench.fourPackets.
Proof.
  apply (@X7_batching_from_any_state Bench.lenient 2 Bench.table).
  - lia.
  - reflexivity.
  - reflexivity.
  - reflexivity.
  - repeat constructor.
Defined.

(** One packet, a consumer that comes and goes, one more packet: the batch
    is the two packets. *)
Lemma X8_partial_batch_outlives_shutdown_witness :
  let w := Bench.ready Bench.lenient 2 Bench.table in
  ∃ w1 w2 w3 new,
    @deliver Bench.lenient (take 1 Bench.fourDeliveries) w = Ok () w1
    ∧ @ticks Bench.lenient [1; 0]%nat w1 = Ok () w2
    ∧ _dataPackets (node w2) = take 1 Bench.fourPackets
    ∧ @deliver Bench.lenient ([] ++ [DataPacketDelivery 0 (Bench.rawMsg "velodyne" 3000 [])]) w2
      = Ok () w3
    ∧ trace w3 = trace w2 ++ new
    ∧ batchesOf new = [take 1 Bench.fourPackets ++ [Bench.rawPacket 3000 []]]
    ∧ _dataPackets (node w3) = [].
Proof.
  apply (@X8_partial_batch_outlives_shutdown Bench.lenient 2 Bench.table).
  - lia.
  - reflexivity.
  - reflexivity.
  - reflexivity.
  - repeat constructor.
  - repeat constructor.
  - reflexivity.
Defined.

Lemma X9_messages_follow_batches_witness :
  let w := Bench.ready Bench.lenient 2 Bench.table in
  ∃ w' new,
    resultWorld (@deliver Bench.lenient Bench.fourDeliveries w) = Some w'
    ∧ trace w' = trace w ++ new
    ∧ (length (messagesOf new) ≤ length (batchesOf new))%nat
    ∧ (Forall (λ d, numSubscribersAt d ≠ 0%nat) Bench.fourDeliveries →
       length (messagesOf new) = length (batchesOf new))
    ∧ (Forall (λ d, numSubscribersAt d = 0%nat) Bench.fourDeliveries →
       messagesOf new = [])
    ∧ Forall wellShaped (messagesOf new).
Proof.
  apply (@X9_messages_follow_batches Bench.lenient).
  by eexists.
Defined.

(** Two raw messages that differ in their frame identifier only. *)
Lemma X11_raw_decode_is_lossless_witness :
  let m1 := Bench.rawMsg "front" 1000 Bench.fourDistances in
  let m2 := Bench.rawMsg "rear" 1000 Bench.fourDistances in
  dataChunks m1 = dataChunks m2
  ∧ spinCount m1 = spinCount m2
  ∧ reserved m1 = reserved m2
  ∧ std_msgs.stamp (dp_header m1) = std_msgs.stamp (dp_header m2).
Proof.
  apply (@X11_raw_decode_is_lossless Bench.lenient 1 0).
  - simpl. lia.
  - simpl. lia.
  - reflexivity.
Defined.

(** Messages captured at 1000 and 3000: the cloud is stamped 2000. *)
Lemma X12_cloud_stamp_from_message_stamps_witness :
  let w := Bench.ready Bench.lenient 2 Bench.table in
  let d1 := DataPacketDelivery 1 (Bench.rawMsg "velodyne" 1000 []) in
  let d2 := DataPacketDelivery 1 (Bench.rawMsg "velodyne" 3000 []) in
  ∃ w' m,
    @deliver Bench.lenient ([d1] ++ [d2]) w = Ok () w'
    ∧ messagesOf (drop (length (trace w)) (trace w')) = [m]
    ∧ toNSec (std_msgs.stamp (sensor_msgs.header m)) = 1000 + roundHalf (3000 - 1000)
    ∧ Z.min 1000 3000 ≤ toNSec (std_msgs.stamp (sensor_msgs.header m))
      ≤ Z.max 1000 3000
    ∧ std_msgs.frame_id (sensor_msgs.header m) = "velodyne".
Proof.
  apply (@X12_cloud_stamp_from_message_stamps Bench.lenient 2 Bench.table
           (Bench.ready Bench.lenient 2 Bench.table)
           [DataPacketDelivery 1 (Bench.rawMsg "velodyne" 1000 [])]
           (DataPacketDelivery 1 (Bench.rawMsg "velodyne" 3000 []))
           (DataPacketDelivery 1 (Bench.rawMsg "velodyne" 1000 []))
           [Bench.rawPacket 1000 []; Bench.rawPacket 3000 []]).
  - lia.
  - reflexivity.
  - reflexivity.
  - reflexivity.
  - repeat constructor.
  - reflexivity.
  - discriminate.
  - reflexivity.
  - simpl. lia.
  - simpl. lia.
Defined.

(** Start-up without parameters, with a calibration file of four entries. *)
Lemma X13_startup_establishes_service_witness :
  ∃ w' reports1 reports2,
    @VelodynePostNode Bench.lenient Bench.noParams Bench.calibrationFiles
      Bench.zeroStorage = Ok () w'
    ∧ InService (node w')
    ∧ _calibration (node w') = Some [1; 2; 3; 4]
    ∧ _subscriptionIsActive (node w') = false
    ∧ subscriptions (node w') = []
    ∧ _dataPackets (node w') = []
    ∧ _pointCloudPublisher (node w')
      = Some {| pub_topic := "point_cloud"; pub_queue := 100 |}
    ∧ _timer (node w') = Some (Double.div lit_1 lit_1)
    ∧ trace w'
      = reports1 ++ [EvCreateTimer (Double.div lit_1 lit_1)] ++ reports2
        ++ [EvAdvertise "point_cloud" 100]
    ∧ Forall (λ e, isLog e = true) (reports1 ++ reports2).
Proof.
  apply (@X13_startup_establishes_service Bench.lenient Bench.noParams
           Bench.calibrationFiles Bench.zeroStorage [1; 2; 3; 4] None).
  - reflexivity.
  - discriminate.
  - discriminate.
Defined.

Lemma X14_calibration_load_success_witness :
  ∃ w', @VelodynePostNode Bench.lenient Bench.noParams Bench.calibrationFiles
          Bench.zeroStorage = Ok () w'
        ∧ _calibration (node w') = Some [1; 2; 3; 4]
        ∧ ∀ text, EvLog WARN text ∉ trace w'.
Proof.
  apply (@X14_calibration_load_success Bench.lenient Bench.noParams
           Bench.calibrationFiles Bench.zeroStorage [1; 2; 3; 4]).
  - reflexivity.
  - discriminate.
Defined.

(** Without parameters the first subscription is that of the compressed
    input, over UDP before TCP. *)
Lemma X15_first_subscription_is_the_configured_one_witness :
  let w' := @startedWorld Bench.lenient Bench.noParams Bench.zeroStorage
              [1; 2; 3; 4] None in
  @VelodynePostNode Bench.lenient Bench.noParams Bench.calibrationFiles
    Bench.zeroStorage = Ok () w'
  ∧ ∃ w'',
      @updateSubscription Bench.lenient 1 w' = Ok () w''
      ∧ trace w''
        = trace w'
          ++ [EvSubscribe {| sub_topic := "/velodyne/binary_snappy";
                             sub_queue := 100;
                             sub_callback := velodyneBinarySnappyCb;
                             sub_hints := [UDP; TCP] |}]
      ∧ subscriptions (node w'') = [velodyneBinarySnappyCb]
      ∧ _subscriptionIsActive (node w'') = true.
Proof.
  assert (@VelodynePostNode Bench.lenient Bench.noParams Bench.calibrationFiles
            Bench.zeroStorage
          = Ok () (@startedWorld Bench.lenient Bench.noParams Bench.zeroStorage
                     [1; 2; 3; 4] None)) as Hrun.
  { rewrite (@constructor_run Bench.lenient Bench.noParams
               Bench.calibrationFiles Bench.zeroStorage [1; 2; 3; 4] None);
      reflexivity. }
  split; [exact Hrun|].
  apply (@X15_first_subscription_is_the_configured_one Bench.lenient
           Bench.noParams Bench.calibrationFiles Bench.zeroStorage _ 1 Hrun).
  discriminate.
Defined.

Lemma X16_fresh_deployment_defaults_witness :
  ∃ w1, @getParameters Bench.lenient
          {| node := member_init Bench.noParams Bench.zeroStorage; trace := [] |}
        = Ok () w1
        ∧ _deviceName (node w1) = "Velodyne HDL-32E"
        ∧ _numDataPackets (node w1) = 174
        ∧ _calibFileName (node w1) = "conf/calib-HDL-32E.dat"
        ∧ _minDistance (node w1) = lit_0_9
        ∧ _maxDistance (node w1) = lit_120
        ∧ _useBinarySnappy (node w1) = true
        ∧ _velodyneBinarySnappyTopicName (node w1) = "/velodyne/binary_snappy"
        ∧ _velodyneDataPacketTopicName (node w1) = "/velodyne/data_packet"
        ∧ _queueDepth (node w1) = 100
        ∧ _pointCloudTopicName (node w1) = "point_cloud"
        ∧ _transportType (node w1) = "udp"
        ∧ _timer (node w1) = Some lit_1
        ∧ trace w1 = [EvCreateTimer lit_1].
Proof.
  apply (@X16_fresh_deployment_defaults Bench.lenient Bench.noParams
           Bench.zeroStorage).
  repeat constructor.
Defined.

(** A batch of two packets captured at 1000 and 3000. *)
Lemma X10_publish_in_every_state_witness :
  let w := setBatch [Bench.rawPacket 1000 []; Bench.rawPacket 3000 []]
             (Bench.ready Bench.lenient 2 Bench.table) in
  match @publish Bench.lenient 1 w with
  | Ok _ w' =>
      node w' = node w
      ∧ (1%nat = 0%nat
         ∨ _dataPackets (node w) ≠ [] ∧ is_Some (_calibration (node w)))
      ∧ ∃ new, trace w' = trace w ++ EvCallPublish (_dataPackets (node w)) :: new
               ∧ (1%nat = 0%nat → new = [])
               ∧ (1%nat ≠ 0%nat →
                  ∃ m, new = (EvToPointCloud <$> _dataPackets (node w))
                             ++ [EvPublish m]
                       ∧ wellShaped m
                       ∧ std_msgs.frame_id (sensor_msgs.header m)
                         = _frameId (node w))
  | Raise _ _ => False
  | Undef u =>
      1%nat ≠ 0%nat
      ∧ (u = EmptyVectorAccess ∧ _dataPackets (node w) = []
         ∨ u = NullDereference ∧ _dataPackets (node w) ≠ []
           ∧ _calibration (node w) = None)
  end.
Proof.
  apply (@X10_publish_in_every_state Bench.lenient 1).
  intros first last [= <-] [= <-]. repeat split; try done.
Defined.

(** The file of the default device is missing. *)
Lemma reader_loadsModelOrError : @loadsModelOrError Bench.lenient.
Proof.
  intros [s|] c c' e; simpl; unfold Bench.readCalibration.
  - destruct (Bench.readEntries s); by intros [= <- _].
  - by intros [= <- _].
Qed.

Lemma C7_calibration_load_failure_witness :
  ∃ w', @VelodynePostNode Bench.lenient Bench.noParams ∅ Bench.zeroStorage
        = Ok () w'
        ∧ EvLog WARN "IOException: Calibration::read(): cannot read" ∈ trace w'
        ∧ _calibration (node w') = Some [0; 0; 0; 0].
Proof.
  refine (proj1 (@C7_calibration_load_failure Bench.lenient Bench.noParams
                   ∅ Bench.zeroStorage "Calibration::read(): cannot read"
                   reader_loadsModelOrError _) _).
  - reflexivity.
  - discriminate.
Defined.

(** An unknown device, and storage in which the bits of the packet count
    were all set: the constructor is left by [std::length_error]. *)
Lemma C8_startup_after_a_configuration_error_witness :
  let r := @VelodynePostNode Bench.lenient Bench.unknownNames ∅
             Bench.staleStorage in
  resultException r = Some length_error
  ∧ (λ w, _numDataPackets (node w)) <$> resultWorld r = Some (-1).
Proof.
  intros r.
  destruct (@C8_startup_after_a_configuration_error Bench.lenient
              Bench.unknownNames ∅ Bench.staleStorage [0; 0; 0; 0]
              (Some (IOException "Calibration::read(): cannot read")))
    as (_ & _ & _ & Habort).
  - reflexivity.
  - discriminate.
  - unfold r. rewrite Habort.
    + split; reflexivity.
    + by vm_compute.
    + by vm_compute.
    + reflexivity.
    + simpl. lia.
Defined.
